(** * Campaign engine of the twitter radar system: a shallow embedding

    The development follows the Python sources under [backend]:

    - [modules/campaign/post_filter.py]        (modules [PostFilter], [PostObjects])
    - [modules/campaign/interaction_mapper.py] (module [InteractionMapper])
    - [modules/campaign/auto_replier.py]       (module [AutoReplier])
    - [modules/campaign/campaign_manager.py]   (modules [CampaignManager], [Analysis])
    - [modules/scheduler/rate_limiter.py]      (module [RateLimiter])
    - [modules/scheduler/task_scheduler.py]    (module [TaskScheduler])
    - [modules/integrations/twitter_adapter.py] (module [TwitterAdapter])
    - [modules/campaign/campaign_logger.py]    (module [CampaignLogger])
    - [modules/tracking/link_shortener.py]     (module [LinkShortener])
    - [modules/tracking/analytics_collector.py] (module [AnalyticsCollector])
    - [api/tracking.py], [api/campaigns.py]    (modules [TrackingApi], [CampaignsApi])

    Conventions of the embedding.

    - Python [int] is [Z]; [str] is [string] (a byte string: [lower] and
      [strip] act on ASCII letters and ASCII white space only);
      [datetime] is a [Z] count of microseconds of naive local time.
    - A Python [dict] holding a database document or an outcome is a
      [gmap string value]; the dictionaries that the code builds with a
      fixed set of keys and never stores before use (tweets, matched posts
      inside the filter) are records.
    - An exception is the [Raise] case of [outcome]; code that talks to the
      outside world (platform client, language model) runs in the monad
      [M W], a state-and-exception monad over an arbitrary world [W] whose
      handlers are the fields of an interface record.  The state survives a
      raised exception, as side effects do in Python.
    - Logging, progress events and pacing sleeps have no influence on any
      returned value or stored record and are left out of the components;
      the logger that receives the progress events is modelled on its own. *)

From Stdlib Require Import ZArith String Ascii List Sorting.Sorted Lia.
From stdpp Require Import base gmap strings list pretty sorting.

(** ** Exceptions and the world monad *)

Inductive outcome (A : Type) : Type :=
| Ok (a : A)
| Raise (msg : string).
Arguments Ok {A} a.
Arguments Raise {A} msg.

Global Instance outcome_eq_dec {A} `{EqDecision A} : EqDecision (outcome A).
Proof. solve_decision. Defined.

(** Sequencing of code that may raise but has no other effect. *)
Definition and_then {A B} (o : outcome A) (k : A → outcome B) : outcome B :=
  match o with
  | Ok a => k a
  | Raise e => Raise e
  end.

Definition M (W A : Type) : Type := W → outcome A * W.

Definition ret {W A} (a : A) : M W A := λ w, (Ok a, w).

Definition raise {W A} (msg : string) : M W A := λ w, (Raise msg, w).

Definition bind {W A B} (m : M W A) (k : A → M W B) : M W B :=
  λ w, match m w with
       | (Ok a, w') => k a w'
       | (Raise e, w') => (Raise e, w')
       end.

(** [try: m except Exception as e: h e] *)
Definition try_except {W A} (m : M W A) (h : string → M W A) : M W A :=
  λ w, match m w with
       | (Ok a, w') => (Ok a, w')
       | (Raise e, w') => h e w'
       end.

Definition lift {W A} (o : outcome A) : M W A := λ w, (o, w).

Declare Scope py_scope.
Delimit Scope py_scope with py.
Notation "'let*' x ':=' m 'in' k" := (bind m (λ x, k))
  (at level 10, x pattern, m at level 100, k at level 200) : py_scope.
Notation "'do' m 'in' k" := (bind m (λ _, k))
  (at level 10, m at level 100, k at level 200) : py_scope.
Notation "'let?' x ':=' o 'in' k" := (and_then o (λ x, k))
  (at level 10, x pattern, o at level 100, k at level 200) : py_scope.

(** ** Python strings *)

Module Str.

Definition lower_ascii (c : ascii) : ascii :=
  let n := N_of_ascii c in
  if ((65 <=? n) && (n <=? 90))%N then ascii_of_N (n + 32) else c.


(** [s.lower()] for a string of ASCII characters: the letters [A] to [Z]
    become [a] to [z] and nothing else changes.  Python folds other
    letters too; the statements that rest on the folding of case are
    stated for strings with [isascii]. *)
Fixpoint lower (s : string) : string :=
  match s with
  | EmptyString => EmptyString
  | String c s' => String (lower_ascii c) (lower s')
  end.

(** [needle in hay] *)
Fixpoint contains (needle hay : string) : bool :=
  String.prefix needle hay ||
  match hay with
  | EmptyString => false
  | String _ hay' => contains needle hay'
  end.

(** The rest of [s] after the literal [p], when [s] starts with [p]. *)
Fixpoint strip_prefix (p s : string) : option string :=
  match p, s with
  | EmptyString, _ => Some s
  | String a p', String b s' =>
      if Ascii.eqb a b then strip_prefix p' s' else None
  | String _ _, EmptyString => None
  end.

(** The longest prefix of [s] made of characters in [P], and what follows. *)
Fixpoint span (P : ascii → bool) (s : string) : string * string :=
  match s with
  | EmptyString => (EmptyString, EmptyString)
  | String c s' =>
      if P c then let '(a, b) := span P s' in (String c a, b)
      else (EmptyString, s)
  end.

Fixpoint lstrip_chars (P : ascii → bool) (s : string) : string :=
  match s with
  | EmptyString => EmptyString
  | String c s' => if P c then lstrip_chars P s' else s
  end.

Definition rstrip_chars (P : ascii → bool) (s : string) : string :=
  String.rev (lstrip_chars P (String.rev s)).

Definition strip_chars (P : ascii → bool) (s : string) : string :=
  rstrip_chars P (lstrip_chars P s).

(** White space as [str.isspace] sees it on ASCII. *)
Definition is_space (c : ascii) : bool :=
  let n := N_of_ascii c in
  (((9 <=? n) && (n <=? 13)) || ((28 <=? n) && (n <=? 32)))%N.

(** [s.strip()] *)
Definition strip (s : string) : string := strip_chars is_space s.

(** [s.strip('@')] *)
Definition strip_at (s : string) : string :=
  strip_chars (Ascii.eqb "@"%char) s.

(** [sep.join(l)] *)
Fixpoint join (sep : string) (l : list string) : string :=
  match l with
  | [] => EmptyString
  | [s] => s
  | s :: l' => s +:+ sep +:+ join sep l'
  end.

(** A decimal digit, as [\d] sees it on ASCII. *)
Definition is_digit (c : ascii) : bool :=
  let n := N_of_ascii c in
  ((48 <=? n) && (n <=? 57))%N.

(** No character of [s] is [c]. *)
Definition absent (c : ascii) (s : string) : bool :=
  forallb (λ x, negb (Ascii.eqb x c)) (list_ascii_of_string s).

(** [s.split(sep)] for a separator of one character: the pieces between
    the separators, at least one. *)
Fixpoint split (sep : ascii) (s : string) : list string :=
  match s with
  | EmptyString => [EmptyString]
  | String c s' =>
      if Ascii.eqb c sep then EmptyString :: split sep s'
      else match split sep s' with
           | piece :: pieces => String c piece :: pieces
           | [] => [String c EmptyString]
           end
  end.

End Str.

(** ** Python values stored in documents *)

Inductive value : Type :=
| VNone
| VBool (b : bool)
| VInt (n : Z)
| VStr (s : string)
| VTime (t : Z)
| VOid (o : string)
| VStrs (l : list string).

Global Instance value_eq_dec : EqDecision value.
Proof. solve_decision. Defined.

Abbreviation doc := (gmap string value).

(** Truth value of a Python object in a condition. *)
Definition truthy (v : value) : bool :=
  match v with
  | VNone => false
  | VBool b => b
  | VInt n => negb (n =? 0)%Z
  | VStr s => negb (String.eqb s "")
  | VTime _ => true
  | VOid _ => true
  | VStrs l => match l with [] => false | _ => true end
  end.

(** A dictionary literal [{k1: v1, k2: v2, ...}]. *)
Definition dict (items : list (string * value)) : doc :=
  fold_left (λ d '(k, v), <[k := v]> d) items ∅.

(** [d.get(k, default)] *)
Definition get_default (d : doc) (k : string) (default : value) : value :=
  match d !! k with Some v => v | None => default end.

(** [d.get(k)] *)
Definition get (d : doc) (k : string) : value := get_default d k VNone.

(** [d[k]] *)
Definition getitem (d : doc) (k : string) : outcome value :=
  match d !! k with Some v => Ok v | None => Raise ("KeyError: " +:+ k) end.

(** ** The platform adapter as the campaign components see it

    [modules/integrations/twitter_adapter.py], class [TwitterAdapter]: the
    methods that the filter, the mapper and the replier call.  Each method
    is a handler over the world [W]; it may answer differently each time and
    it may raise. *)

(** A tweet dictionary as [get_user_tweets] builds it (lines 151-160). *)
Record tweet : Type := Tweet {
  tw_tweet_id : string;
  tw_text : string;
  tw_created_at : string;
  tw_created_at_datetime : Z;
  tw_likes : Z;
  tw_retweets : Z;
  tw_replies : Z;
  tw_url : string
}.

(** The dictionary appended to [user_matches] (post_filter.py, lines 80-89),
    with the two keys that [_parse_grok_analysis] adds later. *)
Record post : Type := Post {
  tweet_id : string;
  username : string;
  text : string;
  created_at : string;
  likes : Z;
  retweets : Z;
  url : string;
  matched_keywords : list string;
  grok_approved : option bool;
  grok_reason : option string
}.

Global Instance post_eq_dec : EqDecision post.
Proof. solve_decision. Defined.

(** [{"likers": [...], "retweeters": [...]}] *)
Record interactions : Type := Interactions {
  likers : list string;
  retweeters : list string
}.

(** The answer of [analyze_tweets_with_grok]: [{"success": True,
    "analysis": text, ...}] or [{"success": False, "error": e}]. *)
Inductive grok_result : Type :=
| GrokSuccess (analysis : string)
| GrokFailure (error : string).

(** The f-string [analysis_prompt] of [_filter_with_grok] has a fixed text;
    what varies are the four interpolated pieces. *)
Record analysis_prompt : Type := AnalysisPrompt {
  prompt_name : value;
  prompt_reply_template : value;
  prompt_target_url : value;
  prompt_keywords : string
}.

Record TwitterApi (W : Type) : Type := {
  api_is_authenticated : W → bool;   (* the attribute [is_authenticated] *)
  get_user_tweets :
    string (* username *) → Z (* count *) → Z (* lookback_days *) →
    M W (list tweet);
  get_tweet_interactions : string (* tweet_id *) → M W interactions;
  create_tweet : string (* text *) → value (* reply_to *) → M W doc;
  analyze_tweets_with_grok :
    list post → analysis_prompt → string (* model *) → M W grok_result;
  generate_reply_with_grok :
    value (* tweet_text *) → value (* author *) → value (* template *) →
    value (* url *) → value (* model *) → M W (option string)
}.
Arguments api_is_authenticated {W}.
Arguments get_user_tweets {W}.
Arguments get_tweet_interactions {W}.
Arguments create_tweet {W}.
Arguments analyze_tweets_with_grok {W}.
Arguments generate_reply_with_grok {W}.

(** The same adapter with another [create_tweet]. *)
Definition with_create_tweet {W} (other : string → value → M W doc)
    (twitter : TwitterApi W) : TwitterApi W :=
  {| api_is_authenticated := api_is_authenticated twitter;
     get_user_tweets := get_user_tweets twitter;
     get_tweet_interactions := get_tweet_interactions twitter;
     create_tweet := other;
     analyze_tweets_with_grok := analyze_tweets_with_grok twitter;
     generate_reply_with_grok := generate_reply_with_grok twitter |}.

(** ** The adapter over the platform client
       ([modules/integrations/twitter_adapter.py])

    The client class ([platforms.twitter.client.client.Client]) is an
    external library: its methods are the handlers of [Client W].  The
    adapter's own attributes ([is_authenticated], [client], [user]) and the
    clock are read from the world. *)

Record client_user : Type := ClientUser {
  user_id : string;
  screen_name : string
}.

Record client_tweet : Type := ClientTweet {
  ct_id : string;
  ct_text : string;
  ct_created_at : string;
  ct_created_at_datetime : Z;
  ct_favorite_count : Z;
  ct_retweet_count : Z;
  ct_reply_count : Z
}.

(** [TooManyRequests] is the one exception class that the adapter tells
    apart from the others; it is an answer of its own here. *)
Inductive create_answer : Type :=
| Created (t : client_tweet)
| TooManyRequests (msg : string).

Record Client (W : Type) : Type := {
  is_authenticated : W → bool;          (* is_authenticated and client *)
  adapter_user : W → client_user;       (* self.user *)
  utc_now : W → Z;                      (* datetime.now(timezone.utc) *)
  client_get_user_by_screen_name : string → M W client_user;
  client_get_user_tweets : string → string → Z → M W (list client_tweet);
  client_get_favoriters : string → Z → M W (list client_user);
  client_get_retweeters : string → Z → M W (list client_user);
  client_create_tweet : string → value → M W create_answer;
  (* create_grok_conversation() followed by conversation.generate(...) *)
  client_grok_analysis : analysis_prompt → list post → string → M W string;
  client_grok_reply :
    value → value → value → value → value → M W string
}.
Arguments is_authenticated {W}.
Arguments adapter_user {W}.
Arguments utc_now {W}.
Arguments client_get_user_by_screen_name {W}.
Arguments client_get_user_tweets {W}.
Arguments client_get_favoriters {W}.
Arguments client_get_retweeters {W}.
Arguments client_create_tweet {W}.
Arguments client_grok_analysis {W}.
Arguments client_grok_reply {W}.

Definition microseconds_per_day : Z := 86400000000.

(** The generated reply stripped of white space and then of double quotes,
    cut to 277 characters and an ellipsis when longer than 280
    (twitter_adapter.py, lines 393-397; auto_replier.py, lines 145-148). *)
Definition clean_reply (message : string) : string :=
  let reply_text :=
    Str.strip_chars (Ascii.eqb (ascii_of_nat 34)) (Str.strip message) in
  if (280 <? String.length reply_text)%nat
  then String.substring 0 277 reply_text +:+ "..."
  else reply_text.

Module TwitterAdapter.
Section WithClient.
Context {W : Type} (client : Client W).

Local Open Scope py_scope.

Definition _check_authenticated : M W unit :=
  λ w, if is_authenticated client w then (Ok (), w)
       else (Raise "Twitter client not authenticated. Please call initialize_from_file() first.", w).

(** The loop of lines 144-160; [break] at the first tweet older than
    the look-back. *)
Fixpoint collect_tweets (username : string) (now lookback_days : Z)
    (result : list client_tweet) : list tweet :=
  match result with
  | [] => []
  | t :: result' =>
      let tweet_age := ((now - ct_created_at_datetime t) / microseconds_per_day)%Z in
      if negb (lookback_days =? 0)%Z && (tweet_age >? lookback_days)%Z then []
      else
        {| tw_tweet_id := ct_id t;
           tw_text := ct_text t;
           tw_created_at := ct_created_at t;
           tw_created_at_datetime := ct_created_at_datetime t;
           tw_likes := ct_favorite_count t;
           tw_retweets := ct_retweet_count t;
           tw_replies := ct_reply_count t;
           tw_url := "https://x.com/" +:+ username +:+ "/status/" +:+ ct_id t |}
        :: collect_tweets username now lookback_days result'
  end.

Definition get_user_tweets (username : string) (count lookback_days : Z)
  : M W (list tweet) :=
  do _check_authenticated in
  try_except
    (let username := Str.strip_at username in
     let* user := client_get_user_by_screen_name client username in
     let* result := client_get_user_tweets client (user_id user) "Tweets" count in
     λ w, (Ok (collect_tweets username (utc_now client w) lookback_days result), w))
    (λ _, ret []).

Definition get_tweet_interactions (tweet_id : string) : M W interactions :=
  do _check_authenticated in
  let* likers :=
    try_except
      (let* favoriters := client_get_favoriters client tweet_id 50 in
       ret (screen_name <$> favoriters))
      (λ _, ret []) in
  let* retweeters :=
    try_except
      (let* retweeters := client_get_retweeters client tweet_id 50 in
       ret (screen_name <$> retweeters))
      (λ _, ret []) in
  ret {| likers := likers; retweeters := retweeters |}.

Definition create_tweet (text : string) (reply_to : value) : M W doc :=
  do _check_authenticated in
  try_except
    (let* answer := client_create_tweet client text reply_to in
     match answer with
     | Created t =>
         λ w, (Ok ({[ "success" := VBool true;
                      "tweet_id" := VStr (ct_id t);
                      "url" := VStr ("https://x.com/" +:+
                                     screen_name (adapter_user client w) +:+
                                     "/status/" +:+ ct_id t);
                      "text" := VStr (ct_text t) ]} : doc), w)
     | TooManyRequests _ =>
         ret ({[ "success" := VBool false;
                 "error" := VStr "Twitter rate limit exceeded";
                 "rate_limit" := VBool true ]} : doc)
     end)
    (λ e, ret ({[ "success" := VBool false; "error" := VStr e ]} : doc)).

Definition analyze_tweets_with_grok (tweets : list post)
    (analysis_prompt : analysis_prompt) (model : string) : M W grok_result :=
  do _check_authenticated in
  try_except
    (let* message :=
       client_grok_analysis client analysis_prompt (take 20 tweets) model in
     ret (GrokSuccess (Str.strip message)))
    (λ e, ret (GrokFailure e)).

Definition generate_reply_with_grok
    (tweet_text author template url model : value) : M W (option string) :=
  do _check_authenticated in
  try_except
    (let* message := client_grok_reply client tweet_text author template url model in
     ret (Some (clean_reply message)))
    (λ _, ret None).

Definition api : TwitterApi W :=
  Build_TwitterApi W (is_authenticated client)
                   get_user_tweets get_tweet_interactions create_tweet
                   analyze_tweets_with_grok generate_reply_with_grok.

End WithClient.
End TwitterAdapter.

(** The message of [_check_authenticated]. *)
Definition unauthenticated : string :=
  "Twitter client not authenticated. Please call initialize_from_file() first.".

(** A method that raises in a world without a session, before it calls
    the client, and that returns in every other world. *)
Definition guarded {W A} (client : Client W) (m : M W A) : Prop :=
  ∀ w, if is_authenticated client w
       then ∃ a w', m w = (Ok a, w')
       else m w = (Raise unauthenticated, w).

(** The age of a tweet in whole days:
    [(datetime.now(timezone.utc) - tweet.created_at_datetime).days]. *)
Definition age_in_days (now : Z) (t : client_tweet) : Z :=
  ((now - ct_created_at_datetime t) / microseconds_per_day)%Z.

(** ** Post filter ([modules/campaign/post_filter.py]) *)

Module PostFilter.

(** *** Keyword matching (lines 125-151) *)

Definition _matches_keywords (text : string) (keywords : list string) : bool :=
  let text_lower := Str.lower text in
  existsb (λ keyword, Str.contains (Str.lower keyword) text_lower) keywords.

Definition _get_matched_keywords (text : string) (keywords : list string)
  : list string :=
  let text_lower := Str.lower text in
  List.filter (λ kw, Str.contains (Str.lower kw) text_lower) keywords.

(** The dictionary literal of lines 80-89. *)
Definition make_post (username : string) (tw : tweet) (matched_kw : list string)
  : post :=
  {| tweet_id := tw_tweet_id tw;
     username := username;
     text := tw_text tw;
     created_at := tw_created_at tw;
     likes := tw_likes tw;
     retweets := tw_retweets tw;
     url := tw_url tw;
     matched_keywords := matched_kw;
     grok_approved := None;
     grok_reason := None |}.

(** The loop [for tweet in tweets] of lines 76-93; [user_matches] is the
    list built so far, and [break] leaves the loop. *)
Fixpoint keyword_loop (username : string) (keywords : list string)
    (max_posts_per_user : Z) (tweets : list tweet) (user_matches : list post)
  : list post :=
  match tweets with
  | [] => user_matches
  | tw :: tweets' =>
      if _matches_keywords (tw_text tw) keywords then
        let matched_kw := _get_matched_keywords (tw_text tw) keywords in
        let user_matches := user_matches ++ [make_post username tw matched_kw] in
        if (Z.of_nat (length user_matches) >=? max_posts_per_user)%Z
        then user_matches
        else keyword_loop username keywords max_posts_per_user tweets' user_matches
      else keyword_loop username keywords max_posts_per_user tweets' user_matches
  end.




(** *** The pattern of [_parse_grok_analysis] (line 242)

    [tweet_id=([^;]+);suitable=([^;]+)(?:;reason=([^\n]+))?]

    Both [[^;]+] groups are followed by a literal [;] or by the end of the
    pattern, so the only length at which the rest can match is the longest
    run; no backtracking is needed. *)

Definition not_semicolon (c : ascii) : bool := negb (Ascii.eqb c ";"%char).
Definition not_newline (c : ascii) : bool := negb (Ascii.eqb c "010"%char).

(** A match of the pattern at the start of [s]: the three groups (an
    absent group is the empty string, as [re.findall] reports it) and the
    length of the matched text. *)
Definition match_here (s : string) : option (string * string * string * nat) :=
  match Str.strip_prefix "tweet_id=" s with
  | None => None
  | Some r1 =>
      let '(g1, r2) := Str.span not_semicolon r1 in
      if String.eqb g1 "" then None else
      match Str.strip_prefix ";suitable=" r2 with
      | None => None
      | Some r3 =>
          let '(g2, r4) := Str.span not_semicolon r3 in
          if String.eqb g2 "" then None else
          let n := (9 + String.length g1 + 10 + String.length g2)%nat in
          match Str.strip_prefix ";reason=" r4 with
          | None => Some (g1, g2, "", n)
          | Some r5 =>
              let '(g3, _) := Str.span not_newline r5 in
              if String.eqb g3 "" then Some (g1, g2, "", n)
              else Some (g1, g2, g3, (n + 8 + String.length g3)%nat)
          end
      end
  end.

(** [re.findall]: scan left to right; after a match the scan resumes
    behind it.  [skip] counts the characters of the last match that are
    still to be passed over. *)
Fixpoint findall_from (skip : nat) (s : string)
  : list (string * string * string) :=
  match s with
  | EmptyString => []
  | String _ s' =>
      match skip with
      | S k => findall_from k s'
      | O =>
          match match_here s with
          | Some (g, n) => g :: findall_from (Nat.pred n) s'
          | None => findall_from 0 s'
          end
      end
  end.

Definition findall (s : string) : list (string * string * string) :=
  findall_from 0 s.

(** The two line formats that the prompt asks the model for
    (lines 192-197). *)
Definition suitable_line (id reason : string) : string :=
  "tweet_id=" +:+ id +:+ ";suitable=yes;reason=" +:+ reason.

Definition unsuitable_line (id : string) : string :=
  "tweet_id=" +:+ id +:+ ";suitable=no".

Definition newline : string := String "010" "".

(** An identifier and a reason that can be written on a line for a
    suitable tweet: neither is empty, the identifier has no semicolon and
    the reason no line feed. *)
Definition readable (line : string * string) : Prop :=
  line.1 ≠ "" ∧ forallb not_semicolon (list_ascii_of_string line.1) = true ∧
  line.2 ≠ "" ∧ forallb not_newline (list_ascii_of_string line.2) = true.

(** *** [_parse_grok_analysis] (lines 224-262)

    The posts are Python objects shared between [original_posts] and
    [suitable_posts]: setting [grok_reason] on a post is seen through every
    reference to it.  The loop therefore keeps the posts in place, updates
    them by position and collects positions; the references are read at
    the end. *)

Definition approve (reason : string) (p : post) : post :=
  {| tweet_id := tweet_id p;
     username := username p;
     text := text p;
     created_at := created_at p;
     likes := likes p;
     retweets := retweets p;
     url := url p;
     matched_keywords := matched_keywords p;
     grok_approved := Some true;
     grok_reason := Some reason |}.

(** The post [q] as the match [m] leaves it: the match names the tweet of
    [q], says yes, and its reason is recorded. *)
Definition approved_by (m : string * string * string) (q p : post) : Prop :=
  Str.strip m.1.1 = tweet_id q ∧
  Str.lower (Str.strip m.1.2) = "yes" ∧
  p = approve (Str.strip m.2) q.

(** [next((p for p in original_posts if str(p['tweet_id']) == tweet_id), None)],
    as a position. *)
Fixpoint find_post (tid : string) (posts : list post) : option nat :=
  match posts with
  | [] => None
  | p :: posts' =>
      if String.eqb (tweet_id p) tid then Some O
      else S <$> find_post tid posts'
  end.

Fixpoint parse_loop (matches : list (string * string * string))
    (original_posts : list post) (suitable : list nat)
  : list post * list nat :=
  match matches with
  | [] => (original_posts, suitable)
  | (m0, m1, m2) :: matches' =>
      let tid := Str.strip m0 in
      let is_suitable := String.eqb (Str.lower (Str.strip m1)) "yes" in
      let reason := Str.strip m2 in
      if is_suitable then
        match find_post tid original_posts with
        | Some i =>
            parse_loop matches' (alter (approve reason) i original_posts)
                       (suitable ++ [i])
        | None => parse_loop matches' original_posts suitable
        end
      else parse_loop matches' original_posts suitable
  end.

(** The state of the loop: every post is the original at its position,
    untouched or approved by a match of the text, and the positions
    collected are positions of approved posts. *)
Definition parse_inv (all : list (string * string * string))
    (original posts : list post) (suitable : list nat) : Prop :=
  (∀ i p, posts !! i = Some p →
     ∃ q, original !! i = Some q ∧
          (p = q ∨ ∃ m, m ∈ all ∧ approved_by m q p)) ∧
  (∀ i, i ∈ suitable →
     ∃ p q m, posts !! i = Some p ∧ original !! i = Some q ∧
              m ∈ all ∧ approved_by m q p).

Definition _parse_grok_analysis (analysis_text : string)
    (original_posts : list post) : list post :=
  let matches := findall analysis_text in
  let '(posts, suitable) := parse_loop matches original_posts [] in
  omap (λ i, posts !! i) suitable.

(** *** The filter proper *)

Section WithAdapter.
Context {W : Type} (twitter : TwitterApi W).

Local Open Scope py_scope.

(** [', '.join(campaign_context.get('keywords', []))]: a list of
    strings or a string can be joined, anything else is a [TypeError]. *)
Definition join_keywords (campaign_context : doc) : outcome string :=
  match campaign_context !! "keywords" with
  | None => Ok (Str.join ", " [])
  | Some (VStrs l) => Ok (Str.join ", " l)
  | Some (VStr s) =>
      Ok (Str.join ", " ((λ c, String c "") <$> list_ascii_of_string s))
  | Some _ => Raise "TypeError: can only join an iterable"
  end.

Definition build_prompt (campaign_context : doc) : outcome analysis_prompt :=
  match join_keywords campaign_context with
  | Raise e => Raise e
  | Ok kws =>
      Ok {| prompt_name := get_default campaign_context "name" (VStr "Campaign");
            prompt_reply_template :=
              get_default campaign_context "reply_template" (VStr "");
            prompt_target_url :=
              get_default campaign_context "target_url" (VStr "");
            prompt_keywords := kws |}
  end.

(** [_filter_with_grok] (lines 153-222).  The prompt is built before the
    [try]; the call and the parsing are inside it. *)
Definition _filter_with_grok (posts : list post) (campaign_context : doc)
  : M W (list post) :=
  match posts with
  | [] => ret []
  | _ =>
      let* analysis_prompt := lift (build_prompt campaign_context) in
      try_except
        (let* result :=
           analyze_tweets_with_grok twitter posts analysis_prompt "grok-3" in
         match result with
         | GrokFailure _ => ret posts
         | GrokSuccess analysis_text =>
             ret (_parse_grok_analysis analysis_text posts)
         end)
        (λ _, ret posts)
  end.

(** The loop [for i, username in enumerate(usernames)] (lines 63-111):
    a username whose fetch raises is skipped. *)
Fixpoint users_loop (usernames : list string) (keywords : list string)
    (lookback_days max_posts_per_user : Z) (matching_posts : list post)
  : M W (list post) :=
  match usernames with
  | [] => ret matching_posts
  | username :: usernames' =>
      let* matching_posts :=
        try_except
          (let* tweets := get_user_tweets twitter username 50 lookback_days in
           let user_matches :=
             keyword_loop username keywords max_posts_per_user tweets [] in
           ret (matching_posts ++ user_matches))
          (λ _, ret matching_posts) in
      users_loop usernames' keywords lookback_days max_posts_per_user
                 matching_posts
  end.

(** The keyword-matched candidates, before the optional AI gate. *)
Definition keyword_matched_posts (usernames keywords : list string)
    (lookback_days max_posts_per_user : Z) : M W (list post) :=
  users_loop usernames keywords lookback_days max_posts_per_user [].

(** [if use_grok_filter and matching_posts and campaign_context] *)
Definition gate_enabled (use_grok_filter : bool) (matching_posts : list post)
    (campaign_context : option doc) : option doc :=
  if use_grok_filter then
    match matching_posts, campaign_context with
    | _ :: _, Some ctx => if decide (ctx = ∅) then None else Some ctx
    | _, _ => None
    end
  else None.

Definition find_matching_posts (usernames keywords : list string)
    (lookback_days max_posts_per_user : Z) (use_grok_filter : bool)
    (campaign_context : option doc) : M W (list post) :=
  let* matching_posts :=
    keyword_matched_posts usernames keywords lookback_days
                          max_posts_per_user in
  match gate_enabled use_grok_filter matching_posts campaign_context with
  | Some ctx => _filter_with_grok matching_posts ctx
  | None => ret matching_posts
  end.

End WithAdapter.

End PostFilter.

(** ** Interaction mapper ([modules/campaign/interaction_mapper.py]) *)

(** One row of the result (lines 128-132). *)
Record score_entry : Type := ScoreEntry {
  se_username : string;
  interaction_score : Z;
  last_interaction : Z
}.

Module InteractionMapper.

(** [interaction_scores = defaultdict(int)]: a dictionary keeps its keys in
    insertion order, and that order decides ties below, so it is an
    association list with one entry per key. *)
Definition scores : Type := list (string * Z).

(** [interaction_scores[k] += n] *)
Fixpoint add_score (k : string) (n : Z) (d : scores) : scores :=
  match d with
  | [] => [(k, (0 + n)%Z)]
  | (k', v) :: d' =>
      if String.eqb k' k then (k', (v + n)%Z) :: d'
      else (k', v) :: add_score k n d'
  end.

(** [interaction_scores.pop(k, None)] *)
Fixpoint pop (k : string) (d : scores) : scores :=
  match d with
  | [] => []
  | (k', v) :: d' =>
      if String.eqb k' k then d' else (k', v) :: pop k d'
  end.

(** [interaction_scores.get(k, 0)] *)
Definition score_of (k : string) (d : scores) : Z :=
  match List.find (λ p : string * Z, String.eqb p.1 k) d with
  | Some p => p.2
  | None => 0
  end.

(** The points that the interactions of one tweet give to a user: one for
    each listing among the likers, two for each among the retweeters. *)
Definition points (k : string) (i : interactions) : Z :=
  (Z.of_nat (length (filter (λ u, u = k) (likers i)))
   + 2 * Z.of_nat (length (filter (λ u, u = k) (retweeters i))))%Z.

Definition total_points (k : string) (seen : list interactions) : Z :=
  foldr (λ i n, (points k i + n)%Z) 0%Z seen.

(** Every entry holds at least one point. *)
Definition scored (d : scores) : Prop := Forall (λ p, (1 <= p.2)%Z) d.

(** The usernames of the interactions read, in the order in which the
    loops meet them: the likers of a tweet, then its retweeters. *)
Definition usernames_met (seen : list interactions) : list string :=
  seen ≫= (λ i, likers i ++ retweeters i).

(** [u] is met before [v] is met for the first time. *)
Definition met_before (met : list string) (u v : string) : Prop :=
  ∃ l1 l2, met = l1 ++ u :: l2 ∧ (v ∉ l1) ∧ (u ≠ v).

(** The keys of the dictionary are the usernames met, each once, in the
    order in which they were first met. *)
Definition keys_as_met (keys met : list string) : Prop :=
  NoDup keys ∧
  (∀ k, k ∈ keys ↔ k ∈ met) ∧
  (∀ u v, [u; v] `sublist_of` keys → met_before met u v).

(** [for u in users: interaction_scores[u] += n] *)
Definition score_users (n : Z) (users : list string) (d : scores) : scores :=
  fold_left (λ d u, add_score u n d) users d.

(** Lines 114-117. *)
Definition remove_seeds (seed_users : list string) (d : scores) : scores :=
  fold_left (λ d seed, pop (Str.strip_at seed) d) seed_users d.

(** [sorted(items, key=lambda x: x[1], reverse=True)]: Python's sort is
    stable, also with [reverse=True], and a stable sort has one possible
    result; insertion from the right computes it. *)
Fixpoint insert_desc (x : string * Z) (l : list (string * Z))
  : list (string * Z) :=
  match l with
  | [] => [x]
  | y :: l' =>
      if (snd x <? snd y)%Z then y :: insert_desc x l' else x :: y :: l'
  end.

Definition sorted_by_score (items : list (string * Z)) : list (string * Z) :=
  foldr insert_desc [] items.

(** [l[:n]] for a Python integer [n]: a negative [n] counts from the end. *)
Definition slice_to {A} (n : Z) (l : list A) : list A :=
  if (0 <=? n)%Z then take (Z.to_nat n) l
  else take (length l - Z.to_nat (- n)) l.

(** The row built for one [(username, score)] pair (lines 128-132). *)
Definition entry (now : Z) (p : string * Z) : score_entry :=
  {| se_username := p.1; interaction_score := p.2; last_interaction := now |}.

Definition pair_of (e : score_entry) : string * Z :=
  (se_username e, interaction_score e).

(** Descending order of score. *)
Definition by_score (a b : string * Z) : Prop := (snd b <= snd a)%Z.

Section WithAdapter.
Context {W : Type} (twitter : TwitterApi W).

(** The loop over one seed user's tweets (lines 80-99).  An exception of
    [get_tweet_interactions] leaves the loop and is caught by the
    [except] of the seed loop; the scores added so far stay. *)
Fixpoint tweets_loop (tweets : list tweet) (interaction_scores : scores)
    (w : W) : scores * W :=
  match tweets with
  | [] => (interaction_scores, w)
  | tw :: tweets' =>
      match get_tweet_interactions twitter (tw_tweet_id tw) w with
      | (Ok interactions, w') =>
          let interaction_scores :=
            score_users 1 (likers interactions) interaction_scores in
          let interaction_scores :=
            score_users 2 (retweeters interactions) interaction_scores in
          tweets_loop tweets' interaction_scores w'
      | (Raise _, w') => (interaction_scores, w')
      end
  end.

(** The loop over the seed users (lines 62-112). *)
Fixpoint seeds_loop (seed_users : list string) (lookback_days : Z)
    (interaction_scores : scores) (w : W) : scores * W :=
  match seed_users with
  | [] => (interaction_scores, w)
  | seed_username :: seed_users' =>
      match get_user_tweets twitter seed_username 20 lookback_days w with
      | (Ok tweets, w') =>
          let '(interaction_scores, w'') :=
            tweets_loop tweets interaction_scores w' in
          seeds_loop seed_users' lookback_days interaction_scores w''
      | (Raise _, w') =>
          seeds_loop seed_users' lookback_days interaction_scores w'
      end
  end.

(** The interactions that the two loops read, in the order in which they
    read them. *)
Fixpoint tweets_seen (tweets : list tweet) (w : W) : list interactions * W :=
  match tweets with
  | [] => ([], w)
  | tw :: tweets' =>
      match get_tweet_interactions twitter (tw_tweet_id tw) w with
      | (Ok interactions, w') =>
          let '(seen, w'') := tweets_seen tweets' w' in
          (interactions :: seen, w'')
      | (Raise _, w') => ([], w')
      end
  end.

Fixpoint seeds_seen (seed_users : list string) (lookback_days : Z) (w : W)
  : list interactions :=
  match seed_users with
  | [] => []
  | seed_username :: seed_users' =>
      match get_user_tweets twitter seed_username 20 lookback_days w with
      | (Ok tweets, w') =>
          let '(seen, w'') := tweets_seen tweets w' in
          seen ++ seeds_seen seed_users' lookback_days w''
      | (Raise _, w') => seeds_seen seed_users' lookback_days w'
      end
  end.

(** The dictionary after the seed users were removed: its order is the
    order in which the usernames were first met. *)
Definition candidate_scores (seed_users : list string) (lookback_days : Z)
    (w : W) : scores :=
  remove_seeds seed_users (seeds_loop seed_users lookback_days [] w).1.

Definition find_top_interacted_users (seed_users : list string)
    (top_n lookback_days : Z) (now : Z) (w : W) : list score_entry * W :=
  let '(interaction_scores, w') := seeds_loop seed_users lookback_days [] w in
  let interaction_scores := remove_seeds seed_users interaction_scores in
  let sorted_users := slice_to top_n (sorted_by_score interaction_scores) in
  (entry now <$> sorted_users, w').

End WithAdapter.
End InteractionMapper.

(** ** The document store (MongoDB, through [self.db])

    The store is an external collaborator; the model covers the queries the
    sources issue.  A collection is the list of its documents in insertion
    order, which is the order [find_one] walks. *)

Module Mongo.

Definition is_hex (c : ascii) : bool :=
  let n := N_of_ascii c in
  (((48 <=? n) && (n <=? 57)) || ((97 <=? n) && (n <=? 102))
   || ((65 <=? n) && (n <=? 70)))%N.

(** [ObjectId(s)] for a string [s]: twenty-four hexadecimal digits, or
    [InvalidId]. *)
Definition ObjectId (s : string) : outcome value :=
  if (String.length s =? 24)%nat && forallb is_hex (list_ascii_of_string s)
  then Ok (VOid (Str.lower s))
  else Raise ("'" +:+ s +:+ "' is not a valid ObjectId, it must be a 12-byte input or a 24-character hex string").

(** The conditions used in the filters: [{k: v}], [{k: {"$gte": v}}],
    [{k: {"$exists": b}}]. *)
Inductive cond : Type :=
| CEq (v : value)
| CGte (v : value)
| CExists (b : bool).

Definition query : Type := list (string * cond).

Definition holds (c : cond) (field : option value) : bool :=
  match c with
  | CEq v =>
      match field with
      | None => bool_decide (v = VNone)
      | Some (VStrs l) =>
          bool_decide (v = VStrs l)
          || match v with VStr s => bool_decide (s ∈ l) | _ => false end
      | Some f => bool_decide (f = v)
      end
  | CGte v =>
      match v, field with
      | VTime t, Some (VTime u) => (t <=? u)%Z
      | VInt n, Some (VInt m) => (n <=? m)%Z
      | _, _ => false
      end
  | CExists b =>
      Bool.eqb b match field with Some _ => true | None => false end
  end.

Definition matches (q : query) (d : doc) : bool :=
  forallb (λ '(k, c), holds c (d !! k)) q.

(** [{"_id": id}] *)
Definition by_id (id : value) : query := [("_id", CEq id)].

(** [collection.find_one(q)] *)
Definition find_one (q : query) (coll : list doc) : option doc :=
  List.find (matches q) coll.

(** [collection.count_documents(q)] *)
Definition count_documents (q : query) (coll : list doc) : Z :=
  Z.of_nat (length (List.filter (matches q) coll)).

(** [collection.find_one(q, sort=[(k, -1)])]: dates sort above every other
    value the ledger holds under [k]; among equal keys the first document
    is taken. *)
Definition date_key (k : string) (d : doc) : option Z :=
  match d !! k with Some (VTime t) => Some t | _ => None end.

Definition later (k : string) (best d : doc) : doc :=
  match date_key k best, date_key k d with
  | Some t, Some u => if (t <? u)%Z then d else best
  | None, Some _ => d
  | _, None => best
  end.

Definition find_one_latest (q : query) (k : string) (coll : list doc)
  : option doc :=
  match List.filter (matches q) coll with
  | [] => None
  | d :: ds => Some (fold_left (later k) ds d)
  end.

(** Update operators: [{"$set": {...}}] and [{"$inc": {k: n}}]. *)
Inductive update : Type :=
| USet (fields : list (string * value))
| UInc (k : string) (n : Z).

Definition set_fields (fields : list (string * value)) (d : doc) : doc :=
  fold_left (λ d '(k, v), <[k := v]> d) fields d.

Definition apply_update (u : update) (d : doc) : outcome doc :=
  match u with
  | USet fields => Ok (set_fields fields d)
  | UInc k n =>
      match d !! k with
      | None => Ok (<[k := VInt n]> d)
      | Some (VInt m) => Ok (<[k := VInt (m + n)]> d)
      | Some _ => Raise ("Cannot apply $inc to a value of non-numeric type")
      end
  end.

(** [collection.update_one(q, u)]: the first matching document. *)
Fixpoint update_one (q : query) (u : update) (coll : list doc)
  : outcome (list doc) :=
  match coll with
  | [] => Ok []
  | d :: coll' =>
      if matches q d then
        match apply_update u d with
        | Ok d' => Ok (d' :: coll')
        | Raise e => Raise e
        end
      else
        match update_one q u coll' with
        | Ok coll'' => Ok (d :: coll'')
        | Raise e => Raise e
        end
  end.

(** The collection after the first document matching [q] was replaced by
    its image under [f]: what [update_one] with [$set] computes. *)
Fixpoint update_first (q : query) (f : doc → doc) (coll : list doc)
  : list doc :=
  match coll with
  | [] => []
  | d :: coll' =>
      if matches q d then f d :: coll' else d :: update_first q f coll'
  end.

(** Fresh identifiers: the counter written with twenty-four hexadecimal
    digits. *)
Definition hex_digit (n : N) : ascii :=
  if (n <? 10)%N then ascii_of_N (48 + n) else ascii_of_N (87 + n).

Fixpoint hex_fixed (width : nat) (n : N) : string :=
  match width with
  | O => ""
  | S width' => hex_fixed width' (n / 16) +:+ String (hex_digit (n mod 16)) ""
  end.

Definition fresh_id (counter : N) : string := hex_fixed 24 counter.

Record store : Type := Store {
  campaigns : list doc;
  matched_posts : list doc;
  campaign_replies : list doc;
  next_id : N
}.

(** [collection.insert_one(d)]: the document gets an [_id] unless it has
    one; the result carries [inserted_id]. *)
Definition with_id (counter : N) (d : doc) : doc * value :=
  match d !! "_id" with
  | Some v => (d, v)
  | None => (<["_id" := VOid (fresh_id counter)]> d, VOid (fresh_id counter))
  end.

(** Every document carries an [ObjectId] under [_id], as [insert_one]
    assigns them. *)
Definition oid_keyed (l : list doc) : Prop :=
  Forall (λ d : doc, ∃ o, d !! "_id" = Some (VOid o)) l.

Definition oid_keyed_check (l : list doc) : bool :=
  forallb (λ d : doc, match d !! "_id" with Some (VOid _) => true | _ => false end) l.

Global Instance store_eq_dec : EqDecision store.
Proof. solve_decision. Defined.

End Mongo.

(** The read side of the store as the rate limiter uses it.  Every query
    may fail (connection lost, time-out); a failure is an exception. *)
Record LedgerReader : Type := {
  campaigns_find_one : Mongo.query → outcome (option doc);
  campaign_replies_count_documents : Mongo.query → outcome Z;
  campaign_replies_find_one_latest : Mongo.query → string → outcome (option doc)
}.

(** The reader of an in-memory store: it never fails. *)
Definition reader_of (s : Mongo.store) : LedgerReader :=
  {| campaigns_find_one := λ q, Ok (Mongo.find_one q (Mongo.campaigns s));
     campaign_replies_count_documents :=
       λ q, Ok (Mongo.count_documents q (Mongo.campaign_replies s));
     campaign_replies_find_one_latest :=
       λ q k, Ok (Mongo.find_one_latest q k (Mongo.campaign_replies s)) |}.

(** ** Rate limiter ([modules/scheduler/rate_limiter.py])

    [now] is the reading of [datetime.now()]; the three readings within one
    call are taken as one instant. *)

Module RateLimiter.
Import Mongo.
Local Open Scope py_scope.
Local Open Scope Z_scope.

Record t : Type := {
  db : LedgerReader;
  limits : gmap string Z
}.

(** Lines 21-34. *)
Definition __init__ (db_client : LedgerReader) : t :=
  {| db := db_client;
     limits := {[ "replies_per_hour" := 30;
                  "min_delay_between_replies_seconds" := 120 ]} |}.

Definition microseconds_per_second : Z := 1000000.

(** [datetime.now().replace(hour=0, minute=0, second=0, microsecond=0)] *)
Definition today_start (now : Z) : Z := now - now mod microseconds_per_day.

(** [datetime.now() - timedelta(hours=1)] *)
Definition hour_ago (now : Z) : Z := now - 3600 * microseconds_per_second.

(** [self.limits[k]] *)
Definition limit (self : t) (k : string) : outcome Z :=
  match limits self !! k with
  | Some n => Ok n
  | None => Raise ("KeyError: " +:+ k)
  end.

(** An operand that [>=] accepts next to an [int]: an [int] or a [bool]. *)
Definition number (v : value) : outcome Z :=
  match v with
  | VInt n => Ok n
  | VBool b => Ok (if b then 1 else 0)
  | _ => Raise "TypeError: '>=' not supported between instances of 'int' and this value"
  end.

(** The value as an f-string prints it (numbers only). *)
Definition format_number (v : value) : string :=
  match v with
  | VBool true => "True"
  | VBool false => "False"
  | VInt n => pretty n
  | _ => ""
  end.

(** [datetime.now() - posted_at], in microseconds. *)
Definition elapsed (now : Z) (posted_at : value) : outcome Z :=
  match posted_at with
  | VTime t => Ok (now - t)
  | _ => Raise "TypeError: unsupported operand type(s) for -: 'datetime.datetime' and this value"
  end.

Definition posted_today (oid : value) (now : Z) : query :=
  [ ("campaign_id", CEq oid);
    ("posted_at", CGte (VTime (today_start now)));
    ("status", CEq (VStr "posted"));
    ("dry_run", CEq (VBool false)) ].

Definition posted_last_hour (oid : value) (now : Z) : query :=
  [ ("campaign_id", CEq oid);
    ("posted_at", CGte (VTime (hour_ago now)));
    ("status", CEq (VStr "posted"));
    ("dry_run", CEq (VBool false)) ].

Definition posted_ever (oid : value) : query :=
  [ ("campaign_id", CEq oid);
    ("status", CEq (VStr "posted"));
    ("dry_run", CEq (VBool false));
    ("posted_at", CExists true) ].

(** The body of the [try] (lines 52-107). *)
Definition checks (self : t) (now : Z) (campaign_id : string)
  : outcome (bool * string) :=
  let? oid := ObjectId campaign_id in
  let? campaign := campaigns_find_one (db self) (by_id oid) in
  match campaign with
  | None => Ok (false, "Campaign not found")
  | Some campaign =>
  if decide (campaign = ∅) then Ok (false, "Campaign not found") else
  (* 1. Daily limit check *)
  let? replies_today :=
    campaign_replies_count_documents (db self) (posted_today oid now) in
  let max_per_day := get_default campaign "max_replies_per_day" (VInt 50) in
  let? max_per_day_n := number max_per_day in
  if replies_today >=? max_per_day_n then
    Ok (false, "Daily limit reached (" +:+ pretty replies_today +:+ "/"
               +:+ format_number max_per_day +:+ ")")
  else
  (* 2. Hourly limit check *)
  let? replies_last_hour :=
    campaign_replies_count_documents (db self) (posted_last_hour oid now) in
  let? max_per_hour := limit self "replies_per_hour" in
  if replies_last_hour >=? max_per_hour then
    Ok (false, "Hourly limit reached (" +:+ pretty replies_last_hour +:+ "/"
               +:+ pretty max_per_hour +:+ ")")
  else
  (* 3. Minimum delay check *)
  let? last_reply :=
    campaign_replies_find_one_latest (db self) (posted_ever oid) "posted_at" in
  let all_passed : outcome (bool * string) := Ok (true, "OK") in
  match last_reply with
  | None => all_passed
  | Some last_reply =>
      if decide (last_reply = ∅) then all_passed else
      if truthy (get last_reply "posted_at") then
        let? posted_at := getitem last_reply "posted_at" in
        let? time_since_last := elapsed now posted_at in
        let? min_delay := limit self "min_delay_between_replies_seconds" in
        if time_since_last <? min_delay * microseconds_per_second then
          let wait_time :=
            (min_delay * microseconds_per_second - time_since_last)
            / microseconds_per_second in
          Ok (false, "Too soon since last reply. Wait " +:+ pretty wait_time +:+ "s")
        else all_passed
      else all_passed
  end
  end.

(** [can_post_reply] (lines 36-111): the body inside [try], and
    [except Exception as e: return False, f"Error: {str(e)}"]. *)
Definition can_post_reply (self : t) (now : Z) (campaign_id : string)
  : bool * string :=
  match checks self now campaign_id with
  | Ok r => r
  | Raise e => (false, "Error: " +:+ e)
  end.

(** [int(s)] for a run of decimal digits. *)
Definition int_of_digits (s : string) : Z :=
  fold_left (λ n c, 10 * n + (Z.of_N (N_of_ascii c) - 48))
            (list_ascii_of_string s) 0.

Definition digits_from (n : Z) (s : string) : Z :=
  fold_left (λ n c, 10 * n + (Z.of_N (N_of_ascii c) - 48))
            (list_ascii_of_string s) n.

(** A match of the pattern [Wait (\d+)s] at the start of [s]: the group.
    The digits are followed by [s] itself or the match fails; a shorter run
    of digits would be followed by a digit. *)
Definition wait_here (s : string) : option string :=
  match Str.strip_prefix "Wait " s with
  | None => None
  | Some r =>
      let '(digits, rest) := Str.span Str.is_digit r in
      if String.eqb digits "" then None else
      match rest with
      | String "s" _ => Some digits
      | _ => None
      end
  end.

(** [re.search(r'Wait (\d+)s', s)]: the leftmost match. *)
Fixpoint search_wait (s : string) : option string :=
  match wait_here s with
  | Some digits => Some digits
  | None =>
      match s with
      | EmptyString => None
      | String _ s' => search_wait s'
      end
  end.

(** [get_wait_time] (lines 113-136); the last subscript is outside any
    [try]. *)
Definition get_wait_time (self : t) (now : Z) (campaign_id : string)
  : outcome Z :=
  let '(can_post, reason) := can_post_reply self now campaign_id in
  if can_post then Ok 0 else
  let found :=
    if Str.contains "Wait" reason && Str.contains "s" reason
    then search_wait reason else None in
  match found with
  | Some digits => Ok (int_of_digits digits)
  | None => limit self "min_delay_between_replies_seconds"
  end.

(** A ledger entry that is a dry run, has a status other than
    ["posted"], or belongs to another campaign. *)
Definition uncounted (oid : value) (reply : doc) : Prop :=
  reply !! "dry_run" ≠ Some (VBool false)
  ∨ (∃ s, reply !! "status" = Some (VStr s) ∧ s ≠ "posted")
  ∨ reply !! "campaign_id" ≠ Some oid.

End RateLimiter.

(** ** Auto replier ([modules/campaign/auto_replier.py]) *)

(** The language-model service and the conversation that [_generate_with_both]
    opens on the platform client directly. *)
Record AiServices (W : Type) : Type := {
  (* LLMService().generate_text(prompt, model, ...) *)
  llm_generate_text :
    value (* username *) → value (* text *) → value (* template *) →
    value (* url *) → value (* model *) → M W string;
  (* self.twitter.client.create_grok_conversation() *)
  create_grok_conversation : M W unit;
  (* conversation.generate(approval_prompt, ...).message *)
  approval_generate : doc (* tweet_data *) → doc (* campaign *) → M W string
}.
Arguments llm_generate_text {W}.
Arguments create_grok_conversation {W}.
Arguments approval_generate {W}.

Module AutoReplier.
Section WithServices.
Context {W : Type} (twitter : TwitterApi W) (ai : AiServices W).

Local Open Scope py_scope.

Definition _generate_with_grok (tweet_data : doc) (template url : value)
    (campaign : doc) : M W (option string) :=
  let* tweet_text := lift (getitem tweet_data "text") in
  let* author := lift (getitem tweet_data "username") in
  generate_reply_with_grok twitter tweet_text author template url
    (get_default campaign "reply_model" (VStr "grok-3")).

Definition _generate_with_llm (tweet_data : doc) (template url : value)
    (campaign : doc) (provider : string) : M W (option string) :=
  let* username := lift (getitem tweet_data "username") in
  let* text := lift (getitem tweet_data "text") in
  let model :=
    get_default campaign "reply_model"
      (VStr (if String.eqb provider "openai" then "gpt-4"
             else "claude-3-5-sonnet-20241022")) in
  let* reply_text := llm_generate_text ai username text template url model in
  ret (Some (clean_reply reply_text)).

Definition _generate_with_both (tweet_data : doc) (template url : value)
    (campaign : doc) : M W (option string) :=
  do create_grok_conversation ai in
  let* _ := lift (getitem tweet_data "text") in
  let* _ := lift (getitem tweet_data "username") in
  let* message := approval_generate ai tweet_data campaign in
  let grok_decision := Str.lower (Str.strip message) in
  if Str.contains "no" grok_decision then ret None
  else _generate_with_llm tweet_data template url campaign "openai".

(** [generate_reply] (lines 34-86): the two subscripts on [campaign]
    are outside the [try]. *)
Definition generate_reply (tweet_data campaign : doc) : M W (option string) :=
  let ai_provider := get_default campaign "ai_provider" (VStr "openai") in
  let* template := lift (getitem campaign "reply_template") in
  let* short_url := lift (getitem campaign "short_url") in
  try_except
    (if decide (ai_provider = VStr "grok") then
       _generate_with_grok tweet_data template short_url campaign
     else if decide (ai_provider = VStr "openai") then
       _generate_with_llm tweet_data template short_url campaign "openai"
     else if decide (ai_provider = VStr "anthropic") then
       _generate_with_llm tweet_data template short_url campaign "anthropic"
     else if decide (ai_provider = VStr "both") then
       _generate_with_both tweet_data template short_url campaign
     else ret None)
    (λ _, ret None).

Definition skipped : doc :=
  {[ "success" := VBool false;
     "reason" := VStr "AI decided to skip or generation failed" ]}.

Definition dry_run_outcome (reply_text : string) : doc :=
  {[ "success" := VBool true;
     "dry_run" := VBool true;
     "reply_text" := VStr reply_text;
     "tweet_id" := VNone ]}.

Definition posted_outcome (reply_text : string) (tweet_id url : value) : doc :=
  {[ "success" := VBool true;
     "dry_run" := VBool false;
     "reply_text" := VStr reply_text;
     "tweet_id" := tweet_id;
     "url" := url ]}.

Definition failed_outcome (reply_text : string) (error : value) : doc :=
  {[ "success" := VBool false;
     "error" := error;
     "reply_text" := VStr reply_text ]}.

(** [post_reply] (lines 193-261). *)
Definition post_reply (tweet_data campaign : doc) (dry_run : value)
  : M W doc :=
  let* reply_text := generate_reply tweet_data campaign in
  match reply_text with
  | None => ret skipped
  | Some reply_text =>
      if truthy dry_run then ret (dry_run_outcome reply_text)
      else
        try_except
          (let* reply_to := lift (getitem tweet_data "tweet_id") in
           let* result := create_tweet twitter reply_text reply_to in
           let* success := lift (getitem result "success") in
           if truthy success then
             let* url := lift (getitem result "url") in
             let* tweet_id := lift (getitem result "tweet_id") in
             ret (posted_outcome reply_text tweet_id url)
           else
             ret (failed_outcome reply_text (get result "error")))
          (λ e, ret (failed_outcome reply_text (VStr e)))
  end.

End WithServices.
End AutoReplier.

(** ** Campaign manager ([modules/campaign/campaign_manager.py])

    The manager works on the document store and on the outside world.  The
    analysis that [start_campaign] hands to [asyncio.create_task] runs
    later: the model records that it was spawned. *)

Inductive collection : Type := Campaigns | MatchedPosts | CampaignReplies.

Record state (W : Type) : Type := State {
  st_store : Mongo.store;
  st_world : W;
  st_tasks : list string
}.
Arguments State {W}.
Arguments st_store {W}.
Arguments st_world {W}.
Arguments st_tasks {W}.

Global Instance state_eq_dec {W} `{EqDecision W} : EqDecision (state W).
Proof. solve_decision. Defined.

Module Db.
Import Mongo.
Section Ops.
Context {W : Type}.

Definition documents (c : collection) (s : store) : list doc :=
  match c with
  | Campaigns => campaigns s
  | MatchedPosts => matched_posts s
  | CampaignReplies => campaign_replies s
  end.

Definition with_documents (c : collection) (l : list doc) (s : store) : store :=
  match c with
  | Campaigns => Store l (matched_posts s) (campaign_replies s) (next_id s)
  | MatchedPosts => Store (campaigns s) l (campaign_replies s) (next_id s)
  | CampaignReplies => Store (campaigns s) (matched_posts s) l (next_id s)
  end.

Definition find_one (c : collection) (q : query) : M (state W) (option doc) :=
  λ st, (Ok (Mongo.find_one q (documents c (st_store st))), st).

Definition update_one (c : collection) (q : query) (u : update)
  : M (state W) unit :=
  λ st, match Mongo.update_one q u (documents c (st_store st)) with
        | Ok l =>
            (Ok (), State (with_documents c l (st_store st)) (st_world st)
                          (st_tasks st))
        | Raise e => (Raise e, st)
        end.

Definition insert_one (c : collection) (d : doc) : M (state W) value :=
  λ st, let s := st_store st in
        let '(d', id) := with_id (next_id s) d in
        let s' := with_documents c (documents c s ++ [d']) s in
        (Ok id,
         State (Store (campaigns s') (matched_posts s') (campaign_replies s')
                      (N.succ (next_id s)))
               (st_world st) (st_tasks st)).

Definition count_documents (c : collection) (q : query) : M (state W) Z :=
  λ st, (Ok (Mongo.count_documents q (documents c (st_store st))), st).

(** [collection.find(q).to_list(length=None)] *)
Definition find (c : collection) (q : query) : M (state W) (list doc) :=
  λ st, (Ok (List.filter (matches q) (documents c (st_store st))), st).

(** A call of the adapter or of an AI service. *)
Definition on_world {A} (m : M W A) : M (state W) A :=
  λ st, let '(r, w) := m (st_world st) in
        (r, State (st_store st) w (st_tasks st)).

(** [asyncio.create_task(self.analyze_campaign(campaign_id))] *)
Definition create_task (campaign_id : string) : M (state W) unit :=
  λ st, (Ok (), State (st_store st) (st_world st) (st_tasks st ++ [campaign_id])).

End Ops.
End Db.

Module CampaignManager.
Import Mongo.
Section WithServices.
Context {W : Type} (twitter : TwitterApi W) (ai : AiServices W).

Local Open Scope py_scope.

Definition failure (e : string) : doc :=
  {[ "success" := VBool false; "error" := VStr e ]}.

(** [str(oid)] *)
Definition str_of_id (v : value) : value :=
  match v with VOid o => VStr o | _ => v end.

(** [create_campaign] (lines 45-102).  The returned dictionary also
    holds the stored document under ["campaign"]; that entry is left
    out here. *)
Definition create_campaign (campaign_data : doc) (now : Z) : M (state W) doc :=
  try_except
    (let* name := lift (getitem campaign_data "name") in
     let* seed_users := lift (getitem campaign_data "seed_users") in
     let* keywords := lift (getitem campaign_data "keywords") in
     let* reply_template := lift (getitem campaign_data "reply_template") in
     let* target_url := lift (getitem campaign_data "target_url") in
     let* short_url := lift (getitem campaign_data "short_url") in
     let campaign : doc :=
       dict [ ("name", name);
          ("status", VStr "draft");
          ("seed_users", seed_users);
          ("top_n_users", get_default campaign_data "top_n_users" (VInt 50));
          ("lookback_days", get_default campaign_data "lookback_days" (VInt 7));
          ("keywords", keywords);
          ("reply_template", reply_template);
          ("target_url", target_url);
          ("short_url", short_url);
          ("ai_provider", get_default campaign_data "ai_provider" (VStr "openai"));
          ("reply_model", get_default campaign_data "reply_model" (VStr "gpt-4"));
          ("use_grok_filter", get_default campaign_data "use_grok_filter" (VBool false));
          ("daily_reply_limit", get_default campaign_data "daily_reply_limit" (VInt 50));
          ("dry_run", get_default campaign_data "dry_run" (VBool false));
          ("total_replies", VInt 0);
          ("total_clicks", VInt 0);
          ("created_at", VTime now);
          ("updated_at", VTime now) ] in
     let* inserted_id := Db.insert_one Campaigns campaign in
     ret ({[ "success" := VBool true;
             "campaign_id" := str_of_id inserted_id ]} : doc))
    (λ e, ret (failure e)).

Definition set_status (status : string) (now : Z) : update :=
  USet [("status", VStr status); ("updated_at", VTime now)].

(** The document after that update. *)
Definition with_status (status : string) (now : Z) (d : doc) : doc :=
  set_fields [("status", VStr status); ("updated_at", VTime now)] d.

(** [start_campaign] (lines 104-143). *)
Definition start_campaign (campaign_id : string) (now : Z) : M (state W) doc :=
  try_except
    (λ st,
       if negb (api_is_authenticated twitter (st_world st)) then
         (Ok ({[ "success" := VBool false;
                 "error" := VStr "Twitter account not configured. Please add your Twitter cookies in Settings." ]} : doc), st)
       else
         (let* oid := lift (ObjectId campaign_id) in
          do Db.update_one Campaigns (by_id oid) (set_status "active" now) in
          do Db.create_task campaign_id in
          ret ({[ "success" := VBool true;
                  "campaign_id" := VStr campaign_id ]} : doc)) st)
    (λ e, ret (failure e)).

(** [stop_campaign] (lines 145-172). *)
Definition stop_campaign (campaign_id : string) (now : Z) : M (state W) doc :=
  try_except
    (let* oid := lift (ObjectId campaign_id) in
     do Db.update_one Campaigns (by_id oid) (set_status "paused" now) in
     ret ({[ "success" := VBool true;
             "campaign_id" := VStr campaign_id ]} : doc))
    (λ e, ret (failure e)).

Definition reason (r : string) : doc :=
  {[ "success" := VBool false; "reason" := VStr r ]}.

(** The dictionary [reply_doc] (lines 335-351). *)
Definition reply_doc (oid : value) (pending_post campaign result : doc)
    (now : Z) : outcome doc :=
  let? target_user := getitem pending_post "username" in
  let? target_tweet_id := getitem pending_post "tweet_id" in
  let? target_tweet_text := getitem pending_post "text" in
  let? short_url := getitem campaign "short_url" in
  let? success := getitem result "success" in
  Ok (dict [ ("campaign_id", oid);
         ("target_user", target_user);
         ("target_tweet_id", target_tweet_id);
         ("target_tweet_text", target_tweet_text);
         ("reply_text", get result "reply_text");
         ("reply_tweet_id", get result "tweet_id");
         ("short_url", short_url);
         ("status", VStr (if truthy success then "posted" else "failed"));
         ("error_message", get result "error");
         ("dry_run", get_default result "dry_run" (VBool false));
         ("likes", VInt 0);
         ("retweets", VInt 0);
         ("replies", VInt 0);
         ("posted_at", (if truthy success then VTime now else VNone));
         ("created_at", VTime now) ] : doc).

(** The filter of line 301: the pending posts of a campaign. *)
Definition pending_posts_of (oid : value) : query :=
  [("campaign_id", CEq oid); ("reply_status", CEq (VStr "pending"))].

(** The filter of line 311: the posted replies of a campaign to a tweet. *)
Definition posted_replies_to (oid tweet_id : value) : query :=
  [("campaign_id", CEq oid); ("target_tweet_id", CEq tweet_id);
   ("status", CEq (VStr "posted"))].

Definition mark (reply_status : string) : update :=
  USet [("reply_status", VStr reply_status)].

(** ["posted" if result["success"] else "failed"] *)
Definition settled (success : value) : string :=
  if truthy success then "posted" else "failed".

(** [result["success"] and not result.get("dry_run")] *)
Definition counted (result : doc) (success : value) : bool :=
  truthy success && negb (truthy (get result "dry_run")).

(** The body of the [try] of [process_pending_reply] (lines 292-368). *)
Definition process_pending_reply_body (campaign_id : string) (now : Z)
  : M (state W) doc :=
  let* oid := lift (ObjectId campaign_id) in
  let* campaign := Db.find_one Campaigns (by_id oid) in
  match campaign with
  | None => ret (failure "Campaign not found")
  | Some campaign =>
  if decide (campaign = ∅) then ret (failure "Campaign not found") else
  let* status := lift (getitem campaign "status") in
  if negb (bool_decide (status = VStr "active")) then
    ret (failure "Campaign not active")
  else
  (* Get one pending post *)
  let* pending_post := Db.find_one MatchedPosts (pending_posts_of oid) in
  match pending_post with
  | None => ret (reason "No pending posts")
  | Some pending_post =>
  if decide (pending_post = ∅) then ret (reason "No pending posts") else
  (* Check for duplicate *)
  let* tweet_id := lift (getitem pending_post "tweet_id") in
  let* existing_reply :=
    Db.find_one CampaignReplies (posted_replies_to oid tweet_id) in
  let is_duplicate :=
    match existing_reply with
    | Some r => negb (bool_decide (r = ∅))
    | None => false
    end in
  if is_duplicate then
    let* post_id := lift (getitem pending_post "_id") in
    do Db.update_one MatchedPosts (by_id post_id) (mark "duplicate") in
    ret (reason "Duplicate tweet")
  else
  (* Post reply *)
  let* _ := lift (getitem pending_post "username") in
  let* result :=
    Db.on_world
      (AutoReplier.post_reply twitter ai pending_post campaign
         (get_default campaign "dry_run" (VBool false))) in
  (* Save reply log *)
  let* reply := lift (reply_doc oid pending_post campaign result now) in
  let* _ := Db.insert_one CampaignReplies reply in
  (* Update matched post status *)
  let* post_id := lift (getitem pending_post "_id") in
  let* success := lift (getitem result "success") in
  do Db.update_one MatchedPosts (by_id post_id)
       (mark (if truthy success then "posted" else "failed")) in
  (* Update campaign stats *)
  let* success := lift (getitem result "success") in
  do (if truthy success && negb (truthy (get result "dry_run")) then
        Db.update_one Campaigns (by_id oid) (UInc "total_replies" 1)
      else ret ()) in
  ret result
  end
  end.

Definition process_pending_reply (campaign_id : string) (now : Z)
  : M (state W) doc :=
  try_except (process_pending_reply_body campaign_id now)
             (λ e, ret (failure e)).

(** The filter of line 396: the posted replies of a campaign, dry runs
    included. *)
Definition posted_replies_of (oid : value) : query :=
  [("campaign_id", CEq oid); ("status", CEq (VStr "posted"))].

(** [get_campaign_status] (lines 374-415). *)
Definition get_campaign_status (campaign_id : string) : M (state W) doc :=
  try_except
    (let* oid := lift (ObjectId campaign_id) in
     let* campaign := Db.find_one Campaigns (by_id oid) in
     match campaign with
     | None => ret (failure "Campaign not found")
     | Some campaign =>
     if decide (campaign = ∅) then ret (failure "Campaign not found") else
     let* pending_count :=
       Db.count_documents MatchedPosts (pending_posts_of oid) in
     let* posted_count :=
       Db.count_documents CampaignReplies (posted_replies_of oid) in
     let* id := lift (getitem campaign "_id") in
     let* name := lift (getitem campaign "name") in
     let* status := lift (getitem campaign "status") in
     ret (dict [ ("success", VBool true);
            ("campaign_id", str_of_id id);
            ("name", name);
            ("status", status);
            ("total_matched_posts",
               get_default campaign "total_matched_posts" (VInt 0));
            ("pending_posts", VInt pending_count);
            ("posted_replies", VInt posted_count);
            ("total_clicks", get_default campaign "total_clicks" (VInt 0));
            ("dry_run", get_default campaign "dry_run" (VBool false)) ])
     end)
    (λ e, ret (failure e)).

End WithServices.
End CampaignManager.

(** ** Task scheduler ([modules/scheduler/task_scheduler.py])
       The job that the interval trigger runs every five minutes. *)

Module TaskScheduler.
Import Mongo.
Section WithServices.
Context {W : Type} (twitter : TwitterApi W) (ai : AiServices W).

(** [str] of a date and of a list are the library's own. *)
Context (str_of_datetime : Z → string) (str_of_list : list string → string).

Local Open Scope py_scope.

(** [str(v)] *)
Definition str (v : value) : string :=
  match v with
  | VNone => "None"
  | VBool true => "True"
  | VBool false => "False"
  | VInt n => pretty n
  | VStr s => s
  | VTime t => str_of_datetime t
  | VOid o => o
  | VStrs l => str_of_list l
  end.

(** [process_campaign] (lines 104-140).  The campaign is looked up under
    the string [campaign_id] itself; the limiter is the one that [__init__]
    built over the same database. *)
Definition process_campaign (campaign_id : string) (now : Z)
  : M (state W) unit :=
  try_except
    (let* campaign := Db.find_one Campaigns (by_id (VStr campaign_id)) in
     match campaign with
     | None => ret ()
     | Some campaign =>
     if decide (campaign = ∅) then ret () else
     λ st,
       let rate_limiter := RateLimiter.__init__ (reader_of (st_store st)) in
       let '(can_post, _) :=
         RateLimiter.can_post_reply rate_limiter now campaign_id in
       if negb can_post then (Ok (), st)
       else
         (do CampaignManager.process_pending_reply twitter ai campaign_id now in
          ret ()) st
     end)
    (λ _, ret ()).

(** The loop of lines 95-97; [clock i] is the time at which the [i]-th
    campaign of the tick is processed. *)
Fixpoint campaigns_loop (active_campaigns : list doc) (clock : nat → Z)
    (i : nat) : M (state W) unit :=
  match active_campaigns with
  | [] => ret ()
  | campaign :: active_campaigns' =>
      let* id := lift (getitem campaign "_id") in
      do process_campaign (str id) (clock i) in
      campaigns_loop active_campaigns' clock (S i)
  end.

(** [process_all_campaigns] (lines 75-102). *)
Definition process_all_campaigns (clock : nat → Z) : M (state W) unit :=
  try_except
    (let* active_campaigns :=
       Db.find Campaigns [("status", CEq (VStr "active"))] in
     match active_campaigns with
     | [] => ret ()
     | _ => campaigns_loop active_campaigns clock 0
     end)
    (λ _, ret ()).

End WithServices.
End TaskScheduler.

(** The writes of the campaign manager, one at a time. *)
Inductive manager_step {W} (twitter : TwitterApi W) (ai : AiServices W)
  : state W → state W → Prop :=
| step_create campaign_data now st :
    manager_step twitter ai st
      (CampaignManager.create_campaign campaign_data now st).2
| step_start campaign_id now st :
    manager_step twitter ai st
      (CampaignManager.start_campaign twitter campaign_id now st).2
| step_stop campaign_id now st :
    manager_step twitter ai st
      (CampaignManager.stop_campaign campaign_id now st).2
| step_reply campaign_id now st :
    manager_step twitter ai st
      (CampaignManager.process_pending_reply twitter ai campaign_id now st).2.

(** ** Campaign logger ([modules/campaign/campaign_logger.py])

    The progress events that the mapper, the filter and the manager send
    while they work.  A queue is an [asyncio.Queue] without a bound: it is
    known by its identity and holds what was put and not yet taken. *)

Module CampaignLogger.

(** The dictionary [log_entry] of [log] (lines 75-80); the time stamp is
    kept as the instant whose ISO text the code stores. *)
Record log_entry : Type := LogEntry {
  timestamp : Z;
  level : string;
  message : string;
  data : doc
}.

Global Instance log_entry_eq_dec : EqDecision log_entry.
Proof. solve_decision. Defined.

Record t : Type := Logger {
  _subscribers : gmap string (gset nat);     (* campaign_id -> set of queues *)
  _log_history : gmap string (list log_entry);
  queues : gmap nat (list log_entry);        (* every queue made, by identity *)
  next_queue : nat
}.

Definition _max_history : nat := 100.

(** Lines 23-31. *)
Definition __init__ : t := Logger ∅ ∅ ∅ 0.

(** [d[k]] on a [defaultdict]: the value, the default when there is
    none. *)
Definition subscribers_of (self : t) (campaign_id : string) : gset nat :=
  default ∅ (_subscribers self !! campaign_id).

Definition history_of (self : t) (campaign_id : string) : list log_entry :=
  default [] (_log_history self !! campaign_id).

(** What a queue holds; a queue that was never made holds nothing. *)
Definition queued (self : t) (queue : nat) : list log_entry :=
  default [] (queues self !! queue).

(** [await queue.put(log_entry)] *)
Definition put (entry : log_entry) (queues : gmap nat (list log_entry))
    (queue : nat) : gmap nat (list log_entry) :=
  <[queue := default [] (queues !! queue) ++ [entry]]> queues.

(** [subscribe] (lines 33-52): the new queue is added to the set of the
    campaign and gets the history; reading the two [defaultdict]s makes
    their entries. *)
Definition subscribe (campaign_id : string) (self : t) : nat * t :=
  let queue := next_queue self in
  (queue,
   {| _subscribers :=
        <[campaign_id := subscribers_of self campaign_id ∪ {[queue]}]>
          (_subscribers self);
      _log_history :=
        <[campaign_id := history_of self campaign_id]> (_log_history self);
      queues :=
        fold_left (λ qs entry, put entry qs queue)
                  (history_of self campaign_id)
                  (<[queue := []]> (queues self));
      next_queue := S (next_queue self) |}).

(** [unsubscribe] (lines 54-64). *)
Definition unsubscribe (campaign_id : string) (queue : nat) (self : t) : t :=
  match _subscribers self !! campaign_id with
  | Some subscribers =>
      {| _subscribers := <[campaign_id := subscribers ∖ {[queue]}]> (_subscribers self);
         _log_history := _log_history self;
         queues := queues self;
         next_queue := next_queue self |}
  | None => self
  end.

(** [l[-n:]] for a positive [n]. *)
Definition last_n {A} (n : nat) (l : list A) : list A :=
  drop (length l - n) l.

(** [log] (lines 66-100); [data or {}] is the dictionary given, the
    empty one for [None].  Putting into a queue without a bound does not
    fail, so no queue is found dead. *)
Definition log (campaign_id level message : string) (data : option doc)
    (now : Z) (self : t) : t :=
  let entry :=
    {| timestamp := now; level := level; message := message;
       data := default ∅ data |} in
  let history := history_of self campaign_id ++ [entry] in
  let history :=
    if (_max_history <? length history)%nat
    then last_n _max_history history else history in
  {| _subscribers := _subscribers self;
     _log_history := <[campaign_id := history]> (_log_history self);
     queues :=
       match _subscribers self !! campaign_id with
       | Some subscribers =>
           set_fold (λ queue qs, put entry qs queue) (queues self) subscribers
       | None => queues self
       end;
     next_queue := next_queue self |}.

(** [info], [warning], [error], [success] (lines 102-116). *)
Definition info (campaign_id message : string) (data : doc) (now : Z) : t → t :=
  log campaign_id "info" message (Some data) now.

Definition warning (campaign_id message : string) (data : doc) (now : Z) : t → t :=
  log campaign_id "warning" message (Some data) now.

Definition error (campaign_id message : string) (data : doc) (now : Z) : t → t :=
  log campaign_id "error" message (Some data) now.

Definition success (campaign_id message : string) (data : doc) (now : Z) : t → t :=
  log campaign_id "success" message (Some data) now.

(** [get_subscriber_count] (lines 118-120). *)
Definition get_subscriber_count (campaign_id : string) (self : t) : nat :=
  size (subscribers_of self campaign_id).

(** The calls that change the logger. *)
Inductive call : Type :=
| Log (campaign_id level message : string) (data : option doc) (now : Z)
| Subscribe (campaign_id : string)
| Unsubscribe (campaign_id : string) (queue : nat).

Definition perform (c : call) (self : t) : t :=
  match c with
  | Log campaign_id level message data now =>
      log campaign_id level message data now self
  | Subscribe campaign_id => (subscribe campaign_id self).2
  | Unsubscribe campaign_id queue => unsubscribe campaign_id queue self
  end.

Definition run (calls : list call) (self : t) : t :=
  fold_left (λ self c, perform c self) calls self.

(** The entries that the calls log for a campaign, in order. *)
Definition entry_of (campaign_id : string) (c : call) : option log_entry :=
  match c with
  | Log campaign_id' level message data now =>
      if decide (campaign_id' = campaign_id)
      then Some {| timestamp := now; level := level; message := message;
                   data := default ∅ data |}
      else None
  | _ => None
  end.

Definition logged (campaign_id : string) (calls : list call) : list log_entry :=
  omap (entry_of campaign_id) calls.

(** The queues of the subscriber sets are queues that were made, and no
    queue is in the sets of two campaigns. *)
Definition well_formed (self : t) : Prop :=
  (∀ campaign_id queue,
     queue ∈ subscribers_of self campaign_id → (queue < next_queue self)%nat) ∧
  (∀ c1 c2 queue,
     queue ∈ subscribers_of self c1 → queue ∈ subscribers_of self c2 → c1 = c2).

End CampaignLogger.

(** ** Click tracking ([modules/tracking/link_shortener.py],
       [modules/tracking/analytics_collector.py], [api/tracking.py]) and
       the endpoint that creates a campaign ([api/campaigns.py])

    The tracking side keeps two collections of its own next to the campaign
    store, [short_links] and [click_events]; identifiers come from the
    same generator. *)

Record site (W : Type) : Type := Site {
  site_state : state W;
  short_links : list doc;
  click_events : list doc
}.
Arguments Site {W}.
Arguments site_state {W}.
Arguments short_links {W}.
Arguments click_events {W}.

Global Instance site_eq_dec {W} `{EqDecision W} : EqDecision (site W).
Proof. solve_decision. Defined.

(** The answer of [client.post] to the Bitly request, as far as it is
    read: the status code and [response.json()["link"]]. *)
Record bitly_response : Type := BitlyResponse {
  status_code : Z;
  link : outcome value
}.

(** What the link shortener uses from outside. *)
Record Outside (W : Type) : Type := {
  (* the generator behind [random.choice(seq)], which is
     [seq[_randbelow(len(seq))]]: a number below [n] *)
  randbelow : nat → W → nat * W;
  (* [httpx.AsyncClient().post(".../v4/shorten", json={"long_url": ...})] *)
  bitly_post : string → M W bitly_response
}.
Arguments randbelow {W}.
Arguments bitly_post {W}.

(** An HTTP request as [redirect_and_track] reads it: [req.client.host]
    and the two headers. *)
Record request : Type := Request {
  client_host : option string;
  user_agent : option string;
  referer : option string
}.

(** What an endpoint answers: a JSON body, a redirect, or an
    [HTTPException] that leaves the endpoint. *)
Inductive response : Type :=
| Json (body : doc)
| RedirectResponse (url : value) (status : Z)
| HTTPException (status : Z) (detail : value).

Global Instance response_eq_dec : EqDecision response.
Proof. solve_decision. Defined.

Module Site.
Import Mongo.
Section Ops.
Context {W : Type}.

(** A call of the campaign manager, on the campaign store. *)
Definition on_state {A} (m : M (state W) A) : M (site W) A :=
  λ s, let '(r, st) := m (site_state s) in
       (r, Site st (short_links s) (click_events s)).

(** A call of an outside service. *)
Definition on_outside {A} (m : M W A) : M (site W) A :=
  on_state (Db.on_world m).

(** The next identifier is taken and the generator moves on. *)
Definition with_next_id (s : site W) : state W :=
  let st := site_state s in
  State (Store (campaigns (st_store st)) (matched_posts (st_store st))
               (campaign_replies (st_store st))
               (N.succ (next_id (st_store st))))
        (st_world st) (st_tasks st).

(** [db.short_links.insert_one(d)] *)
Definition insert_short_link (d : doc) : M (site W) value :=
  λ s, let '(d', id) := with_id (next_id (st_store (site_state s))) d in
       (Ok id, Site (with_next_id s) (short_links s ++ [d']) (click_events s)).

(** [db.click_events.insert_one(d)] *)
Definition insert_click_event (d : doc) : M (site W) value :=
  λ s, let '(d', id) := with_id (next_id (st_store (site_state s))) d in
       (Ok id, Site (with_next_id s) (short_links s) (click_events s ++ [d'])).

(** [db.short_links.update_one(q, u)] *)
Definition update_short_link (q : query) (u : update) : M (site W) unit :=
  λ s, match Mongo.update_one q u (short_links s) with
       | Ok l => (Ok (), Site (site_state s) l (click_events s))
       | Raise e => (Raise e, s)
       end.

(** [db.short_links.find_one(q)] *)
Definition find_short_link (q : query) : M (site W) (option doc) :=
  λ s, (Ok (Mongo.find_one q (short_links s)), s).

End Ops.
End Site.

Module LinkShortener.
Import Mongo.

Record t : Type := {
  bitly_token : option string;     (* os.getenv("BITLY_API_KEY") *)
  base_url : string;               (* os.getenv("BASE_URL", ...) *)
  db : bool                        (* db_client is not None *)
}.

(** Lines 24-33; the two variables of the environment are [None] when
    they are not set. *)
Definition __init__ (db_client : bool) (BITLY_API_KEY BASE_URL : option string)
  : t :=
  {| bitly_token := BITLY_API_KEY;
     base_url := default "http://localhost:8000" BASE_URL;
     db := db_client |}.

(** [if self.bitly_token] *)
Definition has_token (self : t) : bool :=
  match bitly_token self with
  | Some token => negb (String.eqb token "")
  | None => false
  end.

(** [string.ascii_letters + string.digits] *)
Definition chars : string :=
  "abcdefghijklmnopqrstuvwxyzABCDEFGHIJKLMNOPQRSTUVWXYZ0123456789".

(** A letter or a digit of ASCII. *)
Definition is_alnum (c : ascii) : bool :=
  let n := N_of_ascii c in
  (((97 <=? n) && (n <=? 122)) || ((65 <=? n) && (n <=? 90))
   || ((48 <=? n) && (n <=? 57)))%N.

(** [{"short_code": short_code}] *)
Definition by_code (short_code : string) : query :=
  [("short_code", CEq (VStr short_code))].

(** [{"total_clicks": n, "provider": "internal"}] *)
Definition internal_stats (total_clicks : value) : doc :=
  {[ "total_clicks" := total_clicks; "provider" := VStr "internal" ]}.

(** [campaign_id] as it is stored: the string, or [None]. *)
Definition optional (campaign_id : option string) : value :=
  match campaign_id with
  | Some c => VStr c
  | None => VNone
  end.

(** The document of lines 117-124. *)
Definition link_doc (short_code long_url : string) (campaign_id : option string)
    (now : Z) : doc :=
  dict [ ("short_code", VStr short_code);
         ("long_url", VStr long_url);
         ("campaign_id", optional campaign_id);
         ("clicks", VInt 0);
         ("provider", VStr "internal");
         ("created_at", VTime now) ].

Section WithOutside.
Context {W : Type} (outside : Outside W).

Local Open Scope py_scope.

(** [_generate_short_code] (lines 131-142): [length] choices among the
    sixty-two characters; the number drawn is below sixty-two. *)
Fixpoint _generate_short_code (length : nat) (w : W) : string * W :=
  match length with
  | O => (EmptyString, w)
  | S length' =>
      let '(i, w) := randbelow outside (String.length chars) w in
      let c := default "a"%char
                 (list_ascii_of_string chars !! (i mod String.length chars)%nat) in
      let '(rest, w) := _generate_short_code length' w in
      (String c rest, w)
  end.

(** [_shorten_with_bitly] (lines 60-95). *)
Definition _shorten_with_bitly (long_url : string) : M (site W) value :=
  let* response := Site.on_outside (bitly_post outside long_url) in
  if (status_code response =? 200)%Z || (status_code response =? 201)%Z
  then lift (link response)
  else raise ("Bitly API error: " +:+ pretty (status_code response)).

(** [_shorten_internal] (lines 97-129). *)
Definition _shorten_internal (self : t) (long_url : string)
    (campaign_id : option string) (now : Z) : M (site W) value :=
  let* short_code :=
    Site.on_outside (λ w, let '(code, w) := _generate_short_code 6 w in
                          (Ok code, w)) in
  do (if db self
      then let* _ := Site.insert_short_link
                       (link_doc short_code long_url campaign_id now) in
           ret ()
      else ret ()) in
  ret (VStr (base_url self +:+ "/r/" +:+ short_code)).

(** [shorten] (lines 35-58). *)
Definition shorten (self : t) (long_url : string) (campaign_id : option string)
    (now : Z) : M (site W) value :=
  if has_token self then
    try_except (_shorten_with_bitly long_url)
               (λ _, _shorten_internal self long_url campaign_id now)
  else _shorten_internal self long_url campaign_id now.

(** [_get_internal_stats] (lines 183-199). *)
Definition _get_internal_stats (self : t) (short_url : string)
  : M (site W) doc :=
  if negb (db self) then ret (internal_stats (VInt 0)) else
  let short_code := List.last (Str.split "/" short_url) EmptyString in
  let* link := Site.find_short_link (by_code short_code) in
  match link with
  | Some link =>
      if decide (link = ∅) then ret (internal_stats (VInt 0))
      else ret (internal_stats (get_default link "clicks" (VInt 0)))
  | None => ret (internal_stats (VInt 0))
  end.

End WithOutside.
End LinkShortener.

Module AnalyticsCollector.
Import Mongo.
Section Ops.
Context {W : Type}.

Local Open Scope py_scope.

(** [ObjectId(campaign_id) if campaign_id else None], for the value that
    a link holds as its [campaign_id]: a string of twenty-four hexadecimal
    digits or an [ObjectId] gives an [ObjectId], a false value gives
    [None], anything else raises. *)
Definition click_campaign_id (campaign_id : value) : outcome value :=
  if truthy campaign_id then
    match campaign_id with
    | VStr s => ObjectId s
    | VOid o => Ok (VOid o)
    | _ => Raise "id must be an instance of (bytes, str, ObjectId)"
    end
  else Ok VNone.

(** The document of lines 233-240. *)
Definition click_doc (campaign_id : value) (short_code ip_address user_agent
    referrer : string) (now : Z) : doc :=
  dict [ ("campaign_id", campaign_id);
         ("short_code", VStr short_code);
         ("clicked_at", VTime now);
         ("ip_address", VStr ip_address);
         ("user_agent", VStr user_agent);
         ("referrer", VStr referrer) ].

(** [record_click_event] (lines 213-262). *)
Definition record_click_event (campaign_id : value)
    (short_code ip_address user_agent referrer : string) (now : Z)
  : M (site W) bool :=
  try_except
    (let* oid := lift (click_campaign_id campaign_id) in
     let* _ := Site.insert_click_event
                 (click_doc oid short_code ip_address user_agent referrer now) in
     do Site.update_short_link (LinkShortener.by_code short_code)
                               (UInc "clicks" 1) in
     do (if truthy campaign_id
         then Site.on_state
                (Db.update_one Campaigns (by_id oid) (UInc "total_clicks" 1))
         else ret ()) in
     ret true)
    (λ _, ret false).

End Ops.
End AnalyticsCollector.

Module TrackingApi.
Import Mongo.
Section Ops.
Context {W : Type}.

Local Open Scope py_scope.

(** [redirect_and_track] (api/tracking.py, lines 17-61).  The answer of
    [record_click_event] is not looked at.  A link without a [long_url]
    raises [KeyError('long_url')] after the click was recorded; its text is
    the detail of the error 500. *)
Definition redirect_and_track (short_code : string) (req : request) (now : Z)
  : site W → response * site W :=
  λ s,
    match Mongo.find_one (LinkShortener.by_code short_code) (short_links s) with
    | None => (HTTPException 404 (VStr "Short link not found"), s)
    | Some link =>
        if decide (link = ∅)
        then (HTTPException 404 (VStr "Short link not found"), s)
        else
          let ip_address := default "unknown" (client_host req) in
          let user_agent := default "unknown" (user_agent req) in
          let referrer := default "" (referer req) in
          let '(_, s) :=
            AnalyticsCollector.record_click_event
              (get link "campaign_id") short_code ip_address user_agent
              referrer now s in
          match link !! "long_url" with
          | Some url => (RedirectResponse url 302, s)
          | None => (HTTPException 500 (VStr "'long_url'"), s)
          end
    end.

End Ops.
End TrackingApi.

Module CampaignsApi.
Import Mongo.

(** [CreateCampaignRequest] (api/campaigns.py, lines 23-36), after
    validation. *)
Record CreateCampaignRequest : Type := {
  name : string;
  seed_users : list string;
  top_n_users : Z;
  lookback_days : Z;
  keywords : list string;
  reply_template : string;
  target_url : string;
  ai_provider : string;
  reply_model : option string;
  use_grok_filter : bool;
  daily_reply_limit : Z;
  dry_run : bool
}.

(** [request.dict()] *)
Definition request_dict (request : CreateCampaignRequest) : doc :=
  dict [ ("name", VStr (name request));
         ("seed_users", VStrs (seed_users request));
         ("top_n_users", VInt (top_n_users request));
         ("lookback_days", VInt (lookback_days request));
         ("keywords", VStrs (keywords request));
         ("reply_template", VStr (reply_template request));
         ("target_url", VStr (target_url request));
         ("ai_provider", VStr (ai_provider request));
         ("reply_model", LinkShortener.optional (reply_model request));
         ("use_grok_filter", VBool (use_grok_filter request));
         ("daily_reply_limit", VInt (daily_reply_limit request));
         ("dry_run", VBool (dry_run request)) ].

Definition created (campaign_id short_url : value) : doc :=
  dict [ ("success", VBool true);
         ("campaign_id", campaign_id);
         ("short_url", short_url);
         ("message", VStr "Campaign created successfully. Use /campaigns/{id}/start to activate it.") ].

Section WithOutside.
Context {W : Type} (outside : Outside W).

(** [str(e)] for an [HTTPException] is the library's own. *)
Context (str_of_http_exception : Z → value → string).

Local Open Scope py_scope.

(** [create_campaign] (api/campaigns.py, lines 46-87).  The exception
    with the status 400 is raised inside the [try], whose handler catches
    every [Exception] and raises the status 500 in its place. *)
Definition create_campaign (link_shortener : LinkShortener.t)
    (request : CreateCampaignRequest) (now : Z) : site W → response * site W :=
  λ s,
    let body : M (site W) response :=
      let* short_url :=
        LinkShortener.shorten outside link_shortener (target_url request)
                              None now in
      let campaign_data := <["short_url" := short_url]> (request_dict request) in
      let* result :=
        Site.on_state (CampaignManager.create_campaign campaign_data now) in
      let* success := lift (getitem result "success") in
      if negb (truthy success) then
        ret (HTTPException 400
               (get_default result "error" (VStr "Failed to create campaign")))
      else
        let* campaign_id := lift (getitem result "campaign_id") in
        ret (Json (created campaign_id short_url)) in
    match body s with
    | (Ok (HTTPException status detail), s') =>
        (HTTPException 500 (VStr (str_of_http_exception status detail)), s')
    | (Ok r, s') => (r, s')
    | (Raise e, s') => (HTTPException 500 (VStr e), s')
    end.

End WithOutside.
End CampaignsApi.

(** The requests that change the site, one at a time: the two endpoints
    above and the writes of the campaign manager. *)
Inductive site_step {W} (outside : Outside W) (twitter : TwitterApi W)
    (ai : AiServices W) (str_of_http_exception : Z → value → string)
  : site W → site W → Prop :=
| site_create link_shortener request now s :
    site_step outside twitter ai str_of_http_exception s
      (CampaignsApi.create_campaign outside str_of_http_exception
                                    link_shortener request now s).2
| site_redirect short_code req now s :
    site_step outside twitter ai str_of_http_exception s
      (TrackingApi.redirect_and_track short_code req now s).2
| site_manager s st' :
    manager_step twitter ai (site_state s) st' →
    site_step outside twitter ai str_of_http_exception s
      (Site st' (short_links s) (click_events s)).

(** No click was counted for a campaign: every campaign has zero
    [total_clicks], no short link names a campaign and no click event
    does. *)
Definition unattributed {W} (s : site W) : Prop :=
  Forall (λ c : doc, c !! "total_clicks" = Some (VInt 0))
         (Mongo.campaigns (st_store (site_state s))) ∧
  Forall (λ l : doc, l !! "campaign_id" = Some VNone) (short_links s) ∧
  Forall (λ e : doc, e !! "campaign_id" = Some VNone) (click_events s).

(** ** Campaign analysis ([modules/campaign/campaign_manager.py],
       [analyze_campaign], lines 174-277)

    The analysis stores the posts that the filter returns.  The filter
    returns Python objects, and [insert_one] writes the new [_id] into the
    dictionary it is given: a post object that comes twice in the list
    carries an [_id] at its second insertion, which the unique index of the
    collection refuses. *)

(** *** The filter with the posts as objects

    A post object is known by the position at which the keyword pass
    appended it to [matching_posts].  [_parse_grok_analysis] appends
    [original_post] itself, once for every approving line, so a position can
    come more than once; the lists returned on the other paths are the list
    of the keyword pass. *)

Module PostObjects.
Import PostFilter.

Definition fresh_refs (posts : list post) : list (nat * post) :=
  imap (λ i p, (i, p)) posts.

Definition _parse_grok_analysis (analysis_text : string)
    (original_posts : list post) : list (nat * post) :=
  let matches := findall analysis_text in
  let '(posts, suitable) := parse_loop matches original_posts [] in
  omap (λ i, (λ p, (i, p)) <$> posts !! i) suitable.

(** The posts that are written before a post object comes for the second
    time. *)
Fixpoint distinct_prefix (seen : list nat) (posts : list (nat * post))
  : list (nat * post) :=
  match posts with
  | [] => []
  | (r, p) :: posts' =>
      if bool_decide (r ∈ seen) then []
      else (r, p) :: distinct_prefix (r :: seen) posts'
  end.

Section WithAdapter.
Context {W : Type} (twitter : TwitterApi W).

Local Open Scope py_scope.

(** [_filter_with_grok] (lines 153-222) *)
Definition _filter_with_grok (posts : list post) (campaign_context : doc)
  : M W (list (nat * post)) :=
  match posts with
  | [] => ret []
  | _ =>
      let* analysis_prompt := lift (build_prompt campaign_context) in
      try_except
        (let* result :=
           analyze_tweets_with_grok twitter posts analysis_prompt "grok-3" in
         match result with
         | GrokFailure _ => ret (fresh_refs posts)
         | GrokSuccess analysis_text =>
             ret (_parse_grok_analysis analysis_text posts)
         end)
        (λ _, ret (fresh_refs posts))
  end.

(** [find_matching_posts] (lines 33-123) *)
Definition find_matching_posts (usernames keywords : list string)
    (lookback_days max_posts_per_user : Z) (use_grok_filter : bool)
    (campaign_context : option doc) : M W (list (nat * post)) :=
  let* matching_posts :=
    keyword_matched_posts twitter usernames keywords lookback_days
                          max_posts_per_user in
  match gate_enabled use_grok_filter matching_posts campaign_context with
  | Some ctx => _filter_with_grok matching_posts ctx
  | None => ret (fresh_refs matching_posts)
  end.

End WithAdapter.
End PostObjects.

Module Analysis.
Import Mongo.

(** One document of [interaction_map] (lines 211-216), with the [_id] that
    [insert_one] gives it. *)
Record interaction_doc : Type := InteractionDoc {
  im_id : value;
  im_campaign_id : value;
  im_seed_user : string;
  im_top_interacted_users : list score_entry;
  im_created_at : Z
}.

Global Instance score_entry_eq_dec : EqDecision score_entry.
Proof. solve_decision. Defined.

Global Instance interaction_doc_eq_dec : EqDecision interaction_doc.
Proof. solve_decision. Defined.

(** The campaign store with the collection [interaction_map]. *)
Record t (W : Type) : Type := Database {
  campaign_state : state W;
  interaction_map : list interaction_doc
}.
Arguments Database {W}.
Arguments campaign_state {W}.
Arguments interaction_map {W}.

(** The four entries of a campaign that the mapper and the filter compute
    with, as [CreateCampaignRequest] types them: two lists of strings and
    two integers. *)
Record configuration : Type := Configuration {
  cfg_seed_users : list string;
  cfg_top_n_users : Z;
  cfg_lookback_days : Z;
  cfg_keywords : list string
}.

Definition configuration_of (campaign : doc) : option configuration :=
  match campaign !! "seed_users", campaign !! "top_n_users",
        campaign !! "lookback_days", campaign !! "keywords" with
  | Some (VStrs seed_users), Some (VInt top_n_users),
    Some (VInt lookback_days), Some (VStrs keywords) =>
      Some (Configuration seed_users top_n_users lookback_days keywords)
  | _, _, _, _ => None
  end.

(** The dictionary of a post object (post_filter.py, lines 80-89 and
    258-259). *)
Definition post_dict (p : post) : doc :=
  let d := dict [ ("tweet_id", VStr (tweet_id p));
                  ("username", VStr (username p));
                  ("text", VStr (text p));
                  ("created_at", VStr (created_at p));
                  ("likes", VInt (likes p));
                  ("retweets", VInt (retweets p));
                  ("url", VStr (url p));
                  ("matched_keywords", VStrs (matched_keywords p)) ] in
  let d := match grok_approved p with
           | Some b => <["grok_approved" := VBool b]> d
           | None => d
           end in
  match grok_reason p with
  | Some r => <["grok_reason" := VStr r]> d
  | None => d
  end.

(** Lines 246-248: the post object, with the [_id] of an earlier insertion
    if it has one, after the three assignments. *)
Definition stored_post (oid : value) (now : Z) (id : option value) (p : post)
  : doc :=
  let d := match id with
           | Some v => <["_id" := v]> (post_dict p)
           | None => post_dict p
           end in
  set_fields [ ("campaign_id", oid);
               ("reply_status", VStr "pending");
               ("found_at", VTime now) ] d.

(** The documents written for a list of posts that are new objects, the
    first of them with the identifier number [first]. *)
Definition stored_posts (oid : value) (now : Z) (first : N)
    (posts : list (nat * post)) : list doc :=
  imap (λ i rp, <["_id" := VOid (fresh_id (first + N.of_nat i))]>
                  (stored_post oid now None rp.2)) posts.

(** The documents written for the seed users (lines 210-216). *)
Definition stored_interactions (oid : value) (now : Z) (first : N)
    (top_users : list score_entry) (seed_users : list string)
  : list interaction_doc :=
  imap (λ i seed_user,
          InteractionDoc (VOid (fresh_id (first + N.of_nat i))) oid seed_user
                         top_users now) seed_users.

(** [DuplicateKeyError]: the message of the server begins with these
    words and goes on with the collection and the key. *)
Definition duplicate_key_error : string := "E11000 duplicate key error".

(** The dictionary [campaign_context] (lines 227-232). *)
Definition context (name : value) (keywords : list string)
    (reply_template target_url : value) : doc :=
  dict [ ("name", name);
         ("keywords", VStrs keywords);
         ("reply_template", reply_template);
         ("target_url", target_url) ].

(** Lines 255-264. *)
Definition analysis_completed (found : nat) (now : Z) : update :=
  USet [ ("analysis_completed", VBool true);
         ("total_matched_posts", VInt (Z.of_nat found));
         ("updated_at", VTime now) ].

Definition analysed (top_users_found matching_posts_found : nat) : doc :=
  dict [ ("success", VBool true);
         ("top_users_found", VInt (Z.of_nat top_users_found));
         ("matching_posts_found", VInt (Z.of_nat matching_posts_found)) ].

Section WithServices.
Context {W : Type} (twitter : TwitterApi W).

Local Open Scope py_scope.

Definition has_id (id : value) (d : doc) : bool :=
  bool_decide (d !! "_id" = Some id).

(** [collection.insert_one(d)] for a dictionary that may carry an [_id]:
    the unique index on [_id] refuses a second document with it. *)
Definition insert_one (c : collection) (d : doc) : M (state W) value :=
  λ st, match d !! "_id" with
        | Some id =>
            if existsb (has_id id) (Db.documents c (st_store st))
            then (Raise duplicate_key_error, st)
            else Db.insert_one c d st
        | None => Db.insert_one c d st
        end.

Definition on_state {A} (m : M (state W) A) : M (t W) A :=
  λ s, let '(r, st) := m (campaign_state s) in
       (r, Database st (interaction_map s)).

(** [db.interaction_map.insert_one({...})] (lines 211-216) *)
Definition insert_interaction_map (oid : value) (seed_user : string)
    (top_users : list score_entry) (now : Z) : M (t W) unit :=
  λ s, let st := campaign_state s in
       let n := next_id (st_store st) in
       (Ok (),
        Database
          (State (Store (campaigns (st_store st)) (matched_posts (st_store st))
                        (campaign_replies (st_store st)) (N.succ n))
                 (st_world st) (st_tasks st))
          (interaction_map s
           ++ [InteractionDoc (VOid (fresh_id n)) oid seed_user top_users now])).

(** The loop of lines 210-216. *)
Fixpoint save_interaction_map (oid : value) (seed_users : list string)
    (top_users : list score_entry) (now : Z) : M (t W) unit :=
  match seed_users with
  | [] => ret ()
  | seed_user :: seed_users' =>
      do insert_interaction_map oid seed_user top_users now in
      save_interaction_map oid seed_users' top_users now
  end.

(** The loop of lines 245-249.  [ids] holds the [_id] that [insert_one]
    wrote into each post object so far. *)
Fixpoint save_posts (oid : value) (now : Z) (ids : gmap nat value)
    (matching_posts : list (nat * post)) : M (state W) unit :=
  match matching_posts with
  | [] => ret ()
  | (r, p) :: matching_posts' =>
      let* id := insert_one MatchedPosts (stored_post oid now (ids !! r) p) in
      save_posts oid now (<[r := id]> ids) matching_posts'
  end.

(** The body of the [try] from line 195 on, for a campaign with the
    configuration [c].  [now] stands for the readings of the clock during
    the call. *)
Definition analysis (oid : value) (campaign : doc) (c : configuration)
    (now : Z) : M (t W) doc :=
  let* name := lift (getitem campaign "name") in
  (* Step 1: Interaction Mapping *)
  let* top_users :=
    on_state (Db.on_world
      (λ w, let '(top_users, w') :=
              InteractionMapper.find_top_interacted_users
                twitter (cfg_seed_users c) (cfg_top_n_users c)
                (cfg_lookback_days c) now w in
            (Ok top_users, w'))) in
  (* Save interaction map *)
  do save_interaction_map oid (cfg_seed_users c) top_users now in
  (* Step 2: Post Filtering *)
  let usernames := se_username <$> top_users in
  let* reply_template := lift (getitem campaign "reply_template") in
  let* target_url := lift (getitem campaign "target_url") in
  let campaign_context :=
    context name (cfg_keywords c) reply_template target_url in
  let* matching_posts :=
    on_state (Db.on_world
      (PostObjects.find_matching_posts
         twitter usernames (cfg_keywords c) (cfg_lookback_days c) 5
         (truthy (get_default campaign "use_grok_filter" (VBool false)))
         (Some campaign_context))) in
  (* Save matched posts *)
  do on_state (save_posts oid now ∅ matching_posts) in
  (* Update campaign status *)
  do on_state (Db.update_one Campaigns (by_id oid)
                 (analysis_completed (length matching_posts) now)) in
  ret (analysed (length top_users) (length matching_posts)).

(** [analyze_campaign] (lines 174-277).  A campaign whose four entries
    are not of the types of [configuration] is outside the embedding. *)
Definition analyze_campaign (campaign_id : string) (now : Z)
  : t W → option (outcome doc * t W) :=
  λ s,
    match ObjectId campaign_id with
    | Raise e => Some (Ok (CampaignManager.failure e), s)
    | Ok oid =>
        match find_one (by_id oid)
                       (campaigns (st_store (campaign_state s))) with
        | None => Some (Ok (CampaignManager.failure "Campaign not found"), s)
        | Some campaign =>
            if decide (campaign = ∅)
            then Some (Ok (CampaignManager.failure "Campaign not found"), s)
            else
              match configuration_of campaign with
              | Some c =>
                  Some (try_except (analysis oid campaign c now)
                                   (λ e, ret (CampaignManager.failure e)) s)
              | None => None
              end
        end
    end.

End WithServices.

(** The state of the loop over the posts: the objects met so far are those
    that carry an [_id], and every such [_id] is the one of a stored
    document. *)
Definition ids_stored (ids : gmap nat value) (seen : list nat)
    (stored : list doc) : Prop :=
  ∀ r, (r ∈ seen ↔ is_Some (ids !! r)) ∧
       (∀ id, ids !! r = Some id → existsb (has_id id) stored = true).

End Analysis.

(** ** Sequences of state-transition operations *)

Module Lifecycle.
Import Mongo.

Inductive operation : Type :=
| StartCampaign (campaign_id : string) (now : Z)
| StopCampaign (campaign_id : string) (now : Z).

Definition perform {W} (twitter : TwitterApi W) (op : operation)
    (st : state W) : state W :=
  match op with
  | StartCampaign campaign_id now =>
      (CampaignManager.start_campaign twitter campaign_id now st).2
  | StopCampaign campaign_id now =>
      (CampaignManager.stop_campaign campaign_id now st).2
  end.

Definition run {W} (twitter : TwitterApi W) (ops : list operation)
    (st : state W) : state W :=
  fold_left (λ st op, perform twitter op st) ops st.

(** The status of the [i]-th campaign of the store. *)
Definition status_at {W} (i : nat) (st : state W) : option value :=
  campaigns (st_store st) !! i ≫= λ d : doc, d !! "status".

(** The transitions that the specification allows the two operations:
    draft to active, active to paused, paused to active (and no change). *)
Definition listed_transition (before after : option value) : Prop :=
  before = after
  ∨ (before = Some (VStr "draft") ∧ after = Some (VStr "active"))
  ∨ (before = Some (VStr "active") ∧ after = Some (VStr "paused"))
  ∨ (before = Some (VStr "paused") ∧ after = Some (VStr "active")).


End Lifecycle.

(** ** A scripted platform, for concrete runs

    The world records whether the session is still valid and every
    [(text, reply_to)] that was posted.  The answers of the client and of
    the language model are fixed by a script. *)

Module Scenario.

Record platform : Type := Platform {
  session : bool;
  posted : list (string * value)
}.

Record script : Type := Script {
  clock : Z;
  timeline : string → outcome (list client_tweet);
  favoriters : string → outcome (list string);
  retweeting : string → outcome (list string);
  analysis : outcome string;
  generated : outcome string;
  session_ends_after_fetch : bool
}.

Definition as_user (name : string) : client_user :=
  {| user_id := name; screen_name := name |}.

Definition answer {A} (o : outcome A) : M platform A := lift o.

Definition client (s : script) : Client platform :=
  {| is_authenticated := session;
     adapter_user := λ _, as_user "admin";
     utc_now := λ _, clock s;
     client_get_user_by_screen_name := λ name, ret (as_user name);
     client_get_user_tweets := λ uid _ _ w,
       (timeline s uid,
        if session_ends_after_fetch s then Platform false (posted w) else w);
     client_get_favoriters := λ tid _,
       answer (and_then (favoriters s tid) (λ l, Ok (as_user <$> l)));
     client_get_retweeters := λ tid _,
       answer (and_then (retweeting s tid) (λ l, Ok (as_user <$> l)));
     client_create_tweet := λ text reply_to w,
       (Ok (Created
              {| ct_id := pretty (length (posted w));
                 ct_text := text;
                 ct_created_at := "";
                 ct_created_at_datetime := clock s;
                 ct_favorite_count := 0;
                 ct_retweet_count := 0;
                 ct_reply_count := 0 |}),
        Platform (session w) (posted w ++ [(text, reply_to)]));
     client_grok_analysis := λ _ _ _, answer (analysis s);
     client_grok_reply := λ _ _ _ _ _, answer (generated s) |}.

Definition twitter (s : script) : TwitterApi platform :=
  TwitterAdapter.api (client s).

Definition ai (s : script) : AiServices platform :=
  {| llm_generate_text := λ _ _ _ _ _, answer (generated s);
     create_grok_conversation := ret ();
     approval_generate := λ _ _, ret "yes" |}.

Global Instance platform_eq_dec : EqDecision platform.
Proof. solve_decision. Defined.

Definition logged_in : platform := Platform true [].

Definition a_tweet (id text : string) (at_time : Z) : client_tweet :=
  {| ct_id := id;
     ct_text := text;
     ct_created_at := "";
     ct_created_at_datetime := at_time;
     ct_favorite_count := 3;
     ct_retweet_count := 1;
     ct_reply_count := 0 |}.

Definition nobody : string → outcome (list string) := λ _, Ok [].

Definition day : Z := microseconds_per_day.
Definition minute : Z := 60000000.

Definition empty_store : Mongo.store := Mongo.Store [] [] [] 0.

Definition fresh {W} (w : W) : state W := State empty_store w [].

(** *** Scripts *)

(** A user ["alice"] with two posts that mention Rust. *)
Definition alice (reply : outcome string) (ends : bool) : script :=
  {| clock := 10 * day;
     timeline := λ u,
       if String.eqb u "alice"
       then Ok [a_tweet "101" "Learning Rust today" (9 * day);
                a_tweet "102" "More RUST tips" (9 * day)]
       else Ok [];
     favoriters := nobody;
     retweeting := nobody;
     analysis := reply;
     generated := Ok "Nice thread!";
     session_ends_after_fetch := ends |}.

Definition rust_context : doc :=
  {[ "name" := VStr "Rust book";
     "keywords" := VStrs ["rust"];
     "reply_template" := VStr "Hi {author}, see {url}";
     "target_url" := VStr "https://example.org/rust" ]}.

Definition rust_post (id text : string) : post :=
  {| tweet_id := id;
     username := "alice";
     text := text;
     created_at := "";
     likes := 3;
     retweets := 1;
     url := "https://x.com/alice/status/" +:+ id;
     matched_keywords := ["rust"];
     grok_approved := None;
     grok_reason := None |}.

(** A seed user [who] with one post, liked and retweeted as given. *)
Definition seed_post (who : string) (likes reposts : list string) : script :=
  {| clock := 10 * day;
     timeline := λ u,
       if String.eqb u who then Ok [a_tweet "t1" "hello" (9 * day)] else Ok [];
     favoriters := λ _, Ok likes;
     retweeting := λ _, Ok reposts;
     analysis := Ok "";
     generated := Ok "";
     session_ends_after_fetch := false |}.

(** The seed normalised as the specification words it: one leading [@]
    is removed. *)
Definition strip_leading_at (seed : string) : string :=
  match seed with
  | String "@" name => name
  | _ => seed
  end.

(** Lines 245-249 of [analyze_campaign]: a matched post as it is stored. *)
Definition pending_post (oid : value) (tweet_id username text : string)
    (now : Z) : doc :=
  dict [ ("tweet_id", VStr tweet_id);
         ("username", VStr username);
         ("text", VStr text);
         ("campaign_id", oid);
         ("reply_status", VStr "pending");
         ("found_at", VTime now) ].

Definition campaign_data (daily_reply_limit : Z) (dry_run : bool) : doc :=
  dict [ ("name", VStr "Rust book");
         ("seed_users", VStrs ["@a"]);
         ("keywords", VStrs ["rust"]);
         ("reply_template", VStr "Hi {author}, see {url}");
         ("target_url", VStr "https://example.org/rust");
         ("short_url", VStr "https://sho.rt/r");
         ("daily_reply_limit", VInt daily_reply_limit);
         ("dry_run", VBool dry_run) ].

(** A platform on which every reply is generated and posted. *)
Definition replying : script :=
  {| clock := 10 * day;
     timeline := λ _, Ok [];
     favoriters := nobody;
     retweeting := nobody;
     analysis := Ok "";
     generated := Ok "Nice thread!";
     session_ends_after_fetch := false |}.

Definition first_id : string := Mongo.fresh_id 0.
Definition noon : Z := 10 * day + 720 * minute.

(** Run a step and keep the state. *)
Definition after {W A} (m : M (state W) A) (st : state W) : state W := (m st).2.

(** An entry of a returned dictionary. *)
Definition reported (result : outcome doc) (k : string) : option value :=
  match result with
  | Ok d => d !! k
  | Raise _ => None
  end.

(** The tweet and the reply status of every stored post. *)
Definition post_statuses {W} (st : state W)
  : list (option value * option value) :=
  (λ d : doc, (d !! "tweet_id", d !! "reply_status"))
    <$> Mongo.matched_posts (st_store st).

(** A campaign that was created and never started. *)
Definition drafted (daily_reply_limit : Z) (dry_run : bool) : state platform :=
  after (CampaignManager.create_campaign
           (campaign_data daily_reply_limit dry_run) (10 * day))
        (fresh logged_in).

(** The campaign started, with two pending posts. *)
Definition started (daily_reply_limit : Z) (dry_run : bool) : state platform :=
  let st := drafted daily_reply_limit dry_run in
  let st := after (CampaignManager.start_campaign (twitter replying) first_id
                     (10 * day)) st in
  let st := after (Db.insert_one MatchedPosts
                     (pending_post (VOid first_id) "101" "alice"
                                   "Learning Rust" (10 * day))) st in
  after (Db.insert_one MatchedPosts
           (pending_post (VOid first_id) "102" "bob" "More Rust" (10 * day))) st.

(** The campaign marked completed from outside the manager. *)
Definition completed : state platform :=
  after (Db.update_one Campaigns (Mongo.by_id (VOid first_id))
           (Mongo.USet [("status", VStr "completed")]))
        (started 50 false).

(** The campaign paused again after it was started. *)
Definition paused : state platform :=
  after (CampaignManager.stop_campaign first_id (10 * day)) (started 50 false).

(** The reply step of one scheduler tick at [now]. *)
Definition tick (now : Z) (st : state platform) : state platform :=
  after (CampaignManager.process_pending_reply (twitter replying) (ai replying)
           first_id now) st.

(** A third post found later for the tweet of the first one. *)
Definition found_again (st : state platform) : state platform :=
  after (Db.insert_one MatchedPosts
           (pending_post (VOid first_id) "101" "alice" "Learning Rust"
                         (10 * day + 800 * minute))) st.

(** Both posts were replied to and the first tweet was found once more. *)
Definition replied_twice : state platform :=
  found_again (tick (noon + 5 * minute) (tick noon (started 50 false))).

(** The same, on a campaign that was stopped afterwards. *)
Definition stopped : state platform :=
  after (CampaignManager.stop_campaign first_id (noon + 6 * minute))
        replied_twice.

(** Only the first post was replied to when its tweet was found again. *)
Definition replied_once : state platform :=
  found_again (tick noon (started 50 false)).

(** The two posts of ["alice"] as the keyword pass returns them. *)
Definition alice_posts : list post :=
  [rust_post "101" "Learning Rust today"; rust_post "102" "More RUST tips"].

(** The first post was replied to at noon. *)
Definition one_reply : state platform := tick noon (started 50 false).

(** The dictionary that a call returned. *)
Definition answer_of (result : outcome doc) : doc :=
  match result with
  | Ok d => d
  | Raise _ => ∅
  end.

(** The campaign document and the first matched post of a state. *)
Definition the_campaign (st : state platform) : doc :=
  default ∅ (Mongo.campaigns (st_store st) !! 0%nat).

Definition first_post (st : state platform) : doc :=
  default ∅ (Mongo.matched_posts (st_store st) !! 0%nat).

Definition limiter (st : state platform) : RateLimiter.t :=
  RateLimiter.__init__ (reader_of (st_store st)).

End Scenario.

(** ** Ledgers that fail, for runs of the rate limiter *)

Module LimiterScenario.
Import Scenario.

(** A ledger that answers every query on the campaigns and the count since
    midnight, and loses the connection at the count for the last hour. *)
Definition lost_at_hourly_count (s : Mongo.store) : LedgerReader :=
  {| campaigns_find_one := campaigns_find_one (reader_of s);
     campaign_replies_count_documents := λ q,
       match q with
       | [_; (_, Mongo.CGte (VTime since)); _; _] =>
           if (since mod day =? 0)%Z
           then campaign_replies_count_documents (reader_of s) q
           else Raise "connection lost"
       | _ => campaign_replies_count_documents (reader_of s) q
       end;
     campaign_replies_find_one_latest :=
       campaign_replies_find_one_latest (reader_of s) |}.

(** A ledger that times out at the look-up of the last reply. *)
Definition late_at_last_reply (s : Mongo.store) : LedgerReader :=
  {| campaigns_find_one := campaigns_find_one (reader_of s);
     campaign_replies_count_documents :=
       campaign_replies_count_documents (reader_of s);
     campaign_replies_find_one_latest := λ _ _, Raise "timed out" |}.

End LimiterScenario.

(** ** A scripted site, for concrete runs of the tracking side *)

Module TrackingScenario.
Import Scenario.

(** The generator always draws the number 7, the letter [h]; the Bitly
    service cannot be reached. *)
Definition offline : Outside platform :=
  {| randbelow := λ _ w, (7%nat, w);
     bitly_post := λ _, raise "All connection attempts failed" |}.

Definition shortener : LinkShortener.t :=
  LinkShortener.__init__ true None (Some "https://sho.rt").

Definition rust_request : CampaignsApi.CreateCampaignRequest :=
  {| CampaignsApi.name := "Rust book";
     CampaignsApi.seed_users := ["@a"];
     CampaignsApi.top_n_users := 50;
     CampaignsApi.lookback_days := 7;
     CampaignsApi.keywords := ["rust"];
     CampaignsApi.reply_template := "Hi {author}, see {url}";
     CampaignsApi.target_url := "https://example.org/rust";
     CampaignsApi.ai_provider := "anthropic";
     CampaignsApi.reply_model := None;
     CampaignsApi.use_grok_filter := false;
     CampaignsApi.daily_reply_limit := 1;
     CampaignsApi.dry_run := false |}.

Definition visitor : request :=
  {| client_host := Some "203.0.113.9";
     user_agent := Some "Mozilla/5.0";
     referer := None |}.

(** [str] of an [HTTPException], as the library writes it. *)
Definition status_and_detail (status : Z) (detail : value) : string :=
  pretty status +:+ ": " +:+
  match detail with VStr s => s | _ => "" end.

Definition empty_site : site platform := Site (fresh logged_in) [] [].

(** A link made by the shortener directly. *)
Definition linked : site platform :=
  (LinkShortener._shorten_internal offline shortener
     "https://example.org/rust" None (10 * day) empty_site).2.

(** A campaign created through the endpoint. *)
Definition created : site platform :=
  (CampaignsApi.create_campaign offline status_and_detail shortener
                                rust_request (10 * day) empty_site).2.

(** The link of that campaign was followed once. *)
Definition clicked : site platform :=
  (TrackingApi.redirect_and_track "hhhhhh" visitor noon created).2.

(** The first short link and the first click event of a site. *)
Definition first_link (s : site platform) : doc :=
  default ∅ (short_links s !! 0%nat).

End TrackingScenario.

(** ** A scripted platform for a run of the analysis *)

Module AnalysisScenario.
Import Scenario.

(** The seed user [a] has one post, liked by [alice]; [alice] has two
    posts on Rust; the answer of Grok approves the first of them twice. *)
Definition approving_twice : script :=
  {| clock := 10 * day;
     timeline := λ u,
       if String.eqb u "a" then Ok [a_tweet "t1" "hello" (9 * day)]
       else if String.eqb u "alice"
       then Ok [a_tweet "101" "Learning Rust today" (9 * day);
                a_tweet "102" "More RUST tips" (9 * day)]
       else Ok [];
     favoriters := λ _, Ok ["alice"];
     retweeting := nobody;
     analysis :=
       Ok (PostFilter.suitable_line "101" "on topic" +:+ PostFilter.newline +:+
           PostFilter.suitable_line "102" "tips" +:+ PostFilter.newline +:+
           PostFilter.suitable_line "101" "again");
     generated := Ok "";
     session_ends_after_fetch := false |}.

(** A campaign with the Grok filter, created and not yet analysed. *)
Definition gated : Analysis.t platform :=
  Analysis.Database
    (after (CampaignManager.create_campaign
              (<["use_grok_filter" := VBool true]> (campaign_data 50 false))
              (10 * day))
           (fresh logged_in))
    [].

Definition rust_configuration : Analysis.configuration :=
  Analysis.Configuration ["@a"] 50 7 ["rust"].

(** The two posts as the answer leaves them. *)
Definition first_approved : post :=
  PostFilter.approve "again" (rust_post "101" "Learning Rust today").

Definition second_approved : post :=
  PostFilter.approve "tips" (rust_post "102" "More RUST tips").

End AnalysisScenario.

(** A branch of the reply step that ends without a ledger entry. *)
Ltac ledger_unchanged := intros ->; by left.

(** * Properties

    ** Post filter *)

Module PostFilterFacts.
Import PostFilter Scenario.




Lemma append_cons c p b : String c p +:+ b = String c (p +:+ b).
Proof. reflexivity. Qed.

(** [needle in hay] finds an occurrence. *)
Lemma prefix_app p s : String.prefix p s = true ↔ ∃ b, s = p +:+ b.
Proof.
  revert s. induction p as [|c p IH]; intros s; simpl.
  - split; [intros _; exists s; reflexivity | by destruct s].
  - destruct s as [|d s]; simpl.
    + split; [done | intros [b Hb]; discriminate].
    + destruct (ascii_dec c d) as [->|Hne].
      * rewrite IH. split; intros [b Hb]; exists b.
        -- by rewrite append_cons, Hb.
        -- rewrite append_cons in Hb. congruence.
      * split; [done | intros [b Hb]; rewrite append_cons in Hb; congruence].
Qed.

Lemma contains_empty needle :
  Str.contains needle "" = String.prefix needle "" || false.
Proof. reflexivity. Qed.

Lemma contains_cons needle c hay :
  Str.contains needle (String c hay) =
  String.prefix needle (String c hay) || Str.contains needle hay.
Proof. reflexivity. Qed.

Lemma contains_occurrence needle hay :
  Str.contains needle hay = true ↔ ∃ a b, hay = a +:+ needle +:+ b.
Proof.
  induction hay as [|c hay IH];
    [rewrite contains_empty | rewrite contains_cons].
  - rewrite orb_false_r, prefix_app. split.
    + intros [b Hb]. by exists "", b.
    + intros (a & b & Hab). destruct a; [by exists b | discriminate].
  - rewrite orb_true_iff, prefix_app, IH. split.
    + intros [[b Hb] | (a & b & Hab)].
      * by exists "", b.
      * exists (String c a), b. by rewrite append_cons, Hab.
    + intros (a & b & Hab). destruct a as [|c' a].
      * left. by exists b.
      * right. exists a, b. rewrite append_cons in Hab. congruence.
Qed.

Lemma lower_append a b : Str.lower (a +:+ b) = Str.lower a +:+ Str.lower b.
Proof.
  induction a as [|c a IH]; [done|].
  rewrite append_cons. simpl. by rewrite IH.
Qed.



(** A post is a keyword match when one keyword occurs in its text, and
    [matched_keywords] lists exactly the keywords that occur. *)
Lemma matches_keywords_iff text keywords :
  _matches_keywords text keywords = true ↔
  ∃ kw, In kw keywords ∧ Str.contains (Str.lower kw) (Str.lower text) = true.
Proof. unfold _matches_keywords. by rewrite existsb_exists. Qed.



(** The keyword pass alone never raises: a failing fetch skips the user. *)
Lemma users_loop_total {W} (twitter : TwitterApi W) usernames keywords
    lookback_days max_posts_per_user acc (w : W) :
  ∃ posts w1,
    users_loop twitter usernames keywords lookback_days max_posts_per_user acc w
    = (Ok posts, w1).
Proof.
  revert acc w. induction usernames as [|u us IH]; intros acc w; simpl.
  - by exists acc, w.
  - unfold bind, try_except, ret.
    destruct (get_user_tweets twitter u 50 lookback_days w) as [[tweets|e] w'];
      apply IH.
Qed.

(** Without a single match of the pattern nothing is approved. *)
Lemma parse_without_match analysis_text posts :
  findall analysis_text = [] → _parse_grok_analysis analysis_text posts = [].
Proof. unfold _parse_grok_analysis. by intros ->. Qed.

Lemma filter_with_grok_unparseable {W} (twitter : TwitterApi W)
    posts ctx prompt analysis_text (w w1 : W) :
  posts ≠ [] →
  build_prompt ctx = Ok prompt →
  analyze_tweets_with_grok twitter posts prompt "grok-3" w
    = (Ok (GrokSuccess analysis_text), w1) →
  findall analysis_text = [] →
  _filter_with_grok twitter posts ctx w = (Ok [], w1).
Proof.
  intros Hne Hp Ha Hf. unfold _filter_with_grok.
  destruct posts as [|p posts]; [done|].
  unfold bind, lift, try_except, ret. rewrite Hp, Ha.
  by rewrite parse_without_match.
Qed.

(** C2, the behaviour of the code: the AI call succeeds with a text in
    which the pattern [tweet_id=...;suitable=...] occurs nowhere.  The
    keyword pass had found two posts; [find_matching_posts] returns the
    empty list, not those two posts. *)
Theorem unparseable_analysis_returns_no_posts :
  let tw := twitter (alice (Ok "Sorry, I can not rate these tweets.") false) in
  findall "Sorry, I can not rate these tweets." = [] ∧
  (keyword_matched_posts tw ["alice"] ["rust"] 7 5 logged_in).1
    = Ok alice_posts ∧
  (find_matching_posts tw ["alice"] ["rust"] 7 5 true (Some rust_context)
                       logged_in).1
    = Ok [].
Proof. by vm_compute. Qed.



(** C9: when the keyword pass has found posts, the gate is on and the
    AI-analysis call raises, [find_matching_posts] returns exactly the posts
    of the keyword pass. *)
Theorem analysis_raises_returns_keyword_posts {W} (twitter : TwitterApi W)
    usernames keywords lookback_days max_posts_per_user
    ctx prompt posts e (w w1 w2 : W) :
  keyword_matched_posts twitter usernames keywords lookback_days
                        max_posts_per_user w = (Ok posts, w1) →
  posts ≠ [] →
  ctx ≠ ∅ →
  build_prompt ctx = Ok prompt →
  analyze_tweets_with_grok twitter posts prompt "grok-3" w1 = (Raise e, w2) →
  find_matching_posts twitter usernames keywords lookback_days
                      max_posts_per_user true (Some ctx) w
    = (Ok posts, w2).
Proof.
  intros Hk Hne Hctx Hp Ha. unfold find_matching_posts, bind. rewrite Hk.
  unfold gate_enabled. destruct posts as [|p posts]; [done|].
  destruct (decide (ctx = ∅)); [done|].
  unfold _filter_with_grok, bind, lift, try_except, ret. by rewrite Hp, Ha.
Qed.

Lemma analysis_raises_returns_keyword_posts_witness :
  find_matching_posts (twitter (alice (Ok "") true)) ["alice"] ["rust"] 7 5
                      true (Some rust_context) logged_in
  = (Ok alice_posts, Platform false []).
Proof.
  apply (analysis_raises_returns_keyword_posts
           (twitter (alice (Ok "") true)) ["alice"] ["rust"] 7 5 rust_context
           {| prompt_name := VStr "Rust book";
              prompt_reply_template := VStr "Hi {author}, see {url}";
              prompt_target_url := VStr "https://example.org/rust";
              prompt_keywords := "rust" |}
           alice_posts
           "Twitter client not authenticated. Please call initialize_from_file() first."
           logged_in (Platform false []) (Platform false [])).
  - vm_compute. reflexivity.
  - done.
  - compute_done.
  - vm_compute. reflexivity.
  - vm_compute. reflexivity.
Defined.

End PostFilterFacts.

(** ** Interaction mapper *)

Module InteractionMapperFacts.
Import InteractionMapper Scenario.
Local Open Scope Z_scope.

Lemma add_score_keys k n d :
  (add_score k n d).*1 = if decide (k ∈ d.*1) then d.*1 else d.*1 ++ [k].
Proof.
  induction d as [|[k' v] d IH].
  - destruct (decide (k ∈ ([] : scores).*1)) as [Hin|_]; [|done].
    by apply elem_of_nil in Hin.
  - cbn [add_score]. rewrite fmap_cons. cbn [fst].
    destruct (String.eqb_spec k' k) as [->|Hne].
    + rewrite decide_True; [done | apply elem_of_cons; by left].
    + rewrite fmap_cons, IH. cbn [fst].
      destruct (decide (k ∈ d.*1)) as [Hin|Hout].
      * rewrite decide_True; [done | apply elem_of_cons; by right].
      * rewrite decide_False; [done|].
        intros [?|?]%elem_of_cons; [congruence | done].
Qed.

Lemma add_score_NoDup k n d : NoDup d.*1 → NoDup (add_score k n d).*1.
Proof.
  intros Hd. rewrite add_score_keys. destruct (decide (k ∈ d.*1)); [done|].
  apply NoDup_app. split_and!; [done | | apply NoDup_singleton].
  intros x Hx ->%list_elem_of_singleton. done.
Qed.

Lemma score_users_NoDup n users d :
  NoDup d.*1 → NoDup (score_users n users d).*1.
Proof.
  unfold score_users. revert d.
  induction users as [|u users IH]; intros d Hd; simpl; [done|].
  apply IH. by apply add_score_NoDup.
Qed.

Lemma pop_sublist k d : pop k d `sublist_of` d.
Proof.
  induction d as [|[k' v] d IH]; simpl; [done|].
  destruct (String.eqb k' k).
  - by apply sublist_cons.
  - by apply sublist_skip.
Qed.

Lemma pop_NoDup k d : NoDup d.*1 → NoDup (pop k d).*1.
Proof.
  intros Hd. eapply sublist_NoDup; [exact Hd|].
  apply fmap_sublist, pop_sublist.
Qed.

Lemma pop_removes k d : NoDup d.*1 → k ∉ (pop k d).*1.
Proof.
  induction d as [|[k' v] d IH]; simpl.
  - intros _. apply not_elem_of_nil.
  - intros [Hk' Hd]%NoDup_cons.
    destruct (String.eqb_spec k' k) as [->|Hne]; [done|].
    simpl. intros [?|?]%elem_of_cons; [congruence | by apply IH].
Qed.

Lemma remove_seeds_sublist seeds d : remove_seeds seeds d `sublist_of` d.
Proof.
  unfold remove_seeds. revert d.
  induction seeds as [|s seeds IH]; intros d; simpl; [done|].
  etrans; [apply IH | apply pop_sublist].
Qed.

Lemma remove_seeds_NoDup seeds d : NoDup d.*1 → NoDup (remove_seeds seeds d).*1.
Proof.
  intros Hd. eapply sublist_NoDup; [exact Hd|].
  apply fmap_sublist, remove_seeds_sublist.
Qed.

Lemma remove_seeds_removes seeds d seed :
  NoDup d.*1 → seed ∈ seeds → Str.strip_at seed ∉ (remove_seeds seeds d).*1.
Proof.
  unfold remove_seeds. revert d.
  induction seeds as [|s seeds IH]; intros d Hd Hin; simpl.
  - by apply elem_of_nil in Hin.
  - apply elem_of_cons in Hin as [->|Hin].
    + intros Hx. apply (pop_removes (Str.strip_at s) d Hd).
      eapply elem_of_sublist; [exact Hx|].
      apply fmap_sublist, (remove_seeds_sublist seeds).
    + apply IH; [by apply pop_NoDup | done].
Qed.

(** The sort: ordered, a rearrangement, and stable. *)
Lemma insert_desc_perm x l : insert_desc x l ≡ₚ x :: l.
Proof.
  induction l as [|y l IH]; simpl; [done|].
  destruct (snd x <? snd y)%Z; [|done].
  rewrite IH. apply Permutation_swap.
Qed.

Lemma sorted_by_score_perm l : sorted_by_score l ≡ₚ l.
Proof.
  induction l as [|x l IH]; simpl; [done|].
  by rewrite insert_desc_perm, IH.
Qed.

Lemma insert_desc_sorted x l :
  StronglySorted by_score l → StronglySorted by_score (insert_desc x l).
Proof.
  induction 1 as [|y l Hl IH Hy]; simpl.
  - repeat constructor.
  - destruct (Z.ltb_spec (snd x) (snd y)) as [Hlt|Hge].
    + constructor; [done|].
      rewrite insert_desc_perm. constructor; [unfold by_score; lia | done].
    + constructor; [by constructor|].
      constructor; [done|].
      eapply Forall_impl; [exact Hy|]. unfold by_score. intros; simpl in *; lia.
Qed.

Lemma sorted_by_score_sorted l : StronglySorted by_score (sorted_by_score l).
Proof.
  induction l as [|x l IH]; simpl; [constructor | by apply insert_desc_sorted].
Qed.

Lemma insert_desc_stable s x l :
  filter (λ e, snd e = s) (insert_desc x l) = filter (λ e, snd e = s) (x :: l).
Proof.
  induction l as [|y l IH]; simpl; [done|].
  destruct (Z.ltb_spec (snd x) (snd y)) as [Hlt|Hge]; [|done].
  rewrite filter_cons, IH, !filter_cons.
  destruct (decide (snd y = s)), (decide (snd x = s)); try done; lia.
Qed.

Lemma sorted_by_score_stable s l :
  filter (λ e, snd e = s) (sorted_by_score l) = filter (λ e, snd e = s) l.
Proof.
  induction l as [|x l IH]; simpl; [done|].
  by rewrite insert_desc_stable, !filter_cons, IH.
Qed.

Lemma slice_to_prefix {A} n (l : list A) : slice_to n l `prefix_of` l.
Proof. unfold slice_to. destruct (0 <=? n)%Z; apply prefix_take. Qed.

Lemma slice_to_length {A} n (l : list A) :
  (0 <= n)%Z → (Z.of_nat (length (slice_to n l)) <= n)%Z.
Proof.
  intros Hn. unfold slice_to.
  destruct (Z.leb_spec 0 n); [|lia]. rewrite length_take. lia.
Qed.

Section Loops.
Context {W : Type} (twitter : TwitterApi W).

Lemma tweets_loop_NoDup tweets d (w : W) :
  NoDup d.*1 → NoDup (tweets_loop twitter tweets d w).1.*1.
Proof.
  revert d w. induction tweets as [|tw tweets IH]; intros d w Hd; simpl; [done|].
  destruct (get_tweet_interactions twitter (tw_tweet_id tw) w) as [[i|e] w'];
    [|done].
  apply IH. by do 2 apply score_users_NoDup.
Qed.

Lemma seeds_loop_NoDup seeds lookback_days d (w : W) :
  NoDup d.*1 → NoDup (seeds_loop twitter seeds lookback_days d w).1.*1.
Proof.
  revert d w. induction seeds as [|s seeds IH]; intros d w Hd; simpl; [done|].
  destruct (get_user_tweets twitter s 20 lookback_days w) as [[tweets|e] w'].
  - pose proof (tweets_loop_NoDup tweets d w' Hd) as Hd'.
    destruct (tweets_loop twitter tweets d w') as [d' w'']. by apply IH.
  - by apply IH.
Qed.

Lemma candidate_scores_NoDup seeds lookback_days (w : W) :
  NoDup (candidate_scores twitter seeds lookback_days w).*1.
Proof.
  apply remove_seeds_NoDup, seeds_loop_NoDup. constructor.
Qed.

Lemma find_top_interacted_users_result seeds top_n lookback_days now (w : W) :
  (find_top_interacted_users twitter seeds top_n lookback_days now w).1 =
  entry now <$> slice_to top_n
    (sorted_by_score (candidate_scores twitter seeds lookback_days w)).
Proof.
  unfold find_top_interacted_users, candidate_scores.
  destruct (seeds_loop twitter seeds lookback_days [] w) as [d w']. simpl.
  apply list_fmap_ext. by intros i [u s] _.
Qed.
End Loops.

Lemma filter_fmap_entry now s (l : list (string * Z)) :
  pair_of <$> filter (λ e, interaction_score e = s) (entry now <$> l)
  = filter (λ p, p.2 = s) l.
Proof.
  induction l as [|[u v] l IH]; [done|].
  rewrite fmap_cons, !filter_cons.
  change (interaction_score (entry now (u, v))) with v.
  change ((u, v).2) with v.
  destruct (decide (v = s)); [|exact IH].
  rewrite fmap_cons, IH. reflexivity.
Qed.

Lemma filter_prefix {A} (P : A → Prop) `{!∀ x, Decision (P x)} (l k : list A) :
  l `prefix_of` k → filter P l `prefix_of` filter P k.
Proof. intros [r ->]. rewrite filter_app. by apply prefix_app_r. Qed.

(** C7: one seed ["@a"], one post of the seed, liked by ["bob"] and
    retweeted by ["carol"], [top_n = 1]: the result is the single entry
    for ["carol"] with score 2.  With [top_n = 2] ["bob"] follows with
    score 1. *)
Theorem scoring_scenario {W} (twitter : TwitterApi W) lookback_days now tw
    (w w1 w2 : W) :
  get_user_tweets twitter "@a" 20 lookback_days w = (Ok [tw], w1) →
  get_tweet_interactions twitter (tw_tweet_id tw) w1
    = (Ok {| likers := ["bob"]; retweeters := ["carol"] |}, w2) →
  find_top_interacted_users twitter ["@a"] 1 lookback_days now w
    = ([ {| se_username := "carol"; interaction_score := 2;
            last_interaction := now |} ], w2)
  ∧ find_top_interacted_users twitter ["@a"] 2 lookback_days now w
    = ([ {| se_username := "carol"; interaction_score := 2;
            last_interaction := now |};
         {| se_username := "bob"; interaction_score := 1;
            last_interaction := now |} ], w2).
Proof.
  intros Htweets Hint.
  unfold find_top_interacted_users. simpl. rewrite Htweets. simpl.
  rewrite Hint. by vm_compute.
Qed.

Lemma scoring_scenario_witness :
  find_top_interacted_users (twitter (seed_post "a" ["bob"] ["carol"]))
                            ["@a"] 1 7 (10 * day) logged_in
  = ([ {| se_username := "carol"; interaction_score := 2;
          last_interaction := 10 * day |} ], logged_in).
Proof.
  eapply proj1.
  eapply (scoring_scenario (twitter (seed_post "a" ["bob"] ["carol"])) 7).
  - vm_compute. reflexivity.
  - vm_compute. reflexivity.
Defined.

End InteractionMapperFacts.

(** ** Rate limiter *)

Module RateLimiterFacts.
Import RateLimiter Scenario.
Local Open Scope Z_scope.

Lemma error_reason_prefix e : String.prefix "Error:" ("Error: " +:+ e) = true.
Proof. reflexivity. Qed.

(** An exception anywhere in the body becomes a denial. *)
Lemma can_post_reply_of_raise self now campaign_id e :
  checks self now campaign_id = Raise e →
  can_post_reply self now campaign_id = (false, "Error: " +:+ e).
Proof. unfold can_post_reply. by intros ->. Qed.

(** The gate allows only when the body ran to its last line. *)
Lemma can_post_reply_allows self now campaign_id reason :
  can_post_reply self now campaign_id = (true, reason) →
  checks self now campaign_id = Ok (true, "OK").
Proof.
  unfold can_post_reply.
  destruct (checks self now campaign_id) as [[b r]|e] eqn:Hc; [|done].
  intros [= -> ->]. f_equal. f_equal.
  revert Hc. unfold checks, and_then.
  repeat (match goal with
          | |- context [match ?x with _ => _ end] => destruct x
          end; try discriminate);
    by intros [= <-].
Qed.

(** C10: [can_post_reply] returns a pair on every input, and it fails
    closed.  Each step that can raise gives the denial
    [(False, "Error: " + str(e))] when it does: the parsing of the
    campaign id, the look-up of the campaign, the count since midnight,
    the comparison with a daily limit that is no number, the count for the
    last hour, the look-up of the last reply, and the subtraction of a
    [posted_at] that is no date.  And the answer is [True] only with the
    reason ["OK"] and only when the id was parsed, the campaign was found
    and all three ledger queries answered. *)
Theorem can_post_reply_fails_closed (self : t) (now : Z) (campaign_id : string) :
  let denied e := can_post_reply self now campaign_id = (false, "Error: " +:+ e) in
  (∀ e, Mongo.ObjectId campaign_id = Raise e → denied e) ∧
  (∀ oid, Mongo.ObjectId campaign_id = Ok oid →
     (∀ e, campaigns_find_one (db self) (Mongo.by_id oid) = Raise e → denied e) ∧
     ∀ campaign,
       campaigns_find_one (db self) (Mongo.by_id oid) = Ok (Some campaign) →
       campaign ≠ ∅ →
       (∀ e, campaign_replies_count_documents (db self) (posted_today oid now)
               = Raise e → denied e) ∧
       ∀ replies_today,
         campaign_replies_count_documents (db self) (posted_today oid now)
           = Ok replies_today →
         (∀ e, number (get_default campaign "max_replies_per_day" (VInt 50))
                 = Raise e → denied e) ∧
         ∀ max_per_day,
           number (get_default campaign "max_replies_per_day" (VInt 50))
             = Ok max_per_day →
           replies_today < max_per_day →
           (∀ e, campaign_replies_count_documents (db self)
                   (posted_last_hour oid now) = Raise e → denied e) ∧
           ∀ replies_last_hour max_per_hour,
             campaign_replies_count_documents (db self)
               (posted_last_hour oid now) = Ok replies_last_hour →
             limit self "replies_per_hour" = Ok max_per_hour →
             replies_last_hour < max_per_hour →
             (∀ e, campaign_replies_find_one_latest (db self) (posted_ever oid)
                     "posted_at" = Raise e → denied e) ∧
             (∀ last_reply posted_at e,
                campaign_replies_find_one_latest (db self) (posted_ever oid)
                  "posted_at" = Ok (Some last_reply) →
                last_reply !! "posted_at" = Some posted_at →
                truthy posted_at = true →
                elapsed now posted_at = Raise e → denied e)) ∧
  (∀ reason, can_post_reply self now campaign_id = (true, reason) →
     reason = "OK" ∧
     ∃ oid campaign replies_today replies_last_hour last_reply,
       Mongo.ObjectId campaign_id = Ok oid ∧
       campaigns_find_one (db self) (Mongo.by_id oid) = Ok (Some campaign) ∧
       campaign_replies_count_documents (db self) (posted_today oid now)
         = Ok replies_today ∧
       campaign_replies_count_documents (db self) (posted_last_hour oid now)
         = Ok replies_last_hour ∧
       campaign_replies_find_one_latest (db self) (posted_ever oid) "posted_at"
         = Ok last_reply).
Proof.
  intros denied. subst denied. cbv beta. split_and!.
  - intros e He. unfold can_post_reply, checks. by rewrite He.
  - intros oid Hoid. split.
    { intros e He. unfold can_post_reply, checks. rewrite Hoid. cbn [and_then].
      by rewrite He. }
    intros campaign Hc Hne.
    assert (∀ r, (if decide (campaign = ∅) then Ok (false, "Campaign not found")
                  else r) = r) as Hfound.
    { intros r. by destruct (decide (campaign = ∅)). }
    split.
    { intros e He. unfold can_post_reply, checks.
      rewrite Hoid. cbn [and_then]. rewrite Hc. cbn [and_then].
      rewrite Hfound, He. done. }
    intros replies_today Htoday. split.
    { intros e He. unfold can_post_reply, checks.
      rewrite Hoid. cbn [and_then]. rewrite Hc. cbn [and_then].
      rewrite Hfound, Htoday. cbn [and_then]. rewrite He. done. }
    intros max_per_day Hmax Hbelow.
    assert ((replies_today >=? max_per_day) = false) as Hday by lia.
    split.
    { intros e He. unfold can_post_reply, checks.
      rewrite Hoid. cbn [and_then]. rewrite Hc. cbn [and_then].
      rewrite Hfound, Htoday. cbn [and_then]. rewrite Hmax. cbn [and_then].
      rewrite Hday, He. done. }
    intros replies_last_hour max_per_hour Hhour Hlimit Hbelow'.
    assert ((replies_last_hour >=? max_per_hour) = false) as Hh by lia.
    split.
    { intros e He. unfold can_post_reply, checks.
      rewrite Hoid. cbn [and_then]. rewrite Hc. cbn [and_then].
      rewrite Hfound, Htoday. cbn [and_then]. rewrite Hmax. cbn [and_then].
      rewrite Hday, Hhour. cbn [and_then]. rewrite Hlimit. cbn [and_then].
      rewrite Hh, He. done. }
    intros last_reply posted_at e Hlast Hat Htruthy He.
    unfold can_post_reply, checks.
    rewrite Hoid. cbn [and_then]. rewrite Hc. cbn [and_then].
    rewrite Hfound, Htoday. cbn [and_then]. rewrite Hmax. cbn [and_then].
    rewrite Hday, Hhour. cbn [and_then]. rewrite Hlimit. cbn [and_then].
    rewrite Hh, Hlast. cbn [and_then].
    destruct (decide (last_reply = ∅)) as [->|_];
      [by rewrite lookup_empty in Hat|].
    unfold get, get_default, getitem. rewrite Hat, Htruthy. cbn [and_then].
    rewrite He. done.
  - intros reason Hr. split.
    { pose proof (can_post_reply_allows _ _ _ _ Hr) as Hc.
      unfold can_post_reply in Hr. rewrite Hc in Hr. by injection Hr. }
    revert Hr. unfold can_post_reply, checks.
    destruct (Mongo.ObjectId campaign_id) as [oid|e] eqn:Hoid; [|done].
    cbn [and_then].
    destruct (campaigns_find_one (db self) (Mongo.by_id oid))
      as [[campaign|]|e] eqn:Hc; [|done..]. cbn [and_then].
    destruct (decide (campaign = ∅)); [done|].
    destruct (campaign_replies_count_documents (db self) (posted_today oid now))
      as [replies_today|e] eqn:Htoday; [|done]. cbn [and_then].
    destruct (number _) as [max_per_day|e]; [|done]. cbn [and_then].
    destruct (replies_today >=? max_per_day); [done|].
    destruct (campaign_replies_count_documents (db self)
                (posted_last_hour oid now)) as [replies_last_hour|e] eqn:Hhour;
      [|done].
    cbn [and_then].
    destruct (limit self "replies_per_hour") as [max_per_hour|e]; [|done].
    cbn [and_then].
    destruct (replies_last_hour >=? max_per_hour); [done|].
    destruct (campaign_replies_find_one_latest (db self) (posted_ever oid)
                "posted_at") as [last_reply|e] eqn:Hlast; [|done].
    intros _. by exists oid, campaign, replies_today, replies_last_hour, last_reply.
Qed.

Lemma can_post_reply_fails_closed_witness :
  can_post_reply (__init__ (LimiterScenario.lost_at_hourly_count
                              (st_store (started 1 false))))
                 noon first_id
  = (false, "Error: connection lost")
  ∧ can_post_reply (__init__ (LimiterScenario.late_at_last_reply
                                (st_store (started 1 false))))
                   noon first_id
    = (false, "Error: timed out").
Proof.
  split.
  - destruct (can_post_reply_fails_closed
                (__init__ (LimiterScenario.lost_at_hourly_count
                             (st_store (started 1 false))))
                noon first_id) as (_ & Hsteps & _).
    destruct (Hsteps (VOid first_id) ltac:(vm_compute; reflexivity))
      as (_ & Hfound).
    destruct (Hfound (the_campaign (started 1 false))) as (_ & Htoday);
      [compute_done..|].
    destruct (Htoday 0) as (_ & Hlimit); [compute_done|].
    destruct (Hlimit 50) as (Hhour & _); [compute_done | lia |].
    apply Hhour. compute_done.
  - destruct (can_post_reply_fails_closed
                (__init__ (LimiterScenario.late_at_last_reply
                             (st_store (started 1 false))))
                noon first_id) as (_ & Hsteps & _).
    destruct (Hsteps (VOid first_id) ltac:(vm_compute; reflexivity))
      as (_ & Hfound).
    destruct (Hfound (the_campaign (started 1 false))) as (_ & Htoday);
      [compute_done..|].
    destruct (Htoday 0) as (_ & Hlimit); [compute_done|].
    destruct (Hlimit 50) as (_ & Hhour); [compute_done | lia |].
    destruct (Hhour 0 30) as (Hlast & _); [compute_done | reflexivity | lia |].
    apply Hlast. reflexivity.
Defined.

(** The daily gate as the code has it: the limit is the campaign's field
    [max_replies_per_day], or 50 without that field. *)
Lemma daily_gate_limit self now campaign_id oid campaign replies_today limit :
  Mongo.ObjectId campaign_id = Ok oid →
  campaigns_find_one (db self) (Mongo.by_id oid) = Ok (Some campaign) →
  campaign ≠ ∅ →
  campaign_replies_count_documents (db self) (posted_today oid now)
    = Ok replies_today →
  number (get_default campaign "max_replies_per_day" (VInt 50)) = Ok limit →
  limit <= replies_today →
  can_post_reply self now campaign_id
  = (false, "Daily limit reached (" +:+ pretty replies_today +:+ "/"
            +:+ format_number (get_default campaign "max_replies_per_day" (VInt 50))
            +:+ ")").
Proof.
  intros Hoid Hc Hne Hn Hlimit Hle.
  unfold can_post_reply, checks. rewrite Hoid. simpl. rewrite Hc. simpl.
  destruct (decide (campaign = ∅)); [done|]. rewrite Hn. simpl.
  rewrite Hlimit. simpl.
  destruct (Z.geb_spec replies_today limit); [done | lia].
Qed.

Lemma failure_not_success e :
  reported (Ok (CampaignManager.failure e)) "success" ≠ Some (VBool true).
Proof. vm_compute. discriminate. Qed.

(** A campaign as [create_campaign] stores it holds the configured limit
    under [daily_reply_limit] and has no [max_replies_per_day]. *)
Lemma created_campaign_limit {W} campaign_data now (st : state W) :
  let created := CampaignManager.create_campaign campaign_data now st in
  reported created.1 "success" = Some (VBool true) →
  ∃ campaign,
    Mongo.campaigns (st_store created.2)
    = Mongo.campaigns (st_store st) ++ [campaign] ∧
    campaign !! "daily_reply_limit"
      = Some (get_default campaign_data "daily_reply_limit" (VInt 50)) ∧
    campaign !! "max_replies_per_day" = None.
Proof.
  intros created. subst created.
  unfold CampaignManager.create_campaign, try_except.
  repeat (unfold bind at 1; unfold lift at 1;
          match goal with
          | |- context [getitem campaign_data ?k] =>
              destruct (getitem campaign_data k);
              [|intros H; by apply failure_not_success in H]
          end).
  unfold bind at 1. unfold Db.insert_one at 1. cbn [Db.documents].
  unfold Mongo.with_id.
  match goal with |- context [dict ?l] => set (c := dict l) end.
  assert (c !! "_id" = None) as -> by reflexivity.
  intros _. eexists. split; [reflexivity|].
  cbn [fst]. rewrite !lookup_insert_ne by done. by split.
Qed.

(** C1, the behaviour of the code.  A campaign is created with
    [daily_reply_limit = 1] and started; it has two pending posts.  The
    first step posts a reply at noon.  Five minutes later one posted,
    non-dry-run reply of today is on the ledger, which is the configured
    limit, and [can_post_reply] answers [(True, "OK")]: it reads the field
    [max_replies_per_day], which no created campaign has, and compares
    with 50.  The step that follows posts the second reply of the day. *)
Theorem daily_limit_of_one_is_not_enforced :
  let st1 := tick noon (started 1 false) in
  let later := noon + 5 * minute in
  let st2 := tick later st1 in
  (λ d : doc, (d !! "daily_reply_limit", d !! "max_replies_per_day"))
    <$> Mongo.campaigns (st_store st1) = [(Some (VInt 1), None)] ∧
  Mongo.count_documents (posted_today (VOid first_id) later)
                        (Mongo.campaign_replies (st_store st1)) = 1 ∧
  can_post_reply (limiter st1) later first_id = (true, "OK") ∧
  Mongo.count_documents (posted_today (VOid first_id) later)
                        (Mongo.campaign_replies (st_store st2)) = 2.
Proof. by vm_compute. Qed.

End RateLimiterFacts.

(** ** Campaign status *)

Module StatusFacts.
Import Mongo CampaignManager Lifecycle Scenario.
Local Open Scope Z_scope.

Lemma apply_set_status status now d :
  apply_update (set_status status now) d = Ok (with_status status now d).
Proof. reflexivity. Qed.

Lemma with_status_status status now d :
  with_status status now d !! "status" = Some (VStr status).
Proof.
  unfold with_status, set_fields. simpl.
  by rewrite lookup_insert_ne, lookup_insert_eq.
Qed.

Lemma with_status_id status now d :
  with_status status now d !! "_id" = d !! "_id".
Proof. unfold with_status, set_fields. simpl. by rewrite !lookup_insert_ne. Qed.

Lemma update_one_status q status now l :
  Mongo.update_one q (set_status status now) l = Ok (update_first q (with_status status now) l).
Proof.
  induction l as [|d l IH]; [done|].
  cbn [Mongo.update_one update_first]. destruct (matches q d).
  - by rewrite apply_set_status.
  - by rewrite IH.
Qed.

Lemma update_first_lookup q status now l i d :
  l !! i = Some d →
  update_first q (with_status status now) l !! i = Some d
  ∨ update_first q (with_status status now) l !! i = Some (with_status status now d).
Proof.
  revert i. induction l as [|d0 l IH]; intros i Hi; [done|].
  cbn [update_first]. destruct (matches q d0) eqn:Hm.
  - destruct i as [|i]; simpl in *; [right; congruence | by left].
  - destruct i as [|i]; simpl in *; [by left | by apply IH].
Qed.

Lemma update_first_status oid status now l d :
  find_one (by_id oid) l = Some d →
  find_one (by_id oid) (update_first (by_id oid) (with_status status now) l)
  = Some (with_status status now d).
Proof.
  unfold find_one. induction l as [|d0 l IH]; [done|].
  cbn [List.find update_first]. destruct (matches (by_id oid) d0) eqn:Hm.
  - intros [= ->]. cbn [List.find].
    assert (matches (by_id oid) (with_status status now d) = true) as ->; [|done].
    unfold matches, by_id in *. simpl in *. by rewrite with_status_id.
  - intros Hf. cbn [List.find]. rewrite Hm. by apply IH.
Qed.

Section WithAdapter.
Context {W : Type} (twitter : TwitterApi W).

(** The effect of the two operations on the state. *)
Lemma start_campaign_state campaign_id now (st : state W) :
  (start_campaign twitter campaign_id now st).2 =
  if api_is_authenticated twitter (st_world st) then
    match ObjectId campaign_id with
    | Ok oid =>
        State (Db.with_documents Campaigns
                 (update_first (by_id oid) (with_status "active" now)
                    (campaigns (st_store st)))
                 (st_store st))
              (st_world st) (st_tasks st ++ [campaign_id])
    | Raise _ => st
    end
  else st.
Proof.
  unfold start_campaign, try_except, bind, lift, ret, Db.update_one, Db.create_task.
  destruct (api_is_authenticated twitter (st_world st)); simpl; [|done].
  destruct (ObjectId campaign_id) as [oid|e]; simpl; [|done].
  by rewrite update_one_status.
Qed.

Lemma stop_campaign_state campaign_id now (st : state W) :
  (stop_campaign campaign_id now st).2 =
  match ObjectId campaign_id with
  | Ok oid =>
      State (Db.with_documents Campaigns
               (update_first (by_id oid) (with_status "paused" now)
                  (campaigns (st_store st)))
               (st_store st))
            (st_world st) (st_tasks st)
  | Raise _ => st
  end.
Proof.
  unfold stop_campaign, try_except, bind, lift, ret, Db.update_one.
  destruct (ObjectId campaign_id) as [oid|e]; simpl; [|done].
  by rewrite update_one_status.
Qed.

(** One operation leaves each campaign's status as it was, or sets it
    to the operation's own status. *)
Lemma perform_status op (st : state W) i d :
  campaigns (st_store st) !! i = Some d →
  status_at i (perform twitter op st) = d !! "status"
  ∨ (∃ campaign_id now, op = StartCampaign campaign_id now ∧
       api_is_authenticated twitter (st_world st) = true ∧
       status_at i (perform twitter op st) = Some (VStr "active"))
  ∨ (∃ campaign_id now, op = StopCampaign campaign_id now ∧
       status_at i (perform twitter op st) = Some (VStr "paused")).
Proof.
  intros Hd. unfold status_at. destruct op as [campaign_id now|campaign_id now]; simpl.
  - rewrite start_campaign_state.
    destruct (api_is_authenticated twitter (st_world st)) eqn:Hauth;
      [|left; by rewrite Hd].
    destruct (ObjectId campaign_id) as [oid|e]; [|left; by rewrite Hd].
    simpl.
    destruct (update_first_lookup (by_id oid) "active" now _ i d Hd) as [-> | ->]; simpl.
    + by left.
    + right; left. exists campaign_id, now. by rewrite with_status_status.
  - rewrite stop_campaign_state.
    destruct (ObjectId campaign_id) as [oid|e]; [|left; by rewrite Hd].
    simpl.
    destruct (update_first_lookup (by_id oid) "paused" now _ i d Hd) as [-> | ->]; simpl.
    + by left.
    + right; right. exists campaign_id, now. by rewrite with_status_status.
Qed.

Lemma perform_length op (st : state W) :
  length (campaigns (st_store (perform twitter op st)))
  = length (campaigns (st_store st)).
Proof.
  assert (∀ q f l, length (update_first q f l) = length l) as Hlen.
  { intros q f l. induction l as [|d l IH]; [done|].
    cbn [update_first]. destruct (matches q d); simpl; by rewrite ?IH. }
  destruct op as [campaign_id now|campaign_id now]; simpl.
  - rewrite start_campaign_state.
    destruct (api_is_authenticated twitter (st_world st)); [|done].
    destruct (ObjectId campaign_id); [|done]. simpl. apply Hlen.
  - rewrite stop_campaign_state.
    destruct (ObjectId campaign_id); [|done]. simpl. apply Hlen.
Qed.

(** C3, as the code has it.  [start_campaign] sets the status of the
    campaign it addresses to ["active"] and [stop_campaign] sets it to
    ["paused"], from whatever status the campaign has; without an
    authenticated session [start_campaign] changes nothing; and over any
    sequence of the two operations a campaign's status is the one it
    started with, ["active"] or ["paused"]. *)
Theorem start_and_stop_set_the_status (st : state W) :
  (∀ campaign_id now oid d,
      api_is_authenticated twitter (st_world st) = true →
      ObjectId campaign_id = Ok oid →
      find_one (by_id oid) (campaigns (st_store st)) = Some d →
      (λ d' : doc, d' !! "status") <$>
        find_one (by_id oid)
          (campaigns (st_store (perform twitter (StartCampaign campaign_id now) st)))
      = Some (Some (VStr "active"))) ∧
  (∀ campaign_id now,
      api_is_authenticated twitter (st_world st) = false →
      perform twitter (StartCampaign campaign_id now) st = st) ∧
  (∀ campaign_id now oid d,
      ObjectId campaign_id = Ok oid →
      find_one (by_id oid) (campaigns (st_store st)) = Some d →
      (λ d' : doc, d' !! "status") <$>
        find_one (by_id oid)
          (campaigns (st_store (perform twitter (StopCampaign campaign_id now) st)))
      = Some (Some (VStr "paused"))) ∧
  (∀ ops i d,
      campaigns (st_store st) !! i = Some d →
      status_at i (run twitter ops st) = d !! "status"
      ∨ status_at i (run twitter ops st) = Some (VStr "active")
      ∨ status_at i (run twitter ops st) = Some (VStr "paused")).
Proof.
  split_and!.
  - intros campaign_id now oid d Hauth Hoid Hd. simpl.
    rewrite start_campaign_state, Hauth, Hoid. simpl.
    rewrite (update_first_status oid "active" now _ d Hd). simpl.
    by rewrite with_status_status.
  - intros campaign_id now Hauth. simpl.
    rewrite start_campaign_state. by rewrite Hauth.
  - intros campaign_id now oid d Hoid Hd. simpl.
    rewrite stop_campaign_state, Hoid. simpl.
    rewrite (update_first_status oid "paused" now _ d Hd). simpl.
    by rewrite with_status_status.
  - intros ops. revert st. unfold run.
    induction ops as [|op ops IH]; intros st i d Hd; simpl; [left; unfold status_at; by rewrite Hd|].
    pose proof (perform_length op st) as Hlen.
    destruct (campaigns (st_store (perform twitter op st)) !! i) as [d'|] eqn:Hd'.
    2:{ apply lookup_ge_None in Hd'. apply lookup_lt_Some in Hd. lia. }
    pose proof (perform_status op st i d Hd) as Hstep.
    unfold status_at in Hstep. rewrite Hd' in Hstep. simpl in Hstep.
    destruct (IH (perform twitter op st) i d' Hd') as [H|[H|H]]; rewrite H; auto.
    destruct Hstep as [H'|[(?&?&?&?&H')|(?&?&?&H')]]; rewrite H'; auto.
Qed.
End WithAdapter.

Lemma start_and_stop_set_the_status_witness :
  (λ d' : doc, d' !! "status") <$>
    find_one (by_id (VOid first_id))
      (campaigns (st_store (perform (twitter replying)
                              (StartCampaign first_id noon) completed)))
  = Some (Some (VStr "active")).
Proof.
  apply (proj1 (start_and_stop_set_the_status (twitter replying) completed)
               first_id noon (VOid first_id)
               (default ∅ (campaigns (st_store completed) !! 0%nat))).
  - reflexivity.
  - vm_compute. reflexivity.
  - compute_done.
Defined.

(** C3 as worded fails: stopping a draft campaign moves it from ["draft"]
    to ["paused"], and starting a completed campaign moves it from
    ["completed"] to ["active"]. *)
Lemma status_machine_counterexample :
  ¬ listed_transition
      (status_at 0 (drafted 50 false))
      (status_at 0 (perform (twitter replying) (StopCampaign first_id noon)
                           (drafted 50 false)))
  ∧ ¬ listed_transition
      (status_at 0 completed)
      (status_at 0 (perform (twitter replying) (StartCampaign first_id noon) completed)).
Proof.
  split; vm_compute; intros H; repeat destruct H as [H|H];
    try discriminate; destruct H; discriminate.
Qed.
End StatusFacts.

(** ** Reply step *)

Module ReplyFacts.
Import Mongo AutoReplier CampaignManager Lifecycle Scenario.
Local Open Scope Z_scope.

Lemma skipped_success : skipped !! "success" = Some (VBool false).
Proof. reflexivity. Qed.

Lemma dry_run_outcome_success t :
  dry_run_outcome t !! "success" = Some (VBool true).
Proof. reflexivity. Qed.

Lemma dry_run_outcome_dry_run t :
  dry_run_outcome t !! "dry_run" = Some (VBool true).
Proof. reflexivity. Qed.

Lemma dry_run_outcome_tweet_id t :
  dry_run_outcome t !! "tweet_id" = Some VNone.
Proof. reflexivity. Qed.

Lemma update_one_set q fields l :
  Mongo.update_one q (USet fields) l = Ok (update_first q (set_fields fields) l).
Proof.
  induction l as [|d l IH]; [done|].
  cbn [Mongo.update_one update_first]. destruct (matches q d); [done|].
  by rewrite IH.
Qed.

Lemma update_first_find q f l d :
  find_one q l = Some d →
  matches q (f d) = true →
  find_one q (update_first q f l) = Some (f d).
Proof.
  unfold find_one. intros Hf Hm. induction l as [|d0 l IH]; [done|].
  cbn [List.find update_first] in *. destruct (matches q d0) eqn:Hm0.
  - injection Hf as ->. cbn [List.find]. by rewrite Hm.
  - cbn [List.find]. rewrite Hm0. by apply IH.
Qed.

Lemma find_one_matches q l d : find_one q l = Some d → matches q d = true.
Proof. unfold find_one. intros H. by apply find_some in H as [_ H]. Qed.


(** The fields of the ledger entry that identify its campaign and its
    target. *)
Lemma reply_doc_target oid pending_post campaign result now reply :
  reply_doc oid pending_post campaign result now = Ok reply →
  reply !! "campaign_id" = Some oid ∧
  reply !! "target_tweet_id" = pending_post !! "tweet_id" ∧
  reply !! "_id" = None.
Proof.
  unfold reply_doc, and_then, getitem.
  destruct (pending_post !! "username"); [|done].
  destruct (pending_post !! "tweet_id"); [|done].
  destruct (pending_post !! "text"); [|done].
  destruct (campaign !! "short_url"); [|done].
  destruct (result !! "success"); [|done].
  intros [= <-]. by split_and!.
Qed.

Section WithServices.
Context {W : Type} (twitter : TwitterApi W) (ai : AiServices W).

(** In dry-run mode [post_reply] is [generate_reply] and a dictionary. *)
Lemma post_reply_dry_run tweet_data campaign dry_run (w : W) :
  truthy dry_run = true →
  post_reply twitter ai tweet_data campaign dry_run w =
  match generate_reply twitter ai tweet_data campaign w with
  | (Ok None, w1) => (Ok skipped, w1)
  | (Ok (Some reply_text), w1) => (Ok (dry_run_outcome reply_text), w1)
  | (Raise e, w1) => (Raise e, w1)
  end.
Proof.
  intros Hdry. unfold post_reply, bind.
  destruct (generate_reply twitter ai tweet_data campaign w) as [[[t|]|e] w1];
    [|done|done].
  by rewrite Hdry.
Qed.

(** Generating a reply does not involve [create_tweet]. *)
Lemma generate_reply_without_create_tweet other tweet_data campaign :
  generate_reply (with_create_tweet other twitter) ai tweet_data campaign
  = generate_reply twitter ai tweet_data campaign.
Proof. reflexivity. Qed.

Lemma dry_run_leaves_campaigns campaign_id now oid campaign (st : state W) :
  ObjectId campaign_id = Ok oid →
  find_one (by_id oid) (campaigns (st_store st)) = Some campaign →
  campaign !! "dry_run" = Some (VBool true) →
  campaigns (st_store (process_pending_reply twitter ai campaign_id now st).2)
  = campaigns (st_store st).
Proof.
  intros Hoid Hfind Hdry.
  unfold process_pending_reply, try_except, process_pending_reply_body.
  unfold bind at 1. unfold lift at 1. rewrite Hoid.
  unfold bind at 1. unfold Db.find_one at 1. cbn [Db.documents].
  rewrite Hfind.
  destruct (decide (campaign = ∅)) as [|_]; [done|].
  unfold bind at 1. unfold lift at 1.
  destruct (getitem campaign "status") as [status|e]; [|done].
  destruct (negb (bool_decide (status = VStr "active"))); [done|].
  unfold bind at 1. unfold Db.find_one at 1. cbn [Db.documents].
  destruct (find_one _ (matched_posts (st_store st))) as [pending_post|]; [|done].
  destruct (decide (pending_post = ∅)) as [|_]; [done|].
  unfold bind at 1. unfold lift at 1.
  destruct (getitem pending_post "tweet_id") as [tweet_id|e]; [|done].
  unfold bind at 1. unfold Db.find_one at 1. cbn [Db.documents].
  destruct (match find_one _ (campaign_replies (st_store st)) with
            | Some r => negb (bool_decide (r = ∅))
            | None => false
            end).
  - unfold bind at 1. unfold lift at 1.
    destruct (getitem pending_post "_id") as [post_id|e]; [|done].
    unfold bind at 1. unfold Db.update_one at 1. cbn [Db.documents].
    unfold mark. rewrite update_one_set. done.
  - unfold bind at 1. unfold lift at 1.
    destruct (getitem pending_post "username") as [uname|e]; [|done].
    unfold bind at 1. unfold Db.on_world at 1.
    rewrite post_reply_dry_run by (unfold get_default; by rewrite Hdry).
    destruct (generate_reply twitter ai pending_post campaign (st_world st))
      as [[[reply_text|]|e] w1]; [| |done].
    + unfold bind at 1. unfold lift at 1.
      destruct (reply_doc _ _ _ _ _) as [reply|e]; [|done].
      unfold bind at 1. unfold Db.insert_one at 1.
      cbn [st_store st_world st_tasks Db.documents].
      destruct (with_id _ reply) as [reply' rid].
      unfold bind at 1. unfold lift at 1.
      destruct (getitem pending_post "_id") as [post_id|e]; [|done].
      unfold bind at 1. unfold lift at 1.
      unfold getitem at 1. rewrite dry_run_outcome_success.
      unfold bind at 1. unfold Db.update_one at 1.
      unfold mark. rewrite update_one_set.
      unfold bind at 1. unfold lift at 1.
      unfold getitem at 1. rewrite dry_run_outcome_success.
      unfold get, get_default. rewrite dry_run_outcome_dry_run.
      done.
    + unfold bind at 1. unfold lift at 1.
      destruct (reply_doc _ _ _ _ _) as [reply|e]; [|done].
      unfold bind at 1. unfold Db.insert_one at 1.
      cbn [st_store st_world st_tasks Db.documents].
      destruct (with_id _ reply) as [reply' rid].
      unfold bind at 1. unfold lift at 1.
      destruct (getitem pending_post "_id") as [post_id|e]; [|done].
      unfold bind at 1. unfold lift at 1.
      unfold getitem at 1. rewrite skipped_success.
      unfold bind at 1. unfold Db.update_one at 1.
      unfold mark. rewrite update_one_set.
      unfold bind at 1. unfold lift at 1.
      unfold getitem at 1. rewrite skipped_success.
      done.
Qed.

End WithServices.

(** C8: for a dry-run campaign and a generated reply, [post_reply]
    returns success with [dry_run = True] and [tweet_id = None]; the world
    is the one [generate_reply] left, whatever [create_tweet] would do, so
    no post was attempted; and [process_pending_reply] leaves the campaign
    documents, hence [total_replies], untouched. *)
Theorem dry_run_posts_nothing_and_counts_nothing {W} (twitter : TwitterApi W)
    (ai : AiServices W) :
    (∀ tweet_data campaign reply_text (w w1 : W) other,
        generate_reply twitter ai tweet_data campaign w
          = (Ok (Some reply_text), w1) →
        ∃ result,
          post_reply (with_create_tweet other twitter) ai tweet_data campaign
                     (VBool true) w = (Ok result, w1) ∧
          post_reply twitter ai tweet_data campaign (VBool true) w
            = (Ok result, w1) ∧
          result !! "success" = Some (VBool true) ∧
          result !! "dry_run" = Some (VBool true) ∧
          result !! "tweet_id" = Some VNone ∧
          result !! "reply_text" = Some (VStr reply_text)) ∧
    (∀ campaign_id now oid campaign (st : state W),
        ObjectId campaign_id = Ok oid →
        find_one (by_id oid) (campaigns (st_store st)) = Some campaign →
        campaign !! "dry_run" = Some (VBool true) →
        campaigns (st_store (process_pending_reply twitter ai campaign_id now st).2)
        = campaigns (st_store st)).
  Proof.
    split.
    - intros tweet_data campaign reply_text w w1 other Hgen.
      exists (dry_run_outcome reply_text). split_and!; try reflexivity.
      + rewrite post_reply_dry_run by done.
        by rewrite generate_reply_without_create_tweet, Hgen.
      + rewrite post_reply_dry_run by done. by rewrite Hgen.
    - apply dry_run_leaves_campaigns.
  Qed.

Lemma dry_run_posts_nothing_and_counts_nothing_witness :
  campaigns (st_store (process_pending_reply (twitter replying) (ai replying)
                         first_id noon (started 50 true)).2)
  = campaigns (st_store (started 50 true)).
Proof.
  apply (proj2 (dry_run_posts_nothing_and_counts_nothing
                  (twitter replying) (ai replying))
               first_id noon (VOid first_id)
               (default ∅ (campaigns (st_store (started 50 true)) !! 0%nat))).
  - vm_compute. reflexivity.
  - compute_done.
  - compute_done.
Defined.

End ReplyFacts.

(** ** Duplicate guard *)

Module DuplicateFacts.
Import Mongo AutoReplier CampaignManager Lifecycle Scenario ReplyFacts.
Local Open Scope Z_scope.




Section WithServices.
Context {W : Type} (twitter : TwitterApi W) (ai : AiServices W).



End WithServices.



End DuplicateFacts.

(** ** Strings and numerals *)

Module TextFacts.
Import PostFilterFacts.
Local Open Scope Z_scope.

Lemma append_assoc a b c : (a +:+ b) +:+ c = a +:+ b +:+ c.
Proof. induction a as [|x a IH]; [done|]. rewrite !append_cons. by rewrite IH. Qed.

Lemma append_nil_r a : a +:+ "" = a.
Proof. induction a as [|x a IH]; [done|]. rewrite append_cons. by rewrite IH. Qed.

Lemma length_append a b :
  String.length (a +:+ b) = (String.length a + String.length b)%nat.
Proof.
  induction a as [|c a IH]; [done|]. rewrite append_cons. simpl. by rewrite IH.
Qed.

Lemma length_substring_0 n s :
  String.length (String.substring 0 n s) = Nat.min n (String.length s).
Proof.
  revert s. induction n as [|n IH]; intros [|c s]; simpl; try done.
  by rewrite IH.
Qed.

Lemma forallb_append P a b :
  forallb P (list_ascii_of_string (a +:+ b))
  = forallb P (list_ascii_of_string a) && forallb P (list_ascii_of_string b).
Proof.
  induction a as [|x a IH]; [done|].
  rewrite append_cons. simpl. by rewrite IH, andb_assoc.
Qed.

Lemma strip_prefix_app p s : Str.strip_prefix p (p +:+ s) = Some s.
Proof.
  induction p as [|c p IH]; [done|].
  rewrite append_cons. cbn [Str.strip_prefix]. by rewrite Ascii.eqb_refl.
Qed.

Lemma strip_prefix_suffix P p s r :
  Str.strip_prefix p s = Some r →
  forallb P (list_ascii_of_string s) = true →
  forallb P (list_ascii_of_string r) = true.
Proof.
  revert s. induction p as [|c p IH]; intros s; simpl.
  - by intros [= ->].
  - destruct s as [|d s]; [done|]. destruct (Ascii.eqb c d); [|done].
    simpl. intros Hr [_ Hs]%andb_true_iff. by eapply IH.
Qed.

(** A run of characters in [P] that a character outside [P] ends. *)
Lemma span_run P a c b :
  forallb P (list_ascii_of_string a) = true → P c = false →
  Str.span P (a +:+ String c b) = (a, String c b).
Proof.
  intros Ha Hc. induction a as [|x a IH].
  - change ("" +:+ String c b) with (String c b). simpl. by rewrite Hc.
  - rewrite append_cons. simpl in *. apply andb_true_iff in Ha as [-> Ha].
    by rewrite IH.
Qed.

Lemma span_all P a :
  forallb P (list_ascii_of_string a) = true → Str.span P a = (a, "").
Proof.
  intros Ha. induction a as [|x a IH]; [done|].
  simpl in *. apply andb_true_iff in Ha as [-> Ha]. by rewrite IH.
Qed.

Lemma absent_app c a b :
  Str.absent c (a +:+ b) = Str.absent c a && Str.absent c b.
Proof. apply forallb_append. Qed.

(** A text without the first character of a word does not contain the
    word. *)
Lemma contains_absent c needle hay :
  Str.absent c hay = true → Str.contains (String c needle) hay = false.
Proof.
  induction hay as [|x hay IH]; [done|].
  intros Ha. rewrite contains_cons.
  unfold Str.absent in Ha. simpl in Ha. apply andb_true_iff in Ha as [Hx Hh].
  rewrite IH by done. simpl.
  destruct (ascii_dec c x) as [<-|_]; [|done].
  by rewrite Ascii.eqb_refl in Hx.
Qed.

Lemma absent_digits c s :
  Str.is_digit c = false →
  forallb Str.is_digit (list_ascii_of_string s) = true → Str.absent c s = true.
Proof.
  intros Hc. unfold Str.absent. induction s as [|x s IH]; [done|]. simpl.
  intros [Hx Hs]%andb_true_iff. rewrite IH by done.
  destruct (Ascii.eqb_spec x c) as [->|_]; [congruence | done].
Qed.

Lemma contains_empty_needle hay : Str.contains "" hay = true.
Proof. by destruct hay. Qed.

(** Reversal, as [rstrip] uses it. *)
Lemma rev_app_last z c acc :
  String.rev_app (z +:+ String c "") acc = String c (String.rev_app z acc).
Proof.
  revert acc. induction z as [|x z IH]; intros acc; [done|].
  rewrite append_cons. cbn [String.rev_app]. by rewrite IH.
Qed.

Lemma rev_app_append x a b :
  String.rev_app x (a +:+ b) = String.rev_app x a +:+ b.
Proof.
  revert a. induction x as [|d x IH]; intros a; [done|].
  cbn [String.rev_app]. by rewrite <- IH.
Qed.

Lemma rev_cons c x : String.rev (String c x) = String.rev x +:+ String c "".
Proof.
  unfold String.rev. cbn [String.rev_app].
  by rewrite <- rev_app_append.
Qed.

Lemma lstrip_last P z c :
  P c = false →
  ∃ z', Str.lstrip_chars P (z +:+ String c "") = z' +:+ String c "".
Proof.
  intros Hc. induction z as [|x z [z' IH]].
  - exists "". change ("" +:+ String c "") with (String c ""). simpl. by rewrite Hc.
  - rewrite append_cons. simpl. destruct (P x).
    + by exists z'.
    + exists (String x z). by rewrite append_cons.
Qed.

(** Stripping keeps a first character that is not stripped. *)
Lemma strip_chars_head P c x :
  P c = false → ∃ y, Str.strip_chars P (String c x) = String c y.
Proof.
  intros Hc. unfold Str.strip_chars, Str.rstrip_chars.
  cbn [Str.lstrip_chars]. rewrite Hc. rewrite rev_cons.
  destruct (lstrip_last P (String.rev x) c Hc) as [z' ->].
  unfold String.rev. rewrite rev_app_last. by eexists.
Qed.

(** Decimal numerals. *)
Lemma below_ten (d : N) :
  (d < 10)%N → d ∈ [0; 1; 2; 3; 4; 5; 6; 7; 8; 9]%N.
Proof.
  intros Hd.
  assert (d = 0 ∨ d = 1 ∨ d = 2 ∨ d = 3 ∨ d = 4 ∨ d = 5 ∨ d = 6 ∨ d = 7
          ∨ d = 8 ∨ d = 9)%N as H by lia.
  repeat destruct H as [->|H]; try subst d;
    repeat (first [apply list_elem_of_here | apply list_elem_of_further]).
Qed.

Lemma pretty_N_char_value d :
  (d < 10)%N → Z.of_N (N_of_ascii (pretty_N_char d)) - 48 = Z.of_N d.
Proof.
  intros Hd%below_ten.
  repeat (apply elem_of_cons in Hd as [->|Hd]; [reflexivity|]).
  by apply elem_of_nil in Hd.
Qed.

Lemma pretty_N_char_digit d :
  (d < 10)%N → Str.is_digit (pretty_N_char d) = true.
Proof.
  intros Hd%below_ten.
  repeat (apply elem_of_cons in Hd as [->|Hd]; [reflexivity|]).
  by apply elem_of_nil in Hd.
Qed.

Lemma digits_from_pretty_N_go x s :
  RateLimiter.digits_from 0 (pretty_N_go x s)
  = RateLimiter.digits_from (Z.of_N x) s.
Proof.
  revert s. induction (N.lt_wf_0 x) as [x _ IH]; intros s.
  destruct (decide (0 < x)%N) as [Hx|Hx].
  - rewrite pretty_N_go_step by done.
    rewrite IH by (apply N.div_lt; lia).
    unfold RateLimiter.digits_from. simpl.
    rewrite pretty_N_char_value by (apply N.mod_lt; lia).
    f_equal. rewrite N2Z.inj_div. pose proof (N.div_mod x 10).
    rewrite <- N2Z.inj_div. lia.
  - assert (x = 0%N) as -> by lia. by rewrite pretty_N_go_0.
Qed.

Lemma all_digits_pretty_N_go x s :
  forallb Str.is_digit (list_ascii_of_string s) = true →
  forallb Str.is_digit (list_ascii_of_string (pretty_N_go x s)) = true.
Proof.
  revert s. induction (N.lt_wf_0 x) as [x _ IH]; intros s Hs.
  destruct (decide (0 < x)%N) as [Hx|Hx].
  - rewrite pretty_N_go_step by done. apply IH; [apply N.div_lt; lia|].
    simpl. rewrite pretty_N_char_digit by (apply N.mod_lt; lia). done.
  - assert (x = 0%N) as -> by lia. by rewrite pretty_N_go_0.
Qed.

Lemma pretty_N_go_nonempty x s : (0 < x)%N → pretty_N_go x s ≠ "".
Proof.
  revert s. induction (N.lt_wf_0 x) as [x _ IH]; intros s Hx.
  rewrite pretty_N_go_step by done.
  destruct (N.eq_dec (x `div` 10)%N 0%N) as [->|Hd].
  - by rewrite pretty_N_go_0.
  - apply IH; [apply N.div_lt; lia | by apply N.neq_0_lt_0].
Qed.

(** The numeral of a natural number: digits only, not empty, and read
    back by [int]. *)
Lemma pretty_nonneg (n : Z) :
  0 <= n →
  forallb Str.is_digit (list_ascii_of_string (pretty n)) = true
  ∧ pretty n ≠ ""
  ∧ RateLimiter.int_of_digits (pretty n) = n.
Proof.
  intros Hn. destruct n as [|p|p]; [done| |lia].
  change (pretty (Z.pos p)) with (pretty_N_go (N.pos p) "").
  split_and!.
  - by apply all_digits_pretty_N_go.
  - by apply pretty_N_go_nonempty.
  - change (RateLimiter.int_of_digits (pretty_N_go (N.pos p) ""))
      with (RateLimiter.digits_from 0 (pretty_N_go (N.pos p) "")).
    by rewrite digits_from_pretty_N_go.
Qed.

Lemma absent_pretty c (z : Z) :
  Str.is_digit c = false → c ≠ "-"%char → Str.absent c (pretty z) = true.
Proof.
  intros Hc Hm. destruct z as [|p|p].
  - apply absent_digits; done.
  - apply absent_digits; [done|]. by apply (pretty_nonneg (Z.pos p)).
  - change (pretty (Z.neg p)) with ("-" +:+ pretty (Z.pos p)).
    rewrite absent_app. apply andb_true_iff. split.
    + unfold Str.absent. cbn [list_ascii_of_string forallb].
      destruct (Ascii.eqb_spec "-" c) as [E|_]; [by destruct Hm | done].
    + apply absent_digits; [done|]. by apply (pretty_nonneg (Z.pos p)).
Qed.

End TextFacts.

(** ** Queries on the store *)

Module StoreFacts.
Import Mongo PostFilterFacts TextFacts.
Local Open Scope Z_scope.

Lemma matches_by_oid o (d : doc) :
  matches (by_id (VOid o)) d = bool_decide (d !! "_id" = Some (VOid o)).
Proof.
  unfold matches, by_id. cbn [forallb holds]. rewrite andb_true_r.
  destruct (d !! "_id") as [[]|] eqn:Hd; try done.
  apply bool_decide_ext. split; congruence.
Qed.

Lemma matches_by_id id (d : doc) o :
  d !! "_id" = Some (VOid o) → matches (by_id id) d = bool_decide (VOid o = id).
Proof.
  intros Hd. unfold matches, by_id. cbn [forallb]. rewrite Hd. cbn [holds].
  by rewrite andb_true_r.
Qed.

Lemma matches_set_fields_id id fields (d : doc) :
  "_id" ∉ fields.*1 →
  matches (by_id id) (set_fields fields d) = matches (by_id id) d.
Proof.
  intros Hid. unfold matches, by_id. cbn [forallb]. f_equal. f_equal.
  unfold set_fields. revert d. induction fields as [|[k v] fields IH]; intros d; [done|].
  cbn [fold_left]. rewrite IH.
  - apply lookup_insert_ne. intros Heq. subst k. apply Hid. rewrite fmap_cons.
    apply elem_of_cons. by left.
  - intros Hin. apply Hid. rewrite fmap_cons. apply elem_of_cons. by right.
Qed.

Lemma ObjectId_VOid s oid : ObjectId s = Ok oid → ∃ o, oid = VOid o.
Proof. unfold ObjectId. destruct (_ && _); [|done]. intros [= <-]. eauto. Qed.

Lemma found_by_id_nonempty o l (d : doc) :
  find_one (by_id (VOid o)) l = Some d → d ≠ ∅.
Proof.
  intros Hf%find_some. destruct Hf as [_ Hm]. intros ->.
  rewrite matches_by_oid, lookup_empty in Hm. by apply bool_decide_eq_true in Hm.
Qed.

Lemma find_one_app_new q l (d : doc) :
  (∀ x, x ∈ l → matches q x = false) → matches q d = true →
  find_one q (l ++ [d]) = Some d.
Proof.
  intros Hl Hd. unfold find_one. induction l as [|x l IH]; simpl.
  - by rewrite Hd.
  - rewrite Hl by (apply elem_of_cons; by left).
    apply IH. intros y Hy. apply Hl, elem_of_cons. by right.
Qed.

Lemma find_one_app_old q l (d x : doc) :
  find_one q l = Some x → find_one q (l ++ [d]) = Some x.
Proof.
  unfold find_one. induction l as [|y l IH]; simpl; [done|].
  destruct (matches q y); [done | apply IH].
Qed.

Lemma update_first_no_match q f l :
  find_one q l = None → update_first q f l = l.
Proof.
  unfold find_one. induction l as [|d l IH]; [done|].
  cbn [List.find update_first]. destruct (matches q d); [done|].
  intros H. by rewrite IH.
Qed.

Lemma update_one_inc q k n m l (d : doc) :
  find_one q l = Some d → d !! k = Some (VInt n) →
  Mongo.update_one q (UInc k m) l
  = Ok (update_first q (λ d, <[k := VInt (n + m)]> d) l).
Proof.
  unfold find_one. intros Hfind Hk. induction l as [|x l IH]; [done|].
  cbn [List.find Mongo.update_one update_first] in *.
  destruct (matches q x).
  - injection Hfind as ->. cbn [apply_update]. by rewrite Hk.
  - by rewrite IH.
Qed.

Lemma count_documents_none q l :
  count_documents q l = 0 ↔ find_one q l = None.
Proof.
  unfold count_documents, find_one. induction l as [|d l IH]; [done|].
  cbn [List.filter List.find]. destruct (matches q d); [|done].
  simpl length. split; [lia | done].
Qed.

Lemma count_documents_mono q1 q2 l :
  (∀ d, matches q1 d = true → matches q2 d = true) →
  count_documents q1 l <= count_documents q2 l.
Proof.
  intros Hq. unfold count_documents. induction l as [|d l IH]; [done|].
  cbn [List.filter]. destruct (matches q1 d) eqn:H1.
  - rewrite (Hq d H1). simpl length. lia.
  - destruct (matches q2 d); simpl length; lia.
Qed.

Lemma count_documents_app q l d :
  matches q d = false → count_documents q (l ++ [d]) = count_documents q l.
Proof.
  intros Hd. unfold count_documents. rewrite List.filter_app. cbn [List.filter].
  rewrite Hd. by rewrite app_nil_r.
Qed.

Lemma count_update_first q pid f l (p : doc) :
  find_one (by_id pid) l = Some p →
  matches q p = true → matches q (f p) = false →
  count_documents q (update_first (by_id pid) f l) = count_documents q l - 1.
Proof.
  unfold find_one, count_documents. intros Hfind Hp Hfp.
  induction l as [|d l IH]; [done|].
  cbn [List.find update_first List.filter] in *.
  destruct (matches (by_id pid) d) eqn:Hd.
  - injection Hfind as ->. cbn [List.filter]. rewrite Hp, Hfp. simpl length. lia.
  - cbn [List.filter]. destruct (matches q d); simpl length; rewrite ?Nat2Z.inj_succ;
      specialize (IH Hfind); lia.
Qed.

(** The latest document is one of those that match, and none of them
    carries a later date. *)
Lemma later_key k best d t :
  date_key k best = Some t ∨ date_key k d = Some t →
  ∃ u, date_key k (later k best d) = Some u ∧ t <= u.
Proof.
  unfold later.
  destruct (date_key k best) as [tb|] eqn:Hb, (date_key k d) as [td|] eqn:Hd;
    intros [[= ?]|[= ?]]; subst t.
  - destruct (Z.ltb_spec tb td); [exists td | exists tb]; split; try done; lia.
  - destruct (Z.ltb_spec tb td); [exists td | exists tb]; split; try done; lia.
  - exists tb. split; [done | lia].
  - exists td. split; [done | lia].
Qed.

Lemma fold_later_key k ds best t :
  date_key k best = Some t ∨ (∃ d, d ∈ ds ∧ date_key k d = Some t) →
  ∃ u, date_key k (fold_left (later k) ds best) = Some u ∧ t <= u.
Proof.
  revert best t. induction ds as [|d ds IH]; intros best t H; simpl.
  - destruct H as [H|(d & Hd & _)]; [|by apply elem_of_nil in Hd].
    exists t. split; [done | lia].
  - destruct H as [H|(d' & [->|Hd']%elem_of_cons & Ht)].
    + destruct (later_key k best d t (or_introl H)) as (u & Hu & Htu).
      destruct (IH _ u (or_introl Hu)) as (v & Hv & Huv).
      exists v. split; [done | lia].
    + destruct (later_key k best d t (or_intror Ht)) as (u & Hu & Htu).
      destruct (IH _ u (or_introl Hu)) as (v & Hv & Huv).
      exists v. split; [done | lia].
    + apply IH. right. by exists d'.
Qed.

Lemma fold_later_elem k ds best :
  fold_left (later k) ds best ∈ best :: ds.
Proof.
  revert best. induction ds as [|d ds IH]; intros best; simpl.
  - apply elem_of_cons. by left.
  - specialize (IH (later k best d)).
    apply elem_of_cons in IH as [->|IH].
    + unfold later. destruct (date_key k best), (date_key k d);
        try destruct (_ <? _);
        first [apply list_elem_of_here | apply list_elem_of_further, list_elem_of_here].
    + by do 2 apply list_elem_of_further.
Qed.

Lemma find_one_latest_spec q k coll last :
  find_one_latest q k coll = Some last →
  (last ∈ coll ∧ matches q last = true) ∧
  ∀ d t, d ∈ coll → matches q d = true → date_key k d = Some t →
         ∃ u, date_key k last = Some u ∧ t <= u.
Proof.
  unfold find_one_latest.
  destruct (List.filter (matches q) coll) as [|d0 ds] eqn:Hf; [done|].
  intros [= <-]. split.
  - pose proof (fold_later_elem k ds d0) as Hin. rewrite <- Hf in Hin.
    apply list_elem_of_In, filter_In in Hin as [Hin Hm].
    by rewrite <- list_elem_of_In in Hin.
  - intros d t Hd Hm Ht.
    assert (d ∈ d0 :: ds) as [->|Hin]%elem_of_cons.
    { rewrite <- Hf. apply list_elem_of_In, filter_In.
      by rewrite <- list_elem_of_In. }
    + apply fold_later_key. by left.
    + apply fold_later_key. right. by exists d.
Qed.

Lemma find_one_latest_none q k coll :
  find_one_latest q k coll = None →
  ∀ d, d ∈ coll → matches q d = false.
Proof.
  unfold find_one_latest.
  destruct (List.filter (matches q) coll) as [|d0 ds] eqn:Hf; [|done].
  intros _ d Hd. destruct (matches q d) eqn:Hm; [|done].
  assert (In d (List.filter (matches q) coll)) as Hin.
  { apply filter_In. by rewrite <- list_elem_of_In. }
  rewrite Hf in Hin. done.
Qed.

Lemma find_one_latest_app q k l d :
  matches q d = false → find_one_latest q k (l ++ [d]) = find_one_latest q k l.
Proof.
  intros Hd. unfold find_one_latest. rewrite List.filter_app. cbn [List.filter].
  rewrite Hd. by rewrite app_nil_r.
Qed.

(** Fresh identifiers are well-formed. *)
Lemma below_sixteen (d : N) :
  (d < 16)%N →
  d ∈ [0; 1; 2; 3; 4; 5; 6; 7; 8; 9; 10; 11; 12; 13; 14; 15]%N.
Proof.
  intros Hd.
  assert (d = 0 ∨ d = 1 ∨ d = 2 ∨ d = 3 ∨ d = 4 ∨ d = 5 ∨ d = 6 ∨ d = 7
          ∨ d = 8 ∨ d = 9 ∨ d = 10 ∨ d = 11 ∨ d = 12 ∨ d = 13 ∨ d = 14
          ∨ d = 15)%N as H by lia.
  repeat destruct H as [->|H]; try subst d;
    repeat (first [apply list_elem_of_here | apply list_elem_of_further]).
Qed.

Lemma hex_digit_hex d :
  (d < 16)%N →
  is_hex (hex_digit d) = true ∧ Str.lower_ascii (hex_digit d) = hex_digit d.
Proof.
  intros Hd%below_sixteen.
  repeat (apply elem_of_cons in Hd as [->|Hd]; [by split|]).
  by apply elem_of_nil in Hd.
Qed.

Lemma hex_fixed_spec width n :
  String.length (hex_fixed width n) = width ∧
  forallb is_hex (list_ascii_of_string (hex_fixed width n)) = true ∧
  Str.lower (hex_fixed width n) = hex_fixed width n.
Proof.
  revert n. induction width as [|width IH]; intros n; [done|].
  cbn [hex_fixed]. destruct (IH (n / 16)%N) as (Hlen & Hhex & Hlow).
  destruct (hex_digit_hex (n mod 16)%N) as [Hd Hl]; [by apply N.mod_lt|].
  split_and!.
  - rewrite length_append, Hlen. simpl. lia.
  - rewrite forallb_append, Hhex. simpl. by rewrite Hd.
  - rewrite lower_append, Hlow. simpl. by rewrite Hl.
Qed.

Lemma ObjectId_fresh_id counter :
  ObjectId (fresh_id counter) = Ok (VOid (fresh_id counter)).
Proof.
  unfold ObjectId, fresh_id.
  destruct (hex_fixed_spec 24 counter) as (-> & -> & ->). done.
Qed.

(** Collections keyed by [ObjectId]. *)
Lemma oid_keyed_checked l : oid_keyed_check l = true → oid_keyed l.
Proof.
  unfold oid_keyed_check, oid_keyed. rewrite forallb_forall, Forall_forall.
  intros H d Hd%list_elem_of_In. specialize (H d Hd).
  destruct (d !! "_id") as [[]|]; try done. by eexists.
Qed.

Lemma find_by_string l s :
  oid_keyed l → find_one (by_id (VStr s)) l = None.
Proof.
  unfold find_one. induction 1 as [|d l [o Hd] _ IH]; [done|].
  cbn [List.find]. rewrite (matches_by_id _ _ _ Hd).
  by rewrite bool_decide_false.
Qed.

Lemma update_first_keyed q f l :
  (∀ d : doc, f d !! "_id" = d !! "_id") →
  oid_keyed l → oid_keyed (update_first q f l).
Proof.
  intros Hf. induction 1 as [|d l [o Hd] Hl IH]; [constructor|].
  cbn [update_first]. destruct (matches q d).
  - constructor; [|done]. exists o. by rewrite Hf.
  - constructor; [by exists o | done].
Qed.

Lemma update_one_inc_keyed q k n l l' :
  k ≠ "_id" →
  Mongo.update_one q (UInc k n) l = Ok l' → oid_keyed l → oid_keyed l'.
Proof.
  intros Hk Hu Hl. revert l' Hu.
  induction Hl as [|d l [o Hd] Hl IH]; intros l'; cbn [Mongo.update_one].
  - intros [= <-]. constructor.
  - destruct (matches q d).
    + cbn [apply_update]. destruct (d !! k) as [[]|]; try done;
        intros [= <-]; (constructor; [|done]); exists o;
        by rewrite lookup_insert_ne.
    + destruct (Mongo.update_one q (UInc k n) l) as [l''|]; [|done].
      intros [= <-]. constructor; [by exists o | by apply IH].
Qed.

End StoreFacts.

(** ** Rate limiter: what counts, who is denied, how long to wait *)

Module LimiterFacts.
Import Mongo RateLimiter Scenario PostFilterFacts TextFacts StoreFacts.
Local Open Scope Z_scope.

Lemma limit_per_hour db : limit (__init__ db) "replies_per_hour" = Ok 30.
Proof. reflexivity. Qed.

Lemma limit_min_delay db :
  limit (__init__ db) "min_delay_between_replies_seconds" = Ok 120.
Proof. reflexivity. Qed.

Lemma posted_ever_has_date oid (r : doc) :
  matches (posted_ever oid) r = true → ∃ v, r !! "posted_at" = Some v.
Proof.
  unfold matches, posted_ever. simpl. rewrite !andb_true_iff.
  intros (_ & _ & _ & H & _). destruct (r !! "posted_at"); [eauto | done].
Qed.

(** X1: over an in-memory ledger [can_post_reply] answers [True] only
    when fewer replies than the daily limit were posted since midnight,
    fewer than thirty within the last hour, and every posted reply of the
    campaign that carries a date is at least 120 seconds old; and when
    every such reply carries a date, these three conditions are enough for
    the answer [True].  Only posted replies that are not dry runs are
    looked at; the daily limit is the field [max_replies_per_day], or 50. *)
Theorem can_post_reply_within_limits (s : store) now campaign_id oid campaign
    max_per_day :
  ObjectId campaign_id = Ok oid →
  find_one (by_id oid) (campaigns s) = Some campaign →
  number (get_default campaign "max_replies_per_day" (VInt 50)) = Ok max_per_day →
  let can_post := (can_post_reply (__init__ (reader_of s)) now campaign_id).1 in
  let within_limits :=
    count_documents (posted_today oid now) (campaign_replies s) < max_per_day ∧
    count_documents (posted_last_hour oid now) (campaign_replies s) < 30 ∧
    ∀ reply t, reply ∈ campaign_replies s →
               matches (posted_ever oid) reply = true →
               reply !! "posted_at" = Some (VTime t) →
               120 * microseconds_per_second <= now - t in
  (can_post = true → within_limits) ∧
  ((∀ reply, reply ∈ campaign_replies s →
             matches (posted_ever oid) reply = true →
             ∃ t, reply !! "posted_at" = Some (VTime t)) →
   within_limits → can_post = true).
Proof.
  intros Hoid Hfind Hmax can_post within_limits. subst can_post within_limits.
  destruct (ObjectId_VOid _ _ Hoid) as [o ->].
  pose proof (found_by_id_nonempty _ _ _ Hfind) as Hne.
  unfold can_post_reply, checks. rewrite Hoid. cbn [and_then].
  cbn [db __init__ reader_of campaigns_find_one campaign_replies_count_documents
       campaign_replies_find_one_latest].
  rewrite Hfind. cbn [and_then]. destruct (decide (campaign = ∅)) as [|_]; [done|].
  cbn [and_then]. rewrite Hmax. cbn [and_then].
  rewrite limit_per_hour, limit_min_delay. cbn [and_then].
  set (a := count_documents (posted_today (VOid o) now) (campaign_replies s)).
  set (b := count_documents (posted_last_hour (VOid o) now) (campaign_replies s)).
  destruct (Z.geb_spec a max_per_day) as [Ha|Ha].
  { split; [done | intros _ (? & _); lia]. }
  destruct (Z.geb_spec b 30) as [Hb|Hb].
  { split; [done | intros _ (_ & ? & _); lia]. }
  destruct (find_one_latest (posted_ever (VOid o)) "posted_at" (campaign_replies s))
    as [last|] eqn:Hlast.
  - apply find_one_latest_spec in Hlast as [[Hin Hm] Hlatest].
    destruct (decide (last = ∅)) as [->|_].
    { apply posted_ever_has_date in Hm as [v Hv]. by rewrite lookup_empty in Hv. }
    assert (∀ reply t, reply ∈ campaign_replies s →
              matches (posted_ever (VOid o)) reply = true →
              reply !! "posted_at" = Some (VTime t) →
              ∃ u, last !! "posted_at" = Some (VTime u) ∧ t <= u) as Hlast.
    { intros reply t Hr Hmr Ht.
      destruct (Hlatest reply t Hr Hmr) as (u & Hu & Htu).
      - unfold date_key. by rewrite Ht.
      - exists u. split; [|done]. unfold date_key in Hu.
        destruct (last !! "posted_at") as [[]|]; congruence. }
    unfold get, get_default, getitem.
    destruct (last !! "posted_at") as [v|] eqn:Hv.
    2:{ split; [|done]. intros _. split_and!; [done..|].
        intros reply t Hr Hmr Ht. by destruct (Hlast reply t Hr Hmr Ht) as (? & ? & _). }
    assert ((∃ u, v = VTime u) ∨ ¬ (∃ u, v = VTime u)) as [[u ->]|Hnt].
    { destruct v; eauto; right; by intros [? ?]. }
    + cbn [truthy and_then elapsed].
      destruct (Z.ltb_spec (now - u) (120 * microseconds_per_second)) as [Hlt|Hge].
      * split; [done|]. intros _ (_ & _ & Hall).
        specialize (Hall last u Hin Hm Hv). lia.
      * split; [|done]. intros _. split_and!; [done..|].
        intros reply t Hr Hmr Ht.
        destruct (Hlast reply t Hr Hmr Ht) as (u' & [= <-] & Hle). lia.
    + split.
      * intros _. split_and!; [done..|].
        intros reply t Hr Hmr Ht.
        destruct (Hlast reply t Hr Hmr Ht) as (u' & [= ->] & _).
        destruct Hnt. by exists u'.
      * intros Htyped _. destruct (Htyped last Hin Hm) as (t & Ht).
        destruct Hnt. exists t. congruence.
  - split; [|done]. intros _. split_and!; [done..|].
    intros reply t Hr Hmr _.
    by rewrite (find_one_latest_none _ _ _ Hlast reply Hr) in Hmr.
Qed.

Lemma can_post_reply_within_limits_witness :
  count_documents (posted_today (VOid first_id) (noon + 5 * minute))
                  (campaign_replies (st_store one_reply)) < 50
  ∧ count_documents (posted_last_hour (VOid first_id) (noon + 5 * minute))
                    (campaign_replies (st_store one_reply)) < 30
  ∧ ∀ reply t, reply ∈ campaign_replies (st_store one_reply) →
       matches (posted_ever (VOid first_id)) reply = true →
       reply !! "posted_at" = Some (VTime t) →
       120 * microseconds_per_second <= noon + 5 * minute - t.
Proof.
  apply (proj1 (can_post_reply_within_limits
                  (st_store one_reply) (noon + 5 * minute) first_id
                  (VOid first_id) (the_campaign one_reply) 50
                  ltac:(vm_compute; reflexivity) ltac:(compute_done)
                  ltac:(compute_done))).
  vm_compute. reflexivity.
Defined.

(** X2: the three denials of [can_post_reply] over an in-memory ledger,
    in their order.  At or above the daily limit the reason is the daily
    one; below it and with thirty replies in the last hour the reason is
    the hourly one; below both and with a posted reply less than 120
    seconds old the reason is ["Too soon since last reply. Wait Ns"], where
    [N] is what is left of the 120 seconds after the latest posted reply
    of the campaign on the ledger, in whole seconds rounded down. *)
Theorem can_post_reply_denials (s : store) now campaign_id oid campaign
    max_per_day :
  ObjectId campaign_id = Ok oid →
  find_one (by_id oid) (campaigns s) = Some campaign →
  number (get_default campaign "max_replies_per_day" (VInt 50)) = Ok max_per_day →
  let replies_today :=
    count_documents (posted_today oid now) (campaign_replies s) in
  let replies_last_hour :=
    count_documents (posted_last_hour oid now) (campaign_replies s) in
  (max_per_day <= replies_today →
   can_post_reply (__init__ (reader_of s)) now campaign_id
   = (false, "Daily limit reached (" +:+ pretty replies_today +:+ "/" +:+
             format_number (get_default campaign "max_replies_per_day" (VInt 50))
             +:+ ")")) ∧
  (replies_today < max_per_day → 30 <= replies_last_hour →
   can_post_reply (__init__ (reader_of s)) now campaign_id
   = (false, "Hourly limit reached (" +:+ pretty replies_last_hour +:+ "/30)")) ∧
  (replies_today < max_per_day → replies_last_hour < 30 →
   ∀ reply t, reply ∈ campaign_replies s →
     matches (posted_ever oid) reply = true →
     reply !! "posted_at" = Some (VTime t) →
     now - t < 120 * microseconds_per_second →
     ∃ last u,
       last ∈ campaign_replies s ∧
       matches (posted_ever oid) last = true ∧
       last !! "posted_at" = Some (VTime u) ∧
       (∀ other v, other ∈ campaign_replies s →
          matches (posted_ever oid) other = true →
          other !! "posted_at" = Some (VTime v) → v <= u) ∧
       can_post_reply (__init__ (reader_of s)) now campaign_id
       = (false, "Too soon since last reply. Wait " +:+
                 pretty ((120 * microseconds_per_second - (now - u))
                         / microseconds_per_second) +:+ "s")).
Proof.
  intros Hoid Hfind Hmax a b. subst a b.
  destruct (ObjectId_VOid _ _ Hoid) as [o ->].
  pose proof (found_by_id_nonempty _ _ _ Hfind) as Hne.
  unfold can_post_reply, checks. rewrite Hoid. cbn [and_then].
  cbn [db __init__ reader_of campaigns_find_one campaign_replies_count_documents
       campaign_replies_find_one_latest].
  rewrite Hfind. cbn [and_then]. destruct (decide (campaign = ∅)) as [|_]; [done|].
  cbn [and_then]. rewrite Hmax. cbn [and_then].
  rewrite limit_per_hour, limit_min_delay. cbn [and_then].
  set (a := count_documents (posted_today (VOid o) now) (campaign_replies s)).
  set (b := count_documents (posted_last_hour (VOid o) now) (campaign_replies s)).
  split_and!.
  - intros Ha. destruct (Z.geb_spec a max_per_day); [done | lia].
  - intros Ha Hb. destruct (Z.geb_spec a max_per_day); [lia|].
    destruct (Z.geb_spec b 30); [done | lia].
  - intros Ha Hb reply t Hr Hmr Ht Hsoon.
    destruct (Z.geb_spec a max_per_day); [lia|].
    destruct (Z.geb_spec b 30); [lia|].
    destruct (find_one_latest (posted_ever (VOid o)) "posted_at" (campaign_replies s))
      as [last|] eqn:Hlast.
    2:{ by rewrite (find_one_latest_none _ _ _ Hlast reply Hr) in Hmr. }
    apply find_one_latest_spec in Hlast as [[Hin Hm] Hlatest].
    destruct (Hlatest reply t Hr Hmr) as (u & Hu & Htu).
    { unfold date_key. by rewrite Ht. }
    assert (last !! "posted_at" = Some (VTime u)) as Hlu.
    { unfold date_key in Hu. destruct (last !! "posted_at") as [[]|]; congruence. }
    destruct (decide (last = ∅)) as [->|_]; [by rewrite lookup_empty in Hlu|].
    unfold get, get_default, getitem. rewrite Hlu. cbn [truthy and_then elapsed].
    destruct (Z.ltb_spec (now - u) (120 * microseconds_per_second)); [|lia].
    exists last, u. split_and!; [done | done | done | | done].
    intros other v Ho Hmo Hv.
    destruct (Hlatest other v Ho Hmo) as (u' & Hu' & Hle).
    { unfold date_key. by rewrite Hv. }
    unfold date_key in Hu'. rewrite Hlu in Hu'. by injection Hu' as <-.
Qed.

Lemma can_post_reply_denials_witness :
  ∃ last u,
    last ∈ campaign_replies (st_store one_reply) ∧
    matches (posted_ever (VOid first_id)) last = true ∧
    last !! "posted_at" = Some (VTime u) ∧
    (∀ other v, other ∈ campaign_replies (st_store one_reply) →
       matches (posted_ever (VOid first_id)) other = true →
       other !! "posted_at" = Some (VTime v) → v <= u) ∧
    can_post_reply (limiter one_reply) (noon + minute) first_id
    = (false, "Too soon since last reply. Wait " +:+
              pretty ((120 * microseconds_per_second - (noon + minute - u))
                      / microseconds_per_second) +:+ "s").
Proof.
  apply (proj2 (proj2 (can_post_reply_denials
                  (st_store one_reply) (noon + minute) first_id
                  (VOid first_id) (the_campaign one_reply) 50
                  ltac:(vm_compute; reflexivity) ltac:(compute_done)
                  ltac:(compute_done)))
               ltac:(vm_compute; reflexivity) ltac:(vm_compute; reflexivity)
               (default ∅ (campaign_replies (st_store one_reply) !! 0%nat)) noon).
  - apply list_elem_of_lookup. exists 0%nat. compute_done.
  - compute_done.
  - compute_done.
  - vm_compute. reflexivity.
Defined.

(** The search for [Wait (\d+)s]. *)
Lemma search_wait_skip c s :
  c ≠ "W"%char → search_wait (String c s) = search_wait s.
Proof.
  intros Hc. cbn [search_wait]. unfold wait_here at 1. cbn [Str.strip_prefix].
  destruct (Ascii.eqb_spec "W" c) as [<-|_]; done.
Qed.

Lemma search_wait_here digits rest :
  forallb Str.is_digit (list_ascii_of_string digits) = true →
  digits ≠ "" →
  search_wait ("Wait " +:+ digits +:+ String "s" rest) = Some digits.
Proof.
  intros Hd Hne.
  assert (wait_here ("Wait " +:+ digits +:+ String "s" rest) = Some digits) as H.
  { unfold wait_here.
    change (Str.strip_prefix "Wait " ("Wait " +:+ digits +:+ String "s" rest))
      with (Some (digits +:+ String "s" rest)).
    cbv beta iota. rewrite span_run by done.
    destruct (String.eqb_spec digits "") as [->|_]; done. }
  rewrite !append_cons. cbn [search_wait]. rewrite <- !append_cons. by rewrite H.
Qed.

Lemma search_wait_too_soon n :
  0 <= n →
  search_wait ("Too soon since last reply. Wait " +:+ pretty n +:+ "s")
  = Some (pretty n).
Proof.
  intros Hn. destruct (pretty_nonneg n Hn) as (Hd & Hne & _).
  change ("Too soon since last reply. Wait " +:+ pretty n +:+ "s")
    with ("Too soon since last reply. " +:+ ("Wait " +:+ pretty n +:+ "s")).
  rewrite !append_cons. rewrite !search_wait_skip by done.
  change ("" +:+ ?x) with x.
  by apply search_wait_here.
Qed.

Lemma absent_format_number v : Str.absent "W" (format_number v) = true.
Proof.
  destruct v as [|[]|n| | | |]; try done. by apply absent_pretty.
Qed.

Lemma get_wait_time_default self now campaign_id reason :
  can_post_reply self now campaign_id = (false, reason) →
  Str.absent "W" reason = true →
  get_wait_time self now campaign_id
  = limit self "min_delay_between_replies_seconds".
Proof.
  intros Hc Ha. unfold get_wait_time. rewrite Hc.
  by rewrite (contains_absent "W" "ait" reason Ha).
Qed.

Lemma get_wait_time_too_soon self now campaign_id n :
  0 <= n →
  can_post_reply self now campaign_id
    = (false, "Too soon since last reply. Wait " +:+ pretty n +:+ "s") →
  get_wait_time self now campaign_id = Ok n.
Proof.
  intros Hn Hc. unfold get_wait_time. rewrite Hc.
  assert (Str.contains "Wait" ("Too soon since last reply. Wait " +:+ pretty n +:+ "s")
          = true) as ->.
  { apply contains_occurrence.
    by exists "Too soon since last reply. ", (" " +:+ pretty n +:+ "s"). }
  assert (Str.contains "s" ("Too soon since last reply. Wait " +:+ pretty n +:+ "s")
          = true) as ->.
  { apply contains_occurrence.
    by exists "Too ", ("oon since last reply. Wait " +:+ pretty n +:+ "s"). }
  cbn [andb]. rewrite (search_wait_too_soon n Hn).
  by destruct (pretty_nonneg n Hn) as (_ & _ & ->).
Qed.

(** X3: [get_wait_time] reads the answer of [can_post_reply] back.  It is 0
    when the answer is [True]; it is [N] when the reason is
    ["Too soon since last reply. Wait Ns"], also for [N = 0], when the
    caller is told that no wait is needed although posting was denied;
    and it is the minimum delay, 120, when the reason is the daily limit, the
    hourly limit or a campaign that was not found. *)
Theorem get_wait_time_reads_the_reason (db : LedgerReader) now campaign_id :
  (∀ reason, can_post_reply (__init__ db) now campaign_id = (true, reason) →
     get_wait_time (__init__ db) now campaign_id = Ok 0) ∧
  (∀ n, 0 <= n →
     can_post_reply (__init__ db) now campaign_id
       = (false, "Too soon since last reply. Wait " +:+ pretty n +:+ "s") →
     get_wait_time (__init__ db) now campaign_id = Ok n) ∧
  (∀ (replies_today : Z) max_per_day,
     can_post_reply (__init__ db) now campaign_id
       = (false, "Daily limit reached (" +:+ pretty replies_today +:+ "/"
                 +:+ format_number max_per_day +:+ ")") →
     get_wait_time (__init__ db) now campaign_id = Ok 120) ∧
  (∀ replies_last_hour max_per_hour : Z,
     can_post_reply (__init__ db) now campaign_id
       = (false, "Hourly limit reached (" +:+ pretty replies_last_hour +:+ "/"
                 +:+ pretty max_per_hour +:+ ")") →
     get_wait_time (__init__ db) now campaign_id = Ok 120) ∧
  (can_post_reply (__init__ db) now campaign_id = (false, "Campaign not found") →
     get_wait_time (__init__ db) now campaign_id = Ok 120).
Proof.
  split_and!.
  - intros reason Hc. unfold get_wait_time. by rewrite Hc.
  - intros n. apply get_wait_time_too_soon.
  - intros a v Hc. rewrite (get_wait_time_default _ _ _ _ Hc); [done|].
    rewrite !absent_app, absent_pretty, absent_format_number; done.
  - intros a b Hc. rewrite (get_wait_time_default _ _ _ _ Hc); [done|].
    rewrite !absent_app, !absent_pretty; done.
  - intros Hc. by rewrite (get_wait_time_default _ _ _ _ Hc).
Qed.

Lemma get_wait_time_reads_the_reason_witness :
  get_wait_time (limiter one_reply) (noon + minute) first_id = Ok 60.
Proof.
  apply (proj1 (proj2 (get_wait_time_reads_the_reason
                         (reader_of (st_store one_reply)) (noon + minute) first_id))
               60 ltac:(lia)).
  vm_compute. reflexivity.
Defined.

Lemma uncounted_no_match o (reply : doc) q :
  uncounted (VOid o) reply →
  ("campaign_id", CEq (VOid o)) ∈ q →
  ("status", CEq (VStr "posted")) ∈ q →
  ("dry_run", CEq (VBool false)) ∈ q →
  matches q reply = false.
Proof.
  intros Hun Hc Hs Hd. unfold matches.
  apply not_true_is_false. intros Hall. rewrite forallb_forall in Hall.
  destruct Hun as [Hdry|[(s & Hst & Hne)|Hother]].
  - apply list_elem_of_In, Hall in Hd. cbn [holds] in Hd.
    destruct (reply !! "dry_run") as [[]|]; try done.
    apply bool_decide_eq_true in Hd. congruence.
  - apply list_elem_of_In, Hall in Hs. cbn [holds] in Hs. rewrite Hst in Hs.
    apply bool_decide_eq_true in Hs. congruence.
  - apply list_elem_of_In, Hall in Hc. cbn [holds] in Hc.
    destruct (reply !! "campaign_id") as [[]|]; try done.
    apply bool_decide_eq_true in Hc. congruence.
Qed.

(** X4: a ledger entry that is a dry run, that has a status other than
    ["posted"] or that belongs to another campaign changes no answer of
    [can_post_reply]: with or without it the answer and the reason are the
    same.  A dry-run campaign is therefore never held back by its own
    replies. *)
Theorem only_posted_replies_count campaigns matched_posts campaign_replies
    next_id reply now campaign_id oid :
  ObjectId campaign_id = Ok oid →
  uncounted oid reply →
  can_post_reply
    (__init__ (reader_of (Store campaigns matched_posts
                                (campaign_replies ++ [reply]) next_id)))
    now campaign_id
  = can_post_reply
      (__init__ (reader_of (Store campaigns matched_posts campaign_replies next_id)))
      now campaign_id.
Proof.
  intros Hoid Hun. destruct (ObjectId_VOid _ _ Hoid) as [o ->].
  unfold can_post_reply, checks. rewrite Hoid. cbn [and_then].
  cbn [db __init__ reader_of campaigns_find_one campaign_replies_count_documents
       campaign_replies_find_one_latest Mongo.campaigns Mongo.campaign_replies].
  rewrite !count_documents_app, find_one_latest_app; [done|..];
    apply (uncounted_no_match o); try done;
    unfold posted_ever, posted_today, posted_last_hour;
    repeat (first [apply list_elem_of_here | apply list_elem_of_further]).
Qed.

Lemma only_posted_replies_count_witness :
  can_post_reply
    (__init__ (reader_of
       (Store (campaigns (st_store one_reply)) (matched_posts (st_store one_reply))
              (campaign_replies (st_store (started 50 false))
               ++ [default ∅ (campaign_replies
                               (st_store (tick noon (started 50 true))) !! 0%nat)])
              (next_id (st_store one_reply)))))
    (noon + minute) first_id
  = can_post_reply
      (__init__ (reader_of
         (Store (campaigns (st_store one_reply)) (matched_posts (st_store one_reply))
                (campaign_replies (st_store (started 50 false)))
                (next_id (st_store one_reply)))))
      (noon + minute) first_id.
Proof.
  apply (only_posted_replies_count _ _ _ _ _ _ first_id (VOid first_id)).
  - vm_compute. reflexivity.
  - left. compute_done.
Defined.

End LimiterFacts.

(** ** Platform adapter and reply length *)

Module AdapterFacts.
Import Scenario TextFacts.
Local Open Scope Z_scope.

Section WithClient.
Context {W : Type} (client : Client W).

Lemma guarded_intro {A} (m : M W A) :
  (∀ w, ∃ a w', m w = (Ok a, w')) →
  guarded client (bind (TwitterAdapter._check_authenticated client) (λ _, m)).
Proof.
  intros Hm w. unfold bind, TwitterAdapter._check_authenticated.
  destruct (is_authenticated client w); [apply Hm | done].
Qed.

Lemma try_except_total {A} (m : M W A) (h : string → M W A) :
  (∀ e w, ∃ a w', h e w = (Ok a, w')) →
  ∀ w, ∃ a w', try_except m h w = (Ok a, w').
Proof.
  intros Hh w. unfold try_except. destruct (m w) as [[a|e] w']; eauto.
Qed.

(** X5: the five adapter methods that the campaign components call raise in
    one case only.  Without a session each of them raises the message of
    [_check_authenticated] before the client is called, so the world is
    left as it was; with a session each of them returns a value, whatever
    the client raises: an empty list, a failure dictionary or [None] stands
    for the error. *)
Theorem adapter_raises_only_unauthenticated :
  (∀ username count lookback_days,
     guarded client
       (TwitterAdapter.get_user_tweets client username count lookback_days)) ∧
  (∀ tweet_id,
     guarded client (TwitterAdapter.get_tweet_interactions client tweet_id)) ∧
  (∀ text reply_to,
     guarded client (TwitterAdapter.create_tweet client text reply_to)) ∧
  (∀ tweets prompt model,
     guarded client
       (TwitterAdapter.analyze_tweets_with_grok client tweets prompt model)) ∧
  (∀ tweet_text author template url model,
     guarded client
       (TwitterAdapter.generate_reply_with_grok
          client tweet_text author template url model)).
Proof.
  split_and!; intros.
  - apply guarded_intro, try_except_total. intros; by eexists _, _.
  - apply guarded_intro. intros w. unfold bind, try_except, ret.
    destruct (client_get_favoriters client _ 50 w) as [[f|e] w1];
      destruct (client_get_retweeters client _ 50 w1) as [[r|e'] w2];
      by eexists _, _.
  - apply guarded_intro, try_except_total. intros; by eexists _, _.
  - apply guarded_intro, try_except_total. intros; by eexists _, _.
  - apply guarded_intro, try_except_total. intros; by eexists _, _.
Qed.

End WithClient.

(** X6: the loop of [get_user_tweets] keeps a prefix of the client's
    result, in the client's order and with the client's ids, and gives every
    kept tweet the address [https://x.com/<username>/status/<id>].  Without a
    look-back (zero or [None]) the prefix is the whole result.  With one,
    every kept tweet is at most [lookback_days] whole days old and the loop
    stops at the first tweet that is older: younger tweets that come after
    it in the result are not returned. *)
Theorem collect_tweets_stops_at_first_old_tweet username now lookback_days result :
  ∃ kept rest,
    result = kept ++ rest ∧
    tw_tweet_id <$> TwitterAdapter.collect_tweets username now lookback_days result
      = ct_id <$> kept ∧
    Forall (λ tw, tw_url tw
                  = "https://x.com/" +:+ username +:+ "/status/" +:+ tw_tweet_id tw)
           (TwitterAdapter.collect_tweets username now lookback_days result) ∧
    (lookback_days = 0 → rest = []) ∧
    (lookback_days ≠ 0 →
       Forall (λ t, age_in_days now t <= lookback_days) kept ∧
       match rest with
       | [] => True
       | t :: _ => lookback_days < age_in_days now t
       end).
Proof.
  induction result as [|t result (kept & rest & -> & Hids & Hurl & Hz & Hnz)].
  - exists [], []. by split_and!.
  - cbn [TwitterAdapter.collect_tweets].
    destruct (Z.eqb_spec lookback_days 0) as [->|Hne]; cbn [negb andb].
    + exists (t :: kept), rest. split_and!; try done.
      * cbn. by rewrite Hids.
      * by constructor.
    + fold (age_in_days now t).
      destruct (Z.gtb_spec (age_in_days now t) lookback_days) as [Hold|Hyoung].
      * exists [], (t :: kept ++ rest). split_and!; try done.
        all: try (intros _; split; [done | lia]).
      * exists (t :: kept), rest. split_and!; try done.
        -- cbn. by rewrite Hids.
        -- by constructor.
        -- intros _. destruct (Hnz Hne) as [Hk Hr]. split; [|done].
           constructor; [lia | done].
Qed.

Lemma clean_reply_length message : (String.length (clean_reply message) <= 280)%nat.
Proof.
  unfold clean_reply.
  set (reply_text := Str.strip_chars _ _).
  destruct (Nat.ltb_spec 280 (String.length reply_text)); [|done].
  rewrite length_append, length_substring_0.
  change (String.length "...") with 3%nat. lia.
Qed.

Section WithServices.
Context {W : Type} (client : Client W) (ai : AiServices W).

Lemma generate_reply_length tweet_data campaign (w w' : W) reply_text :
  AutoReplier.generate_reply (TwitterAdapter.api client) ai tweet_data campaign w
    = (Ok (Some reply_text), w') →
  (String.length reply_text <= 280)%nat.
Proof.
  unfold AutoReplier.generate_reply. unfold bind at 1. unfold lift at 1.
  destruct (getitem campaign "reply_template") as [template|]; [|done].
  unfold bind at 1. unfold lift at 1.
  destruct (getitem campaign "short_url") as [short_url|]; [|done].
  assert (∀ provider w w' r,
            AutoReplier._generate_with_llm ai tweet_data template short_url
                                           campaign provider w
            = (Ok (Some r), w') → (String.length r <= 280)%nat) as Hllm.
  { intros provider w0 w1 r. unfold AutoReplier._generate_with_llm, bind, lift, ret.
    destruct (getitem tweet_data "username"); [|done].
    destruct (getitem tweet_data "text"); [|done].
    destruct (llm_generate_text _ _ _ _ _ _ _) as [[t|] ?]; [|done].
    intros [= <- _]. apply clean_reply_length. }
  unfold try_except.
  repeat case_decide.
  - destruct (AutoReplier._generate_with_grok _ _ _ _ _ _) as [[[r|]|e] w1] eqn:Hg;
      try done.
    intros [= -> ->]. revert Hg.
    unfold AutoReplier._generate_with_grok, bind, lift.
    destruct (getitem tweet_data "text"); [|done].
    destruct (getitem tweet_data "username"); [|done].
    unfold TwitterAdapter.api. cbn [generate_reply_with_grok].
    unfold TwitterAdapter.generate_reply_with_grok, bind, try_except, ret.
    destruct (TwitterAdapter._check_authenticated client w) as [[[]|] ?]; [|done].
    destruct (client_grok_reply _ _ _ _ _ _ _) as [[m|] ?]; [|done].
    intros [= <- _]. apply clean_reply_length.
  - destruct (AutoReplier._generate_with_llm _ _ _ _ _ _ _) as [[[r|]|e] w1] eqn:Hg;
      try done.
    intros [= -> ->]. by eapply Hllm.
  - destruct (AutoReplier._generate_with_llm _ _ _ _ _ _ _) as [[[r|]|e] w1] eqn:Hg;
      try done.
    intros [= -> ->]. by eapply Hllm.
  - destruct (AutoReplier._generate_with_both _ _ _ _ _ _) as [[[r|]|e] w1] eqn:Hg;
      try done.
    intros [= -> ->]. revert Hg.
    unfold AutoReplier._generate_with_both, bind, lift, ret.
    destruct (create_grok_conversation ai w) as [[[]|] ?]; [|done].
    destruct (getitem tweet_data "text"); [|done].
    destruct (getitem tweet_data "username"); [|done].
    destruct (approval_generate ai tweet_data campaign _) as [[m|] ?]; [|done].
    destruct (Str.contains "no" _); [done|]. apply Hllm.
  - done.
Qed.

(** X7: whatever the language model or Grok answers, a reply that
    [post_reply] reports, posted, kept back as a dry run or failed at the
    platform, has at most 280 characters; the only other result is the
    skipped one, which carries no reply.  The text is cut by
    [generate_reply_with_grok] on the Grok path and by [_generate_with_llm]
    on the others, before [create_tweet] sees it. *)
Theorem replies_are_at_most_280_characters tweet_data campaign dry_run
    (w w' : W) result :
  AutoReplier.post_reply (TwitterAdapter.api client) ai tweet_data campaign dry_run w
    = (Ok result, w') →
  result = AutoReplier.skipped
  ∨ ∃ reply_text, result !! "reply_text" = Some (VStr reply_text) ∧
                  (String.length reply_text <= 280)%nat.
Proof.
  unfold AutoReplier.post_reply. unfold bind at 1.
  destruct (AutoReplier.generate_reply (TwitterAdapter.api client) ai tweet_data
                                       campaign w)
    as [[[reply_text|]|e] w1] eqn:Hg; [| |done].
  2:{ intros [= <- _]. by left. }
  apply generate_reply_length in Hg.
  intros Hpost. right. exists reply_text. split; [|done].
  revert Hpost. destruct (truthy dry_run); [by intros [= <- _]|].
  unfold try_except, bind, lift, ret.
  destruct (getitem tweet_data "tweet_id"); [|by intros [= <- _]].
  destruct (create_tweet (TwitterAdapter.api client) reply_text _ w1) as [[r|] w2];
    [|by intros [= <- _]].
  destruct (getitem r "success") as [success|]; [|by intros [= <- _]].
  destruct (truthy success); [|by intros [= <- _]].
  destruct (getitem r "url"); [|by intros [= <- _]].
  destruct (getitem r "tweet_id"); [|by intros [= <- _]].
  by intros [= <- _].
Qed.

End WithServices.

Lemma replies_are_at_most_280_characters_witness :
  AutoReplier.posted_outcome "Nice thread!" (VStr "0")
                             (VStr "https://x.com/admin/status/0")
    = AutoReplier.skipped
  ∨ ∃ reply_text,
      AutoReplier.posted_outcome "Nice thread!" (VStr "0")
                                 (VStr "https://x.com/admin/status/0")
        !! "reply_text" = Some (VStr reply_text) ∧
      (String.length reply_text <= 280)%nat.
Proof.
  apply (replies_are_at_most_280_characters
           (client replying) (ai replying)
           (first_post (started 50 false)) (the_campaign (started 50 false))
           (VBool false) logged_in (Platform true [("Nice thread!", VStr "101")])).
  vm_compute. reflexivity.
Defined.

End AdapterFacts.

(** ** Post filter: what the gate lets through *)

Module GateFacts.
Import PostFilter PostFilterFacts TextFacts.

Lemma find_post_lookup tid posts i :
  find_post tid posts = Some i →
  ∃ p, posts !! i = Some p ∧ tweet_id p = tid.
Proof.
  revert i. induction posts as [|p posts IH]; intros i; simpl; [done|].
  destruct (String.eqb_spec (tweet_id p) tid) as [Heq|_].
  - intros [= <-]. by exists p.
  - destruct (find_post tid posts) as [j|]; [|done].
    intros [= <-]. by apply IH.
Qed.

Lemma parse_loop_inv all original matches posts suitable :
  (∀ m, m ∈ matches → m ∈ all) →
  parse_inv all original posts suitable →
  parse_inv all original (parse_loop matches posts suitable).1
                         (parse_loop matches posts suitable).2.
Proof.
  revert posts suitable.
  induction matches as [|[[m0 m1] m2] matches IH]; intros posts suitable Hall Hinv;
    [done|].
  cbn [parse_loop].
  assert (∀ m, m ∈ matches → m ∈ all) as Hall'
    by (intros; apply Hall, elem_of_cons; by right).
  destruct (String.eqb_spec (Str.lower (Str.strip m1)) "yes") as [Hyes|_];
    [|by apply IH].
  destruct (find_post (Str.strip m0) posts) as [i|] eqn:Hfind; [|by apply IH].
  apply IH; [done|].
  destruct (find_post_lookup _ _ _ Hfind) as (p & Hp & Htid).
  destruct Hinv as [Hposts Hsuit].
  destruct (Hposts i p Hp) as (q & Hq & Hpq).
  assert (approved_by (m0, m1, m2) q (approve (Str.strip m2) p)) as Happ.
  { assert (tweet_id q = tweet_id p
            ∧ approve (Str.strip m2) p = approve (Str.strip m2) q) as [Hid Hap].
    { destruct Hpq as [Heq|(m & _ & _ & _ & Heq)]; by rewrite Heq. }
    split_and!; simpl; [by rewrite Hid | done | done]. }
  split.
  - intros j p' Hj. destruct (decide (j = i)) as [->|Hne].
    + rewrite list_lookup_alter_eq, Hp in Hj. injection Hj as <-.
      exists q. split; [done|]. right. exists (m0, m1, m2).
      split; [apply Hall, elem_of_cons; by left | done].
    + rewrite list_lookup_alter_ne in Hj by done. by apply Hposts.
  - intros j [Hj|Hj]%elem_of_app; [|apply list_elem_of_singleton in Hj as ->].
    + destruct (decide (j = i)) as [->|Hne].
      * exists (approve (Str.strip m2) p), q, (m0, m1, m2).
        rewrite list_lookup_alter_eq, Hp. split_and!; try done.
        apply Hall, elem_of_cons; by left.
      * destruct (Hsuit j Hj) as (p' & q' & m & ? & ? & ? & ?).
        exists p', q', m. rewrite list_lookup_alter_ne by done. done.
    + exists (approve (Str.strip m2) p), q, (m0, m1, m2).
      rewrite list_lookup_alter_eq, Hp. split_and!; try done.
      apply Hall, elem_of_cons; by left.
Qed.

Lemma parse_grok_analysis_elem analysis_text original_posts p :
  p ∈ _parse_grok_analysis analysis_text original_posts →
  ∃ q m, q ∈ original_posts ∧ m ∈ findall analysis_text ∧ approved_by m q p.
Proof.
  unfold _parse_grok_analysis.
  pose proof (parse_loop_inv (findall analysis_text) original_posts
                (findall analysis_text) original_posts []) as Hinv.
  destruct (parse_loop (findall analysis_text) original_posts [])
    as [posts suitable].
  destruct Hinv as [_ Hsuit].
  { done. }
  { split; [|intros i Hi; by apply elem_of_nil in Hi].
    intros i q Hq. exists q. split; [done | by left]. }
  intros (i & Hi & Hp)%list_elem_of_omap.
  destruct (Hsuit i Hi) as (p' & q & m & Hp' & Hq & Hm & Happ).
  simpl in *. rewrite Hp in Hp'. injection Hp' as <-.
  exists q, m. split_and!; try done. by eapply list_elem_of_lookup_2.
Qed.

(** X8: [_parse_grok_analysis] returns nothing of its own making.  Every
    post of the result is one of the original posts, marked approved, and
    the text has a match of the pattern that names its tweet (the stripped
    first group is its [tweet_id]), whose stripped second group is [yes] in
    any letter case, and whose stripped third group is the reason set on
    the post.  Apart from [grok_approved] and [grok_reason] the post is
    unchanged. *)
Theorem parse_grok_analysis_approves_listed_posts analysis_text original_posts p :
  p ∈ _parse_grok_analysis analysis_text original_posts →
  ∃ q m, q ∈ original_posts ∧ m ∈ findall analysis_text ∧
         Str.strip m.1.1 = tweet_id q ∧
         Str.lower (Str.strip m.1.2) = "yes" ∧
         grok_approved p = Some true ∧
         grok_reason p = Some (Str.strip m.2) ∧
         (tweet_id p, username p, text p, created_at p, likes p, retweets p,
          url p, matched_keywords p)
         = (tweet_id q, username q, text q, created_at q, likes q, retweets q,
            url q, matched_keywords q).
Proof.
  intros (q & m & Hq & Hm & Hid & Hyes & ->)%parse_grok_analysis_elem.
  exists q, m. by split_and!.
Qed.

Lemma parse_grok_analysis_approves_listed_posts_witness :
  ∃ q m, q ∈ Scenario.alice_posts ∧
         m ∈ findall (suitable_line "101" "on topic") ∧
         Str.strip m.1.1 = tweet_id q ∧
         Str.lower (Str.strip m.1.2) = "yes" ∧
         grok_approved (approve "on topic"
                          (Scenario.rust_post "101" "Learning Rust today"))
           = Some true ∧
         grok_reason (approve "on topic"
                        (Scenario.rust_post "101" "Learning Rust today"))
           = Some (Str.strip m.2) ∧
         (tweet_id (Scenario.rust_post "101" "Learning Rust today"),
          username (Scenario.rust_post "101" "Learning Rust today"),
          text (Scenario.rust_post "101" "Learning Rust today"),
          created_at (Scenario.rust_post "101" "Learning Rust today"),
          likes (Scenario.rust_post "101" "Learning Rust today"),
          retweets (Scenario.rust_post "101" "Learning Rust today"),
          url (Scenario.rust_post "101" "Learning Rust today"),
          matched_keywords (Scenario.rust_post "101" "Learning Rust today"))
         = (tweet_id q, username q, text q, created_at q, likes q, retweets q,
            url q, matched_keywords q).
Proof.
  apply (parse_grok_analysis_approves_listed_posts
           (suitable_line "101" "on topic") Scenario.alice_posts
           (approve "on topic" (Scenario.rust_post "101" "Learning Rust today"))).
  apply list_elem_of_lookup. exists 0%nat. vm_compute. reflexivity.
Defined.


Lemma keyword_loop_no_keywords username max tweets acc :
  keyword_loop username [] max tweets acc = acc.
Proof. induction tweets as [|tw tweets IH]; [done|]. exact IH. Qed.

Section WithAdapter.
Context {W : Type} (twitter : TwitterApi W).



Lemma users_loop_no_keywords usernames lookback_days max acc (w : W) :
  ∃ w', users_loop twitter usernames [] lookback_days max acc w = (Ok acc, w').
Proof.
  revert acc w. induction usernames as [|u us IH]; intros acc w.
  - by eexists.
  - cbn [users_loop]. unfold bind at 1. unfold try_except at 1. unfold bind at 1.
    destruct (get_user_tweets twitter u 50 lookback_days w) as [[tweets|e] w1].
    + unfold ret at 1. rewrite keyword_loop_no_keywords, app_nil_r. apply IH.
    + unfold ret at 1. apply IH.
Qed.


(** X10: two edge cases of the keyword pass.  With an empty keyword list
    [find_matching_posts] returns the empty list, whatever the users, the
    platform and the filter flag are.  An empty string among the keywords
    matches every text, so that every fetched tweet is a candidate. *)
Theorem keyword_edge_cases :
  (∀ usernames lookback_days max_posts_per_user use_grok_filter campaign_context
     (w : W),
     ∃ w', find_matching_posts twitter usernames [] lookback_days
             max_posts_per_user use_grok_filter campaign_context w
           = (Ok [], w')) ∧
  (∀ text keywords, "" ∈ keywords → _matches_keywords text keywords = true).
Proof.
  split.
  - intros. unfold find_matching_posts, keyword_matched_posts, bind.
    destruct (users_loop_no_keywords usernames lookback_days
                max_posts_per_user [] w) as [w' ->].
    exists w'. unfold gate_enabled. by destruct use_grok_filter.
  - intros text keywords Hin. apply matches_keywords_iff. exists "".
    split; [by apply list_elem_of_In|]. apply contains_empty_needle.
Qed.

End WithAdapter.


End GateFacts.

(** ** The pattern of the Grok answer *)

Module PatternFacts.
Import PostFilter TextFacts.

(** A line in the format for suitable tweets is matched whole, at its
    start, when it ends the text or a line feed follows. *)
Lemma match_here_suitable_line id reason rest :
  id ≠ "" → forallb not_semicolon (list_ascii_of_string id) = true →
  reason ≠ "" → forallb not_newline (list_ascii_of_string reason) = true →
  rest = "" ∨ (∃ rest', rest = String "010" rest') →
  match_here (suitable_line id reason +:+ rest)
  = Some (id, "yes", reason, String.length (suitable_line id reason)).
Proof.
  intros Hid Hsemi Hr Hnl Hrest. unfold suitable_line, match_here.
  rewrite !append_assoc, strip_prefix_app.
  change (";suitable=yes;reason=" +:+ reason +:+ rest)
    with (String ";" ("suitable=yes;reason=" +:+ reason +:+ rest)).
  rewrite span_run by done.
  destruct (String.eqb_spec id "") as [|_]; [done|].
  change (Str.strip_prefix ";suitable="
            (String ";" ("suitable=yes;reason=" +:+ reason +:+ rest)))
    with (Some ("yes" +:+ String ";" ("reason=" +:+ reason +:+ rest))).
  cbv beta iota. rewrite span_run by done. cbv beta iota.
  change (String.eqb "yes" "") with false. cbv beta iota.
  change (Str.strip_prefix ";reason=" (String ";" ("reason=" +:+ reason +:+ rest)))
    with (Some (reason +:+ rest)).
  cbv beta iota.
  assert (Str.span not_newline (reason +:+ rest) = (reason, rest)) as ->.
  { destruct Hrest as [->|[rest' ->]].
    - rewrite append_nil_r. by apply span_all.
    - by apply span_run. }
  destruct (String.eqb_spec reason "") as [|_]; [done|].
  do 3 f_equal. rewrite !length_append. simpl. lia.
Qed.

Lemma findall_skip a b :
  findall_from (String.length a) (a +:+ b) = findall_from 0 b.
Proof.
  induction a as [|c a IH].
  - change ("" +:+ b) with b. simpl. by destruct b.
  - rewrite PostFilterFacts.append_cons. simpl. done.
Qed.

Lemma findall_match line groups rest :
  line ≠ "" →
  match_here (line +:+ rest) = Some (groups, String.length line) →
  findall_from 0 (line +:+ rest) = groups :: findall_from 0 rest.
Proof.
  destruct line as [|c line]; [done|]. intros _ Hm.
  rewrite PostFilterFacts.append_cons in *. cbn [findall_from]. rewrite Hm.
  cbn [String.length Nat.pred]. by rewrite findall_skip.
Qed.

Lemma findall_no_match c s :
  match_here (String c s) = None →
  findall_from 0 (String c s) = findall_from 0 s.
Proof. intros Hm. cbn [findall_from]. by rewrite Hm. Qed.

(** X11: the answer format that the prompt asks for is read back.  For a
    text of lines [tweet_id=ID;suitable=yes;reason=REASON] joined by line
    feeds, with identifiers that are not empty and hold no semicolon and
    reasons that are not empty and hold no line feed, the pattern finds
    one match per line, in order, with the groups [ID], [yes] and
    [REASON]. *)
Theorem findall_reads_suitable_lines (lines : list (string * string)) :
  Forall readable lines →
  findall (Str.join newline ((λ l, suitable_line l.1 l.2) <$> lines))
  = (λ l, (l.1, "yes", l.2)) <$> lines.
Proof.
  unfold findall.
  induction 1 as [|[id reason] lines (Hid & Hsemi & Hr & Hnl) Hlines IH]; [done|].
  destruct lines as [|l2 lines].
  - cbn [fmap list_fmap Str.join fst snd].
    rewrite <- (append_nil_r (suitable_line id reason)).
    rewrite (findall_match _ (id, "yes", reason)); [done| |].
    + unfold suitable_line. done.
    + by apply match_here_suitable_line; [..|left].
  - change (Str.join newline
              ((λ l, suitable_line l.1 l.2) <$> (id, reason) :: l2 :: lines))
      with (suitable_line id reason +:+ newline +:+
            Str.join newline ((λ l, suitable_line l.1 l.2) <$> l2 :: lines)).
    rewrite (findall_match _ (id, "yes", reason)).
    + unfold newline at 1. rewrite PostFilterFacts.append_cons.
      rewrite findall_no_match by done.
      change ("" +:+ ?x) with x. by rewrite IH.
    + unfold suitable_line. done.
    + apply match_here_suitable_line; [done..|]. right. by eexists.
Qed.

Lemma findall_reads_suitable_lines_witness :
  findall (Str.join newline
             ((λ l, suitable_line l.1 l.2)
                <$> [("101", "on topic"); ("102", "asks for a book")]))
  = (λ l, (l.1, "yes", l.2)) <$> [("101", "on topic"); ("102", "asks for a book")].
Proof.
  apply (findall_reads_suitable_lines
           [("101", "on topic"); ("102", "asks for a book")]).
  repeat constructor; done.
Defined.

(** Without a semicolon there is no match. *)
Lemma match_here_semicolon s :
  forallb not_semicolon (list_ascii_of_string s) = true → match_here s = None.
Proof.
  intros Hs. unfold match_here.
  destruct (Str.strip_prefix "tweet_id=" s) as [r1|] eqn:H1; [|done].
  rewrite (span_all _ r1) by by eapply strip_prefix_suffix.
  by destruct (String.eqb r1 "").
Qed.

Lemma findall_semicolon s :
  forallb not_semicolon (list_ascii_of_string s) = true → findall_from 0 s = [].
Proof.
  induction s as [|c s IH]; [done|]. intros Hs.
  rewrite findall_no_match by by apply match_here_semicolon.
  simpl in Hs. apply andb_true_iff in Hs as [_ Hs]. by apply IH.
Qed.

(** X12: a line for an unsuitable tweet swallows the line after it.  In
    the text [tweet_id=A;suitable=no], line feed,
    [tweet_id=B;suitable=yes;reason=R] the second group [[^;]+] runs over
    the line feed: the pattern finds a single match, for [A], whose verdict
    is [no], line feed, [tweet_id=B], and the suitable tweet [B] is not
    among the approved posts, whatever the posts are. *)
Theorem unsuitable_line_swallows_next_line a b reason original_posts :
  a ≠ "" → forallb not_semicolon (list_ascii_of_string a) = true →
  forallb not_semicolon (list_ascii_of_string b) = true →
  forallb not_semicolon (list_ascii_of_string reason) = true →
  findall (unsuitable_line a +:+ newline +:+ suitable_line b reason)
    = [(a, "no" +:+ newline +:+ "tweet_id=" +:+ b, "")]
  ∧ _parse_grok_analysis
      (unsuitable_line a +:+ newline +:+ suitable_line b reason) original_posts
    = [].
Proof.
  intros Ha Hsa Hsb Hsr.
  set (group := "no" +:+ newline +:+ "tweet_id=" +:+ b).
  set (tail := ";suitable=yes;reason=" +:+ reason).
  set (line := "tweet_id=" +:+ a +:+ ";suitable=" +:+ group).
  assert (unsuitable_line a +:+ newline +:+ suitable_line b reason
          = line +:+ tail) as ->.
  { unfold unsuitable_line, suitable_line, line, group, tail, newline.
    by rewrite !append_assoc. }
  assert (forallb not_semicolon (list_ascii_of_string group) = true) as Hgroup.
  { unfold group, newline. by rewrite !forallb_append, Hsb. }
  assert (match_here (line +:+ tail) = Some ((a, group, ""), String.length line))
    as Hm.
  { unfold line, tail, match_here.
    rewrite !append_assoc, strip_prefix_app.
    change (";suitable=" +:+ group +:+ ";suitable=yes;reason=" +:+ reason)
      with (String ";" ("suitable=" +:+ group +:+ ";suitable=yes;reason=" +:+ reason)).
    rewrite span_run by done.
    destruct (String.eqb_spec a "") as [|_]; [done|].
    change (Str.strip_prefix ";suitable="
              (String ";" ("suitable=" +:+ group +:+ ";suitable=yes;reason=" +:+ reason)))
      with (Some (group +:+ String ";" ("suitable=yes;reason=" +:+ reason))).
    cbv beta iota. rewrite span_run by done. cbv beta iota.
    destruct (String.eqb_spec group "") as [Hg|_]; [by destruct b|].
    change (Str.strip_prefix ";reason=" (String ";" ("suitable=yes;reason=" +:+ reason)))
      with (@None string).
    cbv beta iota. do 2 f_equal. rewrite !length_append. simpl. lia. }
  assert (findall (line +:+ tail) = [(a, group, "")]) as Hfind.
  { unfold findall. rewrite (findall_match _ (a, group, "")); [|done|done].
    f_equal. unfold tail. rewrite !PostFilterFacts.append_cons.
    rewrite !findall_no_match by reflexivity.
    change ("" +:+ reason) with reason. by apply findall_semicolon. }
  split; [done|].
  unfold _parse_grok_analysis. rewrite Hfind. cbn [parse_loop].
  destruct (strip_chars_head Str.is_space "n"
              ("o" +:+ newline +:+ "tweet_id=" +:+ b) eq_refl) as [y Hy].
  assert (Str.strip group = String "n" y) as -> by exact Hy.
  done.
Qed.

Lemma unsuitable_line_swallows_next_line_witness :
  findall (unsuitable_line "101" +:+ newline +:+ suitable_line "102" "on topic")
    = [("101", "no" +:+ newline +:+ "tweet_id=" +:+ "102", "")]
  ∧ _parse_grok_analysis
      (unsuitable_line "101" +:+ newline +:+ suitable_line "102" "on topic")
      Scenario.alice_posts
    = [].
Proof.
  apply (unsuitable_line_swallows_next_line "101" "102" "on topic"
                                            Scenario.alice_posts);
    done.
Defined.

End PatternFacts.

(** ** Interaction mapper: what a score counts *)

Module ScoreFacts.
Import InteractionMapper InteractionMapperFacts.
Local Open Scope Z_scope.

Lemma score_of_add_score k k' n d :
  score_of k' (add_score k n d)
  = score_of k' d + (if decide (k' = k) then n else 0).
Proof.
  induction d as [|[k0 v] d IH].
  - unfold score_of. cbn [add_score List.find fst].
    destruct (String.eqb_spec k k') as [->|Hne].
    + rewrite decide_True by done. cbn [snd]. lia.
    + rewrite decide_False by done. lia.
  - cbn [add_score]. destruct (String.eqb_spec k0 k) as [->|Hne].
    + unfold score_of. cbn [List.find fst snd].
      destruct (String.eqb_spec k k') as [->|Hne'].
      * rewrite decide_True by done. simpl. lia.
      * rewrite decide_False by done. lia.
    + unfold score_of in *. cbn [List.find fst snd].
      destruct (String.eqb_spec k0 k') as [->|Hne'].
      * rewrite decide_False by done. simpl. lia.
      * apply IH.
Qed.

Lemma score_of_score_users k n users d :
  score_of k (score_users n users d)
  = score_of k d + n * Z.of_nat (length (filter (λ u, u = k) users)).
Proof.
  unfold score_users. revert d. induction users as [|u users IH]; intros d.
  - simpl. lia.
  - cbn [fold_left]. rewrite IH, score_of_add_score, filter_cons.
    destruct (decide (k = u)) as [->|Hne].
    + rewrite decide_True by done. simpl length. lia.
    + rewrite decide_False by done. lia.
Qed.

Lemma score_of_entry k v d :
  NoDup d.*1 → (k, v) ∈ d → score_of k d = v.
Proof.
  induction d as [|[k0 v0] d IH]; intros Hd Hin; [by apply elem_of_nil in Hin|].
  apply NoDup_cons in Hd as [Hk0 Hd]. unfold score_of in *. cbn [List.find fst].
  apply elem_of_cons in Hin as [[= <- <-]|Hin].
  - by rewrite String.eqb_refl.
  - destruct (String.eqb_spec k0 k) as [->|_]; [|by apply IH].
    destruct Hk0. apply list_elem_of_fmap. by exists (k, v).
Qed.

Lemma total_points_app k a b :
  total_points k (a ++ b) = total_points k a + total_points k b.
Proof.
  unfold total_points. induction a as [|i a IH]; simpl; [done|]. rewrite IH. lia.
Qed.

Lemma add_score_scored k n d : 1 <= n → scored d → scored (add_score k n d).
Proof.
  intros Hn. induction 1 as [|[k0 v] d Hv Hd IH]; cbn [add_score].
  - repeat constructor. simpl. lia.
  - destruct (String.eqb k0 k); constructor; simpl in *; try done; lia.
Qed.

Lemma score_users_scored n users d :
  1 <= n → scored d → scored (score_users n users d).
Proof.
  intros Hn. unfold score_users. revert d.
  induction users as [|u users IH]; intros d Hd; [done|].
  cbn [fold_left]. by apply IH, add_score_scored.
Qed.

Section WithAdapter.
Context {W : Type} (twitter : TwitterApi W).

Lemma tweets_loop_points k tweets d (w : W) :
  score_of k (tweets_loop twitter tweets d w).1
  = score_of k d + total_points k (tweets_seen twitter tweets w).1
  ∧ (tweets_loop twitter tweets d w).2 = (tweets_seen twitter tweets w).2.
Proof.
  revert d w. induction tweets as [|tw tweets IH]; intros d w;
    cbn [tweets_loop tweets_seen].
  - simpl. split; [lia | done].
  - destruct (get_tweet_interactions twitter (tw_tweet_id tw) w) as [[i|e] w1].
    + destruct (IH (score_users 2 (retweeters i) (score_users 1 (likers i) d)) w1)
        as [Hs Hw].
      rewrite Hs, Hw. destruct (tweets_seen twitter tweets w1) as [seen w2].
      cbn [fst snd total_points foldr]. split; [|done].
      rewrite !score_of_score_users. unfold points. fold (total_points k seen). lia.
    + simpl. split; [lia | done].
Qed.

Lemma seeds_loop_points k seeds lookback_days d (w : W) :
  score_of k (seeds_loop twitter seeds lookback_days d w).1
  = score_of k d + total_points k (seeds_seen twitter seeds lookback_days w).
Proof.
  revert d w. induction seeds as [|s seeds IH]; intros d w;
    cbn [seeds_loop seeds_seen].
  - simpl. lia.
  - destruct (get_user_tweets twitter s 20 lookback_days w) as [[tweets|e] w1];
      [|apply IH].
    destruct (tweets_loop_points k tweets d w1) as [Hs Hw].
    destruct (tweets_loop twitter tweets d w1) as [d1 w2].
    destruct (tweets_seen twitter tweets w1) as [seen w2'].
    cbn [fst snd] in *. subst w2'.
    rewrite IH, Hs, total_points_app. lia.
Qed.

Lemma tweets_loop_scored tweets d (w : W) :
  scored d → scored (tweets_loop twitter tweets d w).1.
Proof.
  revert d w. induction tweets as [|tw tweets IH]; intros d w Hd;
    cbn [tweets_loop]; [done|].
  destruct (get_tweet_interactions twitter (tw_tweet_id tw) w) as [[i|e] w1];
    [|done].
  apply IH. by do 2 (apply score_users_scored; [lia|]).
Qed.

Lemma seeds_loop_scored seeds lookback_days d (w : W) :
  scored d → scored (seeds_loop twitter seeds lookback_days d w).1.
Proof.
  revert d w. induction seeds as [|s seeds IH]; intros d w Hd;
    cbn [seeds_loop]; [done|].
  destruct (get_user_tweets twitter s 20 lookback_days w) as [[tweets|e] w1];
    [|by apply IH].
  pose proof (tweets_loop_scored tweets d w1 Hd) as Hd'.
  destruct (tweets_loop twitter tweets d w1) as [d1 w2]. by apply IH.
Qed.

(** X13: what a score of [find_top_interacted_users] is.  The result
    lists every username once, and the score of a listed user is the
    number of times the user is among the likers plus twice the number of
    times the user is among the retweeters, summed over the tweets whose
    interactions the loops read before an exception ended a seed's turn;
    a listing that the client repeats is counted again.  Every listed
    score is at least 1. *)
Theorem scores_are_weighted_interaction_counts
    seed_users top_n lookback_days now (w : W) :
  NoDup (se_username <$>
           (find_top_interacted_users twitter seed_users top_n lookback_days
                                      now w).1)
  ∧ ∀ e,
      e ∈ (find_top_interacted_users twitter seed_users top_n lookback_days
                                     now w).1 →
      interaction_score e
        = total_points (se_username e)
                       (seeds_seen twitter seed_users lookback_days w)
      ∧ 1 <= interaction_score e.
Proof.
  rewrite find_top_interacted_users_result.
  destruct (slice_to_prefix top_n
              (sorted_by_score (candidate_scores twitter seed_users lookback_days w)))
    as [r Hr].
  split.
  - rewrite <- list_fmap_compose.
    pose proof (candidate_scores_NoDup twitter seed_users lookback_days w) as Hnd.
    rewrite <- (sorted_by_score_perm _), Hr, fmap_app in Hnd.
    apply NoDup_app in Hnd as [Hnd _].
    erewrite list_fmap_ext; [exact Hnd|]. by intros i [u v] _.
  - intros e ([u v] & -> & Hin)%list_elem_of_fmap.
    cbn [entry fst snd se_username interaction_score].
    assert ((u, v) ∈ (seeds_loop twitter seed_users lookback_days [] w).1) as Hd.
    { assert ((u, v) ∈ candidate_scores twitter seed_users lookback_days w) as Hc.
      { rewrite <- (sorted_by_score_perm _), Hr. apply elem_of_app. by left. }
      eapply elem_of_sublist; [exact Hc | apply remove_seeds_sublist]. }
    split.
    + rewrite <- (score_of_entry u v _
                    (seeds_loop_NoDup twitter _ _ [] w (NoDup_nil_2)) Hd).
      rewrite seeds_loop_points. unfold score_of. simpl. lia.
    + pose proof (seeds_loop_scored seed_users lookback_days [] w (Forall_nil_2 _))
        as Hs.
      unfold scored in Hs. rewrite Forall_forall in Hs. exact (Hs _ Hd).
Qed.

End WithAdapter.
End ScoreFacts.

(** ** Interaction mapper: the shape of the result *)

Module ShapeFacts.
Import InteractionMapper InteractionMapperFacts ScoreFacts TextFacts.
Local Open Scope Z_scope.

Lemma met_before_app met more u v :
  met_before met u v → met_before (met ++ more) u v.
Proof.
  intros (l1 & l2 & -> & Hv & Hne). exists l1, (l2 ++ more).
  by rewrite <- app_assoc.
Qed.

Lemma keys_as_met_nil : keys_as_met [] [].
Proof.
  split_and!; [constructor|done|].
  intros u v H. apply sublist_nil_r in H. done.
Qed.

Lemma add_score_as_met k n d met :
  keys_as_met d.*1 met → keys_as_met (add_score k n d).*1 (met ++ [k]).
Proof.
  intros (Hnd & Hin & Hord). split_and!.
  - by apply add_score_NoDup.
  - intros k'. rewrite add_score_keys, elem_of_app, list_elem_of_singleton.
    destruct (decide (k ∈ d.*1)) as [Hk|Hk].
    + rewrite Hin. split; [by left|]. intros [?| ->]; [done|]. by apply Hin.
    + rewrite elem_of_app, list_elem_of_singleton, Hin. done.
  - intros u v. rewrite add_score_keys.
    destruct (decide (k ∈ d.*1)) as [Hk|Hk].
    + intros H. by apply met_before_app, Hord.
    + intros (l1 & l2 & Huv & H1 & H2)%sublist_app_r.
      destruct l2 as [|x l2].
      * rewrite app_nil_r in Huv. subst l1. by apply met_before_app, Hord.
      * apply sublist_cons_l in H2 as (k1 & k2 & Hk12 & Hl2).
        assert (x = k ∧ l2 = []) as [-> ->].
        { destruct k1 as [|y k1].
          - injection Hk12 as -> <-. by apply sublist_nil_r in Hl2.
          - injection Hk12 as _ Hk12. by destruct k1. }
        destruct l1 as [|y [|z [|z' l1]]]; try discriminate.
        injection Huv as Hu Hv. subst y v.
        apply singleton_sublist_l in H1.
        assert (u ∈ met) as (a & b & ->)%list_elem_of_split by by apply Hin.
        exists a, (b ++ [k]). split_and!.
        -- by rewrite <- app_assoc.
        -- intros Hka. apply Hk, Hin, elem_of_app. by left.
        -- intros ->. done.
Qed.

Lemma score_users_as_met n users d met :
  keys_as_met d.*1 met → keys_as_met (score_users n users d).*1 (met ++ users).
Proof.
  unfold score_users. revert d met.
  induction users as [|u users IH]; intros d met Hd.
  - by rewrite app_nil_r.
  - cbn [fold_left]. rewrite (cons_middle u met users), app_assoc.
    apply IH. by apply add_score_as_met.
Qed.


(** A name without [@] is what both ways of stripping leave of it. *)
Lemma rev_app_rev_app z a b :
  String.rev_app (String.rev_app z a) b = String.rev_app a (z +:+ b).
Proof.
  revert a b. induction z as [|c z IH]; intros a b; [done|].
  cbn [String.rev_app]. rewrite IH. reflexivity.
Qed.

Lemma rev_rev s : String.rev (String.rev s) = s.
Proof. unfold String.rev. by rewrite rev_app_rev_app, append_nil_r. Qed.

Lemma forallb_rev_app Q z a :
  forallb Q (list_ascii_of_string (String.rev_app z a))
  = forallb Q (list_ascii_of_string z) && forallb Q (list_ascii_of_string a).
Proof.
  revert a. induction z as [|c z IH]; intros a; [done|].
  cbn [String.rev_app]. rewrite IH. cbn.
  by destruct (Q c), (forallb Q (list_ascii_of_string z)).
Qed.

Lemma lstrip_chars_none P s :
  forallb (λ c, negb (P c)) (list_ascii_of_string s) = true →
  Str.lstrip_chars P s = s.
Proof. destruct s as [|c s]; [done|]. cbn. by destruct (P c). Qed.

Lemma strip_chars_none P s :
  forallb (λ c, negb (P c)) (list_ascii_of_string s) = true →
  Str.strip_chars P s = s.
Proof.
  intros Hs. unfold Str.strip_chars, Str.rstrip_chars.
  rewrite (lstrip_chars_none P s Hs), lstrip_chars_none; [apply rev_rev|].
  unfold String.rev. rewrite forallb_rev_app, Hs. reflexivity.
Qed.

Lemma strip_at_none s : Str.absent "@" s = true → Str.strip_at s = s.
Proof.
  intros Hs. apply strip_chars_none. unfold Str.absent in Hs.
  revert Hs. induction (list_ascii_of_string s) as [|c l IH]; [done|].
  cbn [forallb]. rewrite (Ascii.eqb_sym c "@").
  destruct (Ascii.eqb "@" c); [done|]. exact IH.
Qed.

Lemma strip_leading_at_cons c name :
  Scenario.strip_leading_at (String c name)
  = if Ascii.eqb c "@" then name else String c name.
Proof. by destruct c as [[] [] [] [] [] [] [] []]. Qed.

Lemma strip_at_leading seed :
  Str.absent "@" (Scenario.strip_leading_at seed) = true →
  Str.strip_at seed = Scenario.strip_leading_at seed.
Proof.
  destruct seed as [|c name]; [done|]. rewrite strip_leading_at_cons.
  destruct (Ascii.eqb_spec c "@") as [->|Hc]; [|apply strip_at_none].
  intros Hname. unfold Str.strip_at, Str.strip_chars. cbn [Str.lstrip_chars].
  rewrite Ascii.eqb_refl. apply (strip_at_none name Hname).
Qed.

Lemma sublist_filter_mono {A} (P : A → Prop) `{!∀ x, Decision (P x)} (l k : list A) :
  l `sublist_of` k → filter P l `sublist_of` filter P k.
Proof.
  induction 1 as [|x l k Hlk IH|x l k Hlk IH]; [done| |].
  - rewrite !filter_cons. destruct (decide (P x)); [by constructor | done].
  - rewrite filter_cons. destruct (decide (P x)); [by constructor | done].
Qed.

Lemma pair_of_entry now (l : list (string * Z)) : pair_of <$> (entry now <$> l) = l.
Proof.
  rewrite <- list_fmap_compose. rewrite <- (list_fmap_id l) at 2.
  apply list_fmap_ext. by intros i [u v] _.
Qed.

Section WithAdapter.
Context {W : Type} (twitter : TwitterApi W).

Lemma tweets_loop_as_met tweets d met (w : W) :
  keys_as_met d.*1 met →
  keys_as_met (tweets_loop twitter tweets d w).1.*1
              (met ++ usernames_met (tweets_seen twitter tweets w).1).
Proof.
  revert d met w. induction tweets as [|tw tweets IH]; intros d met w Hd;
    cbn [tweets_loop tweets_seen].
  - cbn. by rewrite app_nil_r.
  - destruct (get_tweet_interactions twitter (tw_tweet_id tw) w) as [[i|e] w1].
    + specialize (IH (score_users 2 (retweeters i) (score_users 1 (likers i) d))
                     ((met ++ likers i) ++ retweeters i) w1).
      destruct (tweets_seen twitter tweets w1) as [seen w2]. cbn [fst] in *.
      unfold usernames_met in *. rewrite bind_cons.
      rewrite <- !app_assoc in IH. rewrite <- !app_assoc. apply IH.
      rewrite !app_assoc.
      by do 2 apply score_users_as_met.
    + cbn. by rewrite app_nil_r.
Qed.

Lemma seeds_loop_as_met seeds lookback_days d met (w : W) :
  keys_as_met d.*1 met →
  keys_as_met (seeds_loop twitter seeds lookback_days d w).1.*1
              (met ++ usernames_met (seeds_seen twitter seeds lookback_days w)).
Proof.
  revert d met w. induction seeds as [|s seeds IH]; intros d met w Hd;
    cbn [seeds_loop seeds_seen].
  - cbn. by rewrite app_nil_r.
  - destruct (get_user_tweets twitter s 20 lookback_days w) as [[tweets|e] w1];
      [|by apply IH].
    pose proof (tweets_loop_as_met tweets d met w1 Hd) as Hd1.
    destruct (tweets_loop_points twitter "" tweets d w1) as [_ Hw].
    destruct (tweets_loop twitter tweets d w1) as [d1 w2].
    destruct (tweets_seen twitter tweets w1) as [seen w2'].
    cbn [fst snd] in *. subst w2'.
    unfold usernames_met in *. rewrite bind_app, app_assoc. by apply IH.
Qed.


(** C5.  The platform reports screen names, which hold no [@], and the
    requests are validated to ask for at least one user, so that [top_n]
    is not negative.  Then the result
    holds no username equal to a seed less its leading [@]; it is in
    descending order of score; of two entries with the same score the one
    that comes first was met first, as a liker or retweeter, by the loops;
    and there are at most [top_n] entries. *)
Theorem top_interacted_users_shape seed_users top_n lookback_days now (w : W) :
  Forall (λ u, Str.absent "@" u = true)
         (usernames_met (seeds_seen twitter seed_users lookback_days w)) →
  0 <= top_n →
  let result :=
    (find_top_interacted_users twitter seed_users top_n lookback_days now w).1 in
  let met := usernames_met (seeds_seen twitter seed_users lookback_days w) in
  (∀ seed, seed ∈ seed_users →
     Scenario.strip_leading_at seed ∉ se_username <$> result) ∧
  StronglySorted (λ a b, interaction_score b <= interaction_score a) result ∧
  (∀ a b, [a; b] `sublist_of` result →
     interaction_score a = interaction_score b →
     met_before met (se_username a) (se_username b)) ∧
  Z.of_nat (length result) <= top_n.
Proof.
  intros Hnames Htop result met. subst result.
  rewrite find_top_interacted_users_result.
  set (cand := candidate_scores twitter seed_users lookback_days w).
  set (d := (seeds_loop twitter seed_users lookback_days [] w).1).
  pose proof (slice_to_prefix top_n (sorted_by_score cand)) as Hpre.
  assert (cand `sublist_of` d) as Hcand by apply remove_seeds_sublist.
  assert (keys_as_met d.*1 met) as (Hnd & Hin & Hord).
  { apply (seeds_loop_as_met seed_users lookback_days [] [] w keys_as_met_nil). }
  assert (slice_to top_n (sorted_by_score cand) `sublist_of` sorted_by_score cand)
    as Hsl.
  { revert Hpre. generalize (slice_to top_n (sorted_by_score cand)).
    intros l [r ->]. by apply sublist_inserts_r. }
  split_and!.
  - intros seed Hseed Hres.
    apply list_elem_of_fmap in Hres as (e & Hname & He).
    apply list_elem_of_fmap in He as ([u s] & -> & Hp). cbn in Hname.
    assert ((u, s) ∈ cand) as Hc.
    { rewrite <- (sorted_by_score_perm cand). by eapply elem_of_sublist. }
    assert (u ∈ met) as Hu.
    { apply Hin, list_elem_of_fmap. exists (u, s). split; [done|].
      by eapply elem_of_sublist. }
    rewrite Forall_forall in Hnames. specialize (Hnames u Hu).
    rewrite <- Hname in Hnames. apply strip_at_leading in Hnames.
    apply (remove_seeds_removes seed_users d seed Hnd Hseed).
    rewrite Hnames, Hname. apply list_elem_of_fmap. by exists (u, s).
  - eapply StronglySorted_fmap; [intros x y Hxy; exact Hxy|].
    destruct Hpre as [r Hr].
    pose proof (sorted_by_score_sorted cand) as Hs. rewrite Hr in Hs.
    by apply StronglySorted_app_1_l in Hs.
  - intros a b Hab Hscore. apply Hord.
    apply (fmap_sublist pair_of) in Hab. rewrite pair_of_entry in Hab.
    cbn [fmap list_fmap] in Hab.
    apply (sublist_filter_mono (λ p : string * Z, p.2 = interaction_score a))
      in Hab.
    rewrite !filter_cons, filter_nil in Hab.
    rewrite decide_True in Hab by done.
    rewrite decide_True in Hab by (cbn; congruence).
    apply (fmap_sublist fst) in Hab. cbn [fmap list_fmap pair_of fst] in Hab.
    etrans; [exact Hab|]. apply fmap_sublist.
    etrans; [|exact Hcand].
    etrans; [apply (sublist_filter_mono _ _ _ Hsl)|].
    rewrite sorted_by_score_stable. apply sublist_filter.
  - rewrite length_fmap. by apply slice_to_length.
Qed.

End WithAdapter.

Lemma top_interacted_users_shape_witness :
  (∀ seed, seed ∈ ["@a"] →
     Scenario.strip_leading_at seed ∉ se_username <$>
       (find_top_interacted_users
          (Scenario.twitter (Scenario.seed_post "a" ["bob"; "a"; "dan"] ["carol"]))
          ["@a"] 2 7 0 Scenario.logged_in).1) ∧
  StronglySorted (λ a b, interaction_score b <= interaction_score a)
    (find_top_interacted_users
       (Scenario.twitter (Scenario.seed_post "a" ["bob"; "a"; "dan"] ["carol"]))
       ["@a"] 2 7 0 Scenario.logged_in).1 ∧
  (∀ a b,
     [a; b] `sublist_of`
       (find_top_interacted_users
          (Scenario.twitter (Scenario.seed_post "a" ["bob"; "a"; "dan"] ["carol"]))
          ["@a"] 2 7 0 Scenario.logged_in).1 →
     interaction_score a = interaction_score b →
     met_before
       (usernames_met
          (seeds_seen
             (Scenario.twitter
                (Scenario.seed_post "a" ["bob"; "a"; "dan"] ["carol"]))
             ["@a"] 7 Scenario.logged_in))
       (se_username a) (se_username b)) ∧
  Z.of_nat (length
    (find_top_interacted_users
       (Scenario.twitter (Scenario.seed_post "a" ["bob"; "a"; "dan"] ["carol"]))
       ["@a"] 2 7 0 Scenario.logged_in).1) <= 2.
Proof.
  apply (top_interacted_users_shape
           (Scenario.twitter (Scenario.seed_post "a" ["bob"; "a"; "dan"] ["carol"]))
           ["@a"] 2 7 0 Scenario.logged_in).
  - vm_compute. repeat constructor.
  - lia.
Defined.

End ShapeFacts.

(** ** The campaign components over an adapter without a session *)

Module OfflineFacts.
Import InteractionMapper PostFilter.

Section WithClient.
Context {W : Type} (client : Client W).

Lemma get_user_tweets_unauthenticated username count lookback_days (w : W) :
  is_authenticated client w = false →
  ∃ e, get_user_tweets (TwitterAdapter.api client) username count lookback_days w
       = (Raise e, w).
Proof.
  intros Hw. unfold TwitterAdapter.api. cbn [get_user_tweets].
  unfold TwitterAdapter.get_user_tweets, bind, TwitterAdapter._check_authenticated.
  rewrite Hw. by eexists.
Qed.

Lemma seeds_loop_unauthenticated seed_users lookback_days d (w : W) :
  is_authenticated client w = false →
  seeds_loop (TwitterAdapter.api client) seed_users lookback_days d w = (d, w).
Proof.
  intros Hw. induction seed_users as [|s seeds IH]; [done|].
  cbn [seeds_loop].
  destruct (get_user_tweets_unauthenticated s 20 lookback_days w Hw) as [e ->].
  exact IH.
Qed.

Lemma users_loop_unauthenticated usernames keywords lookback_days max acc (w : W) :
  is_authenticated client w = false →
  users_loop (TwitterAdapter.api client) usernames keywords lookback_days max acc w
  = (Ok acc, w).
Proof.
  intros Hw. induction usernames as [|u us IH]; [done|].
  cbn [users_loop]. unfold bind at 1. unfold try_except at 1. unfold bind at 1.
  destruct (get_user_tweets_unauthenticated u 50 lookback_days w Hw) as [e ->].
  unfold ret at 1. exact IH.
Qed.

(** X14: over an adapter that was never authenticated the mapper and the
    filter do not fail, they find nothing.  The exception of
    [_check_authenticated] is caught for each seed user and for each
    username, so that [find_top_interacted_users] returns no user and
    [find_matching_posts] returns no post, and the world is left as it
    was: an analysis without a session looks like one without results. *)
Theorem unauthenticated_adapter_finds_nothing (w : W) :
  is_authenticated client w = false →
  (∀ seed_users top_n lookback_days now,
     find_top_interacted_users (TwitterAdapter.api client) seed_users top_n
                               lookback_days now w = ([], w)) ∧
  (∀ usernames keywords lookback_days max_posts_per_user use_grok_filter
     campaign_context,
     find_matching_posts (TwitterAdapter.api client) usernames keywords
                         lookback_days max_posts_per_user use_grok_filter
                         campaign_context w = (Ok [], w)).
Proof.
  intros Hw. split.
  - intros. unfold find_top_interacted_users.
    rewrite seeds_loop_unauthenticated by done.
    assert (remove_seeds seed_users [] = []) as ->.
    { unfold remove_seeds. by induction seed_users. }
    unfold slice_to, sorted_by_score. cbn [foldr].
    destruct (0 <=? top_n)%Z; by rewrite take_nil.
  - intros. unfold find_matching_posts, keyword_matched_posts, bind.
    rewrite users_loop_unauthenticated by done.
    unfold gate_enabled. by destruct use_grok_filter.
Qed.

End WithClient.

Lemma unauthenticated_adapter_finds_nothing_witness :
  find_top_interacted_users
    (TwitterAdapter.api (Scenario.client (Scenario.seed_post "a" ["u"] ["v"])))
    ["a"] 50 7 Scenario.noon (Scenario.Platform false [])
  = ([], Scenario.Platform false [])
  ∧ find_matching_posts
      (TwitterAdapter.api (Scenario.client (Scenario.seed_post "a" ["u"] ["v"])))
      ["a"] ["hello"] 7 5 true (Some Scenario.rust_context)
      (Scenario.Platform false [])
    = (Ok [], Scenario.Platform false []).
Proof.
  pose proof (unauthenticated_adapter_finds_nothing
                (Scenario.client (Scenario.seed_post "a" ["u"] ["v"]))
                (Scenario.Platform false []) eq_refl) as [Hmap Hfilter].
  split; [apply Hmap | apply Hfilter].
Defined.

End OfflineFacts.

(** ** Campaign manager: creation, unknown campaigns, stopping *)

Module ManagerFacts.
Import Mongo CampaignManager StatusFacts ReplyFacts StoreFacts.
Local Open Scope Z_scope.

Lemma with_same_campaigns (s : store) :
  Db.with_documents Campaigns (campaigns s) s = s.
Proof. by destruct s. Qed.

Section WithServices.
Context {W : Type} (twitter : TwitterApi W) (ai : AiServices W).

(** X15: a campaign that [create_campaign] reports as created is stored
    as a draft and can be found again by the identifier that was returned.
    The returned [campaign_id] is a well-formed [ObjectId] string; the
    document found under it is the last of the collection, has the status
    [draft], zero replies and zero clicks, and the name and the short link
    of the request; the campaigns that were there before are found as
    before.  The identifier that the store hands out is assumed not to be
    taken. *)
Theorem created_campaign_is_a_draft_found_by_its_id campaign_data now
    (st st' : state W) result :
  create_campaign campaign_data now st = (Ok result, st') →
  result !! "success" = Some (VBool true) →
  (∀ d : doc, d ∈ campaigns (st_store st) →
     d !! "_id" ≠ Some (VOid (fresh_id (next_id (st_store st))))) →
  ∃ campaign_id oid campaign,
    result !! "campaign_id" = Some (VStr campaign_id) ∧
    ObjectId campaign_id = Ok oid ∧
    find_one (by_id oid) (campaigns (st_store st')) = Some campaign ∧
    campaign !! "status" = Some (VStr "draft") ∧
    campaign !! "total_replies" = Some (VInt 0) ∧
    campaign !! "total_clicks" = Some (VInt 0) ∧
    campaign !! "name" = campaign_data !! "name" ∧
    campaign !! "short_url" = campaign_data !! "short_url" ∧
    campaigns (st_store st') = campaigns (st_store st) ++ [campaign] ∧
    (∀ other d, find_one (by_id other) (campaigns (st_store st)) = Some d →
       find_one (by_id other) (campaigns (st_store st')) = Some d).
Proof.
  unfold create_campaign, try_except.
  unfold bind at 1. unfold lift at 1. unfold getitem at 1.
  destruct (campaign_data !! "name") as [name|] eqn:Hname; [|by intros [= <- _]].
  repeat (unfold bind at 1; unfold lift at 1;
          match goal with
          | |- context [getitem campaign_data ?k] =>
              destruct (getitem campaign_data k) eqn:?; [|by intros [= <- _]]
          end).
  unfold bind at 1. unfold Db.insert_one at 1. cbn [Db.documents].
  unfold with_id.
  match goal with |- context [dict ?l] => set (c := dict l) end.
  assert (c !! "_id" = None) as -> by reflexivity.
  unfold ret. cbn [str_of_id].
  intros [= <- <-] _ Hfresh.
  set (id := fresh_id (next_id (st_store st))) in *.
  exists id, (VOid id), (<["_id" := VOid id]> c).
  cbn [st_store Db.with_documents campaigns].
  split_and!.
  - done.
  - apply ObjectId_fresh_id.
  - apply find_one_app_new.
    + intros x Hx. rewrite matches_by_oid. apply bool_decide_eq_false, Hfresh, Hx.
    + rewrite matches_by_oid. apply bool_decide_eq_true. by rewrite lookup_insert_eq.
  - by rewrite lookup_insert_ne.
  - by rewrite lookup_insert_ne.
  - by rewrite lookup_insert_ne.
  - rewrite lookup_insert_ne by done. done.
  - rewrite lookup_insert_ne by done.
    match goal with H : getitem campaign_data "short_url" = Ok ?v |- _ =>
      unfold getitem in H; destruct (campaign_data !! "short_url"); [|done];
      injection H as -> end.
    done.
  - done.
  - intros other d. apply find_one_app_old.
Qed.

(** X16: starting or stopping a campaign that does not exist is reported
    as a success.  For a well-formed identifier under which no campaign is
    stored, [stop_campaign] answers [success: True] and changes nothing,
    and [start_campaign], with an authenticated adapter, answers
    [success: True], changes no document and still schedules the
    analysis task for the identifier. *)
Theorem unknown_campaign_is_reported_started_and_stopped campaign_id now oid
    (st : state W) :
  ObjectId campaign_id = Ok oid →
  find_one (by_id oid) (campaigns (st_store st)) = None →
  stop_campaign campaign_id now st
    = (Ok {[ "success" := VBool true; "campaign_id" := VStr campaign_id ]}, st)
  ∧ (api_is_authenticated twitter (st_world st) = true →
     start_campaign twitter campaign_id now st
     = (Ok {[ "success" := VBool true; "campaign_id" := VStr campaign_id ]},
        State (st_store st) (st_world st) (st_tasks st ++ [campaign_id]))).
Proof.
  intros Hoid Hnone. split.
  - unfold stop_campaign, try_except, bind, lift, ret, Db.update_one.
    rewrite Hoid. cbn [Db.documents]. rewrite update_one_status.
    rewrite update_first_no_match by done. rewrite with_same_campaigns.
    by destruct st.
  - intros Hauth.
    unfold start_campaign, try_except, bind, lift, ret, Db.update_one, Db.create_task.
    rewrite Hauth. cbn [negb]. rewrite Hoid. cbn [Db.documents].
    rewrite update_one_status.
    rewrite update_first_no_match by done. by rewrite with_same_campaigns.
Qed.

(** X17: once a campaign was stopped, the reply step does nothing for it.
    After [stop_campaign] on a stored campaign, [process_pending_reply]
    answers with the error [Campaign not active] and leaves the store and
    the world as the stop left them: nothing is generated, posted or
    recorded, whatever is pending. *)
Theorem stopped_campaign_gets_no_reply campaign_id now later oid campaign
    (st : state W) :
  ObjectId campaign_id = Ok oid →
  find_one (by_id oid) (campaigns (st_store st)) = Some campaign →
  process_pending_reply twitter ai campaign_id later
                        (stop_campaign campaign_id now st).2
  = (Ok (failure "Campaign not active"), (stop_campaign campaign_id now st).2).
Proof.
  intros Hoid Hfind. rewrite stop_campaign_state, Hoid.
  unfold process_pending_reply, try_except, process_pending_reply_body.
  unfold bind at 1. unfold lift at 1. rewrite Hoid.
  unfold bind at 1. unfold Db.find_one at 1.
  cbn [Db.documents st_store Db.with_documents campaigns].
  rewrite (update_first_status oid "paused" now _ campaign Hfind).
  destruct (decide (with_status "paused" now campaign = ∅)) as [Hempty|_].
  { pose proof (with_status_status "paused" now campaign) as Hs.
    by rewrite Hempty, lookup_empty in Hs. }
  unfold bind at 1. unfold lift at 1. unfold getitem at 1.
  rewrite with_status_status. done.
Qed.

End WithServices.

Lemma created_campaign_is_a_draft_found_by_its_id_witness :
  ∃ campaign_id oid campaign,
    ({[ "success" := VBool true; "campaign_id" := VStr Scenario.first_id ]} : doc)
      !! "campaign_id" = Some (VStr campaign_id) ∧
    ObjectId campaign_id = Ok oid ∧
    find_one (by_id oid) (campaigns (st_store (Scenario.drafted 50 false)))
      = Some campaign ∧
    campaign !! "status" = Some (VStr "draft") ∧
    campaign !! "total_replies" = Some (VInt 0) ∧
    campaign !! "total_clicks" = Some (VInt 0) ∧
    campaign !! "name" = Scenario.campaign_data 50 false !! "name" ∧
    campaign !! "short_url" = Scenario.campaign_data 50 false !! "short_url" ∧
    campaigns (st_store (Scenario.drafted 50 false))
      = campaigns (st_store (Scenario.fresh Scenario.logged_in)) ++ [campaign] ∧
    (∀ other d,
       find_one (by_id other) (campaigns (st_store (Scenario.fresh Scenario.logged_in)))
         = Some d →
       find_one (by_id other) (campaigns (st_store (Scenario.drafted 50 false)))
         = Some d).
Proof.
  apply (created_campaign_is_a_draft_found_by_its_id
           (Scenario.campaign_data 50 false) (10 * Scenario.day)
           (Scenario.fresh Scenario.logged_in) (Scenario.drafted 50 false)
           {[ "success" := VBool true; "campaign_id" := VStr Scenario.first_id ]}).
  - compute_done.
  - compute_done.
  - intros d Hd. by apply elem_of_nil in Hd.
Defined.

Lemma unknown_campaign_is_reported_started_and_stopped_witness :
  stop_campaign (fresh_id 7) Scenario.noon (Scenario.started 50 false)
    = (Ok {[ "success" := VBool true; "campaign_id" := VStr (fresh_id 7) ]},
       Scenario.started 50 false)
  ∧ (api_is_authenticated (Scenario.twitter Scenario.replying)
                          (st_world (Scenario.started 50 false)) = true →
     start_campaign (Scenario.twitter Scenario.replying) (fresh_id 7) Scenario.noon
                    (Scenario.started 50 false)
     = (Ok {[ "success" := VBool true; "campaign_id" := VStr (fresh_id 7) ]},
        State (st_store (Scenario.started 50 false))
              (st_world (Scenario.started 50 false))
              (st_tasks (Scenario.started 50 false) ++ [fresh_id 7]))).
Proof.
  apply (unknown_campaign_is_reported_started_and_stopped
           (Scenario.twitter Scenario.replying) (fresh_id 7) Scenario.noon
           (VOid (fresh_id 7)) (Scenario.started 50 false)).
  - apply ObjectId_fresh_id.
  - compute_done.
Defined.

Lemma stopped_campaign_gets_no_reply_witness :
  process_pending_reply (Scenario.twitter Scenario.replying)
                        (Scenario.ai Scenario.replying)
                        Scenario.first_id Scenario.noon Scenario.paused
  = (Ok (failure "Campaign not active"), Scenario.paused).
Proof.
  apply (stopped_campaign_gets_no_reply
           (Scenario.twitter Scenario.replying) (Scenario.ai Scenario.replying)
           Scenario.first_id (10 * Scenario.day) Scenario.noon
           (VOid Scenario.first_id)
           (Scenario.the_campaign (Scenario.started 50 false))
           (Scenario.started 50 false)).
  - apply ObjectId_fresh_id.
  - compute_done.
Defined.

End ManagerFacts.

(** ** Campaign manager: the reply step in full *)

Module StepFacts.
Import Mongo AutoReplier CampaignManager StatusFacts ReplyFacts StoreFacts.
Local Open Scope Z_scope.

Lemma reply_doc_fields oid pending_post campaign result now reply success :
  reply_doc oid pending_post campaign result now = Ok reply →
  result !! "success" = Some success →
  reply !! "status" = Some (VStr (settled success)) ∧
  reply !! "posted_at" = Some (if truthy success then VTime now else VNone) ∧
  reply !! "dry_run" = Some (get_default result "dry_run" (VBool false)) ∧
  reply !! "reply_text" = Some (get result "reply_text").
Proof.
  unfold reply_doc, and_then, getitem.
  destruct (pending_post !! "username"); [|done].
  destruct (pending_post !! "tweet_id"); [|done].
  destruct (pending_post !! "text"); [|done].
  destruct (campaign !! "short_url"); [|done].
  intros Hr Hs. rewrite Hs in Hr. injection Hr as <-. by split_and!.
Qed.

Section WithServices.
Context {W : Type} (twitter : TwitterApi W) (ai : AiServices W).

Lemma reply_step campaign_id now oid campaign pending_post
    tweet_id target_user target_text post_id short_url total result success w1
    (st : state W) :
  ObjectId campaign_id = Ok oid →
  find_one (by_id oid) (campaigns (st_store st)) = Some campaign →
  campaign !! "status" = Some (VStr "active") →
  campaign !! "short_url" = Some short_url →
  campaign !! "total_replies" = Some (VInt total) →
  find_one (pending_posts_of oid) (matched_posts (st_store st)) = Some pending_post →
  pending_post !! "tweet_id" = Some tweet_id →
  pending_post !! "username" = Some target_user →
  pending_post !! "text" = Some target_text →
  pending_post !! "_id" = Some post_id →
  find_one (posted_replies_to oid tweet_id) (campaign_replies (st_store st)) = None →
  post_reply twitter ai pending_post campaign
             (get_default campaign "dry_run" (VBool false)) (st_world st)
    = (Ok result, w1) →
  result !! "success" = Some success →
  ∃ reply,
    reply_doc oid pending_post campaign result now = Ok reply ∧
    process_pending_reply twitter ai campaign_id now st
    = (Ok result,
       State (Store
                (if counted result success
                 then update_first (by_id oid)
                        (λ d, <["total_replies" := VInt (total + 1)]> d)
                        (campaigns (st_store st))
                 else campaigns (st_store st))
                (update_first (by_id post_id)
                   (set_fields [("reply_status", VStr (settled success))])
                   (matched_posts (st_store st)))
                (campaign_replies (st_store st)
                 ++ [<["_id" := VOid (fresh_id (next_id (st_store st)))]> reply])
                (N.succ (next_id (st_store st))))
             w1 (st_tasks st)).
Proof.
  intros Hoid Hcampaign Hstatus Hurl Htotal Hpost Htid Huser Htext Hpid Hnone
         Hreply Hsuccess.
  assert (∃ reply, reply_doc oid pending_post campaign result now = Ok reply
                   ∧ reply !! "_id" = None) as (reply & Hdoc & Hnoid).
  { unfold reply_doc, and_then, getitem.
    rewrite Huser, Htid, Htext, Hurl, Hsuccess. eexists. split; [reflexivity|].
    reflexivity. }
  exists reply. split; [done|].
  unfold process_pending_reply, try_except, process_pending_reply_body.
  unfold bind at 1. unfold lift at 1. rewrite Hoid.
  unfold bind at 1. unfold Db.find_one at 1. cbn [Db.documents].
  rewrite Hcampaign.
  destruct (decide (campaign = ∅)) as [->|_];
    [by rewrite lookup_empty in Hstatus|].
  unfold bind at 1. unfold lift at 1. unfold getitem at 1. rewrite Hstatus.
  rewrite bool_decide_true by done. cbn [negb].
  unfold bind at 1. unfold Db.find_one at 1. cbn [Db.documents].
  rewrite Hpost.
  destruct (decide (pending_post = ∅)) as [->|_];
    [by rewrite lookup_empty in Htid|].
  unfold bind at 1. unfold lift at 1. unfold getitem at 1. rewrite Htid.
  unfold bind at 1. unfold Db.find_one at 1. cbn [Db.documents].
  rewrite Hnone.
  unfold bind at 1. unfold lift at 1. unfold getitem at 1. rewrite Huser.
  unfold bind at 1. unfold Db.on_world at 1. rewrite Hreply.
  unfold bind at 1. unfold lift at 1. rewrite Hdoc.
  unfold bind at 1. unfold Db.insert_one at 1.
  cbn [st_store st_world st_tasks Db.documents].
  unfold with_id. rewrite Hnoid.
  unfold bind at 1. unfold lift at 1. unfold getitem at 1. rewrite Hpid.
  unfold bind at 1. unfold lift at 1. unfold getitem at 1. rewrite Hsuccess.
  unfold bind at 1. unfold Db.update_one at 1.
  unfold mark. rewrite update_one_set.
  unfold bind at 1. unfold lift at 1. unfold getitem at 1. rewrite Hsuccess.
  fold (settled success). fold (counted result success).
  cbn [st_store st_world st_tasks Db.documents Db.with_documents campaigns
       matched_posts campaign_replies next_id].
  destruct (counted result success).
  - unfold bind at 1. unfold Db.update_one at 1.
    cbn [st_store st_world st_tasks Db.documents Db.with_documents campaigns
         matched_posts campaign_replies next_id].
    rewrite (update_one_inc _ _ total 1 _ campaign Hcampaign Htotal). reflexivity.
  - reflexivity.
Qed.

(** X18: what one reply step does when a reply is attempted.  For an
    active campaign whose first pending post has no posted reply yet, and
    for the result that [post_reply] gives, [process_pending_reply] returns
    that result and writes three things.  It appends one ledger entry for
    the campaign and the tweet, with the status [posted] or [failed] after
    the result, the time of the step as [posted_at] only on success, and
    the dry-run flag of the result.  It sets the [reply_status] of the
    selected post to the same [posted] or [failed], so that the campaign has
    one pending post less, also when posting failed: a failed post is not
    tried again.  It adds one to [total_replies] of the campaign when the
    result is a success that is not a dry run, and leaves the campaign as it
    is otherwise. *)
Theorem reply_step_settles_the_selected_post campaign_id now oid campaign
    pending_post tweet_id target_user target_text post_id short_url total
    result success w1 (st : state W) :
  ObjectId campaign_id = Ok oid →
  find_one (by_id oid) (campaigns (st_store st)) = Some campaign →
  campaign !! "status" = Some (VStr "active") →
  campaign !! "short_url" = Some short_url →
  campaign !! "total_replies" = Some (VInt total) →
  find_one (pending_posts_of oid) (matched_posts (st_store st)) = Some pending_post →
  pending_post !! "tweet_id" = Some tweet_id →
  pending_post !! "username" = Some target_user →
  pending_post !! "text" = Some target_text →
  pending_post !! "_id" = Some post_id →
  find_one (by_id post_id) (matched_posts (st_store st)) = Some pending_post →
  find_one (posted_replies_to oid tweet_id) (campaign_replies (st_store st)) = None →
  post_reply twitter ai pending_post campaign
             (get_default campaign "dry_run" (VBool false)) (st_world st)
    = (Ok result, w1) →
  result !! "success" = Some success →
  let step := process_pending_reply twitter ai campaign_id now st in
  step.1 = Ok result ∧
  st_world step.2 = w1 ∧
  (∃ reply,
     campaign_replies (st_store step.2) = campaign_replies (st_store st) ++ [reply] ∧
     reply !! "campaign_id" = Some oid ∧
     reply !! "target_tweet_id" = Some tweet_id ∧
     reply !! "status" = Some (VStr (settled success)) ∧
     reply !! "posted_at" = Some (if truthy success then VTime now else VNone) ∧
     reply !! "dry_run" = Some (get_default result "dry_run" (VBool false))) ∧
  find_one (by_id post_id) (matched_posts (st_store step.2))
    = Some (<["reply_status" := VStr (settled success)]> pending_post) ∧
  count_documents (pending_posts_of oid) (matched_posts (st_store step.2))
    = count_documents (pending_posts_of oid) (matched_posts (st_store st)) - 1 ∧
  find_one (by_id oid) (campaigns (st_store step.2))
    = Some (if counted result success
            then <["total_replies" := VInt (total + 1)]> campaign
            else campaign).
Proof.
  intros Hoid Hcampaign Hstatus Hurl Htotal Hpost Htid Huser Htext Hpid Hunique
         Hnone Hreply Hsuccess step.
  destruct (reply_step campaign_id now oid campaign pending_post tweet_id
              target_user target_text post_id short_url total result success w1 st)
    as (reply & Hdoc & Hstep); try done.
  subst step. rewrite Hstep. cbn [fst snd st_store st_world campaigns
                                  matched_posts campaign_replies].
  destruct (reply_doc_target _ _ _ _ _ _ Hdoc) as (Hcid & Htarget & _).
  destruct (reply_doc_fields _ _ _ _ _ _ _ Hdoc Hsuccess) as (Hst & Hat & Hdry & _).
  split_and!; try done.
  - eexists. split; [reflexivity|].
    rewrite !lookup_insert_ne by done. by rewrite Htarget.
  - apply (update_first_find _ _ _ pending_post Hunique).
    rewrite matches_set_fields_id; [by apply find_one_matches in Hunique|].
    cbn. by intros H%list_elem_of_singleton.
  - apply (count_update_first _ _ _ _ pending_post Hunique).
    + by apply find_one_matches in Hpost.
    + unfold matches, pending_posts_of, set_fields. cbn [forallb fold_left].
      rewrite lookup_insert_eq. cbn [holds].
      rewrite (bool_decide_false (VStr (settled success) = VStr "pending")).
      * by rewrite andb_false_r.
      * unfold settled. by destruct (truthy success).
  - destruct (counted result success); [|done].
    apply (update_first_find _ _ _ campaign Hcampaign).
    pose proof (find_one_matches _ _ _ Hcampaign) as Hm.
    unfold matches, by_id in *. cbn [forallb] in *.
    by rewrite lookup_insert_ne.
Qed.

End WithServices.

Lemma reply_step_settles_the_selected_post_witness :
  (process_pending_reply (Scenario.twitter Scenario.replying)
                         (Scenario.ai Scenario.replying)
                         Scenario.first_id Scenario.noon
                         (Scenario.started 50 false)).1
    = Ok (posted_outcome "Nice thread!" (VStr "0")
                         (VStr "https://x.com/admin/status/0")) ∧
  st_world Scenario.one_reply
    = Scenario.Platform true [("Nice thread!", VStr "101")] ∧
  (∃ reply,
     campaign_replies (st_store Scenario.one_reply)
       = campaign_replies (st_store (Scenario.started 50 false)) ++ [reply] ∧
     reply !! "campaign_id" = Some (VOid Scenario.first_id) ∧
     reply !! "target_tweet_id" = Some (VStr "101") ∧
     reply !! "status" = Some (VStr (settled (VBool true))) ∧
     reply !! "posted_at" = Some (VTime Scenario.noon) ∧
     reply !! "dry_run"
       = Some (get_default
                 (posted_outcome "Nice thread!" (VStr "0")
                                 (VStr "https://x.com/admin/status/0"))
                 "dry_run" (VBool false))) ∧
  find_one (by_id (VOid (fresh_id 1))) (matched_posts (st_store Scenario.one_reply))
    = Some (<["reply_status" := VStr (settled (VBool true))]>
              (Scenario.first_post (Scenario.started 50 false))) ∧
  count_documents (pending_posts_of (VOid Scenario.first_id))
                  (matched_posts (st_store Scenario.one_reply))
    = count_documents (pending_posts_of (VOid Scenario.first_id))
                      (matched_posts (st_store (Scenario.started 50 false))) - 1 ∧
  find_one (by_id (VOid Scenario.first_id)) (campaigns (st_store Scenario.one_reply))
    = Some (<["total_replies" := VInt (0 + 1)]>
              (Scenario.the_campaign (Scenario.started 50 false))).
Proof.
  exact (reply_step_settles_the_selected_post
           (Scenario.twitter Scenario.replying) (Scenario.ai Scenario.replying)
           Scenario.first_id Scenario.noon (VOid Scenario.first_id)
           (Scenario.the_campaign (Scenario.started 50 false))
           (Scenario.first_post (Scenario.started 50 false))
           (VStr "101") (VStr "alice") (VStr "Learning Rust") (VOid (fresh_id 1))
           (VStr "https://sho.rt/r") 0
           (posted_outcome "Nice thread!" (VStr "0")
                           (VStr "https://x.com/admin/status/0"))
           (VBool true)
           (Scenario.Platform true [("Nice thread!", VStr "101")])
           (Scenario.started 50 false)
           ltac:(apply ObjectId_fresh_id) ltac:(compute_done)
           ltac:(compute_done) ltac:(compute_done) ltac:(compute_done)
           ltac:(compute_done) ltac:(compute_done) ltac:(compute_done)
           ltac:(compute_done) ltac:(compute_done) ltac:(compute_done)
           ltac:(compute_done) ltac:(compute_done) ltac:(compute_done)).
Defined.

End StepFacts.

(** ** Campaign manager: the status view *)

Module StatusViewFacts.
Import Mongo CampaignManager StatusFacts ReplyFacts StoreFacts.
Local Open Scope Z_scope.

Lemma posted_today_is_posted oid now d :
  matches (RateLimiter.posted_today oid now) d = true →
  matches (posted_replies_of oid) d = true.
Proof.
  unfold matches, RateLimiter.posted_today, posted_replies_of. cbn [forallb].
  rewrite !andb_true_iff. intros (? & ? & ? & ? & ?). done.
Qed.

Lemma holds_oid o field :
  holds (CEq (VOid o)) field = true ↔ field = Some (VOid o).
Proof.
  destruct field as [[]|]; cbn [holds]; rewrite ?orb_false_r;
    rewrite bool_decide_eq_true; split; congruence.
Qed.

Lemma holds_string s field :
  holds (CEq (VStr s)) field = true ↔
  field = Some (VStr s) ∨ ∃ l, field = Some (VStrs l) ∧ s ∈ l.
Proof.
  destruct field as [[]|]; cbn [holds];
    try (rewrite bool_decide_eq_true; split;
         [intros [= ->]; by left | intros [[= ->]|(l & [= ] & _)]; done]).
  rewrite orb_true_iff, !bool_decide_eq_true. split.
  - intros [[= ]|Hin]. right. by eexists.
  - intros [[= ]|(l' & [= <-] & Hin)]. by right.
Qed.

Lemma posted_replies_of_matches o (r : doc) :
  matches (posted_replies_of (VOid o)) r = true ↔
  r !! "campaign_id" = Some (VOid o) ∧
  (r !! "status" = Some (VStr "posted")
   ∨ ∃ l, r !! "status" = Some (VStrs l) ∧ "posted" ∈ l).
Proof.
  unfold matches, posted_replies_of. cbn [forallb].
  rewrite !andb_true_iff, holds_oid, holds_string. tauto.
Qed.

Lemma dry_run_not_counted_today o now (r : doc) :
  r !! "dry_run" = Some (VBool true) →
  matches (RateLimiter.posted_today (VOid o) now) r = false.
Proof.
  intros Hdry. unfold matches, RateLimiter.posted_today. cbn [forallb].
  rewrite Hdry. cbn [holds]. rewrite (bool_decide_false (VBool true = VBool false)) by done.
  by rewrite !andb_false_r.
Qed.

Lemma count_documents_snoc q l (d : doc) :
  count_documents q (l ++ [d])
  = count_documents q l + (if matches q d then 1 else 0).
Proof.
  unfold count_documents. rewrite List.filter_app, length_app. cbn [List.filter].
  destruct (matches q d); cbn [length]; lia.
Qed.

(** X19: what [get_campaign_status] reports.  A successful answer leaves
    the state as it was and belongs to a stored campaign, whose status it
    repeats.  Its [pending_posts] is the number of pending posts of the
    campaign, zero exactly when the reply step would find none.  Its
    [posted_replies] is the number of ledger entries of the campaign with
    the status [posted]: the flag [dry_run] and the date play no part, so
    that a posted dry run adds one to it and nothing to the count of the
    rate limiter for the day, below which it never is. *)
Theorem campaign_status_counts {W} campaign_id (st st' : state W) result :
  get_campaign_status campaign_id st = (Ok result, st') →
  result !! "success" = Some (VBool true) →
  st' = st ∧
  ∃ o campaign,
    let ledger := campaign_replies (st_store st) in
    let posted := count_documents (posted_replies_of (VOid o)) ledger in
    let pending :=
      count_documents (pending_posts_of (VOid o)) (matched_posts (st_store st)) in
    ObjectId campaign_id = Ok (VOid o) ∧
    find_one (by_id (VOid o)) (campaigns (st_store st)) = Some campaign ∧
    result !! "status" = campaign !! "status" ∧
    result !! "pending_posts" = Some (VInt pending) ∧
    result !! "posted_replies" = Some (VInt posted) ∧
    (pending = 0 ↔
       find_one (pending_posts_of (VOid o)) (matched_posts (st_store st)) = None) ∧
    (∀ r : doc, matches (posted_replies_of (VOid o)) r = true ↔
          r !! "campaign_id" = Some (VOid o) ∧
          (r !! "status" = Some (VStr "posted")
           ∨ ∃ l, r !! "status" = Some (VStrs l) ∧ "posted" ∈ l)) ∧
    (∀ (r : doc) now,
       r !! "campaign_id" = Some (VOid o) →
       r !! "status" = Some (VStr "posted") →
       r !! "dry_run" = Some (VBool true) →
       count_documents (posted_replies_of (VOid o)) (ledger ++ [r]) = posted + 1 ∧
       count_documents (RateLimiter.posted_today (VOid o) now) (ledger ++ [r])
       = count_documents (RateLimiter.posted_today (VOid o) now) ledger) ∧
    (∀ now, count_documents (RateLimiter.posted_today (VOid o) now) ledger
            <= posted).
Proof.
  unfold get_campaign_status, try_except.
  unfold bind at 1. unfold lift at 1.
  destruct (ObjectId campaign_id) as [oid|e] eqn:Hoid; [|by intros [= <- _]].
  destruct (ObjectId_VOid _ _ Hoid) as [o ->].
  unfold bind at 1. unfold Db.find_one at 1. cbn [Db.documents].
  destruct (find_one (by_id (VOid o)) (campaigns (st_store st)))
    as [campaign|] eqn:Hc; [|by intros [= <- _]].
  destruct (decide (campaign = ∅)) as [|_]; [by intros [= <- _]|].
  unfold bind at 1. unfold Db.count_documents at 1. cbn [Db.documents].
  unfold bind at 1. unfold Db.count_documents at 1. cbn [Db.documents].
  unfold bind at 1. unfold lift at 1.
  destruct (getitem campaign "_id") as [id|e]; [|by intros [= <- _]].
  unfold bind at 1. unfold lift at 1.
  destruct (getitem campaign "name") as [name|e]; [|by intros [= <- _]].
  unfold bind at 1. unfold lift at 1. unfold getitem at 1.
  destruct (campaign !! "status") as [status|] eqn:Hs; [|by intros [= <- _]].
  unfold ret. intros [= <- <-] _. split; [done|].
  exists o, campaign. cbv zeta.
  split_and!; [done | done | | reflexivity | reflexivity | | | |].
  - by rewrite Hs.
  - apply count_documents_none.
  - apply posted_replies_of_matches.
  - intros r now Hcid Hstatus Hdry. rewrite !count_documents_snoc.
    rewrite (proj2 (posted_replies_of_matches o r)) by (split; [done | by left]).
    rewrite dry_run_not_counted_today by done. split; lia.
  - intros now. apply count_documents_mono, posted_today_is_posted.
Qed.

Lemma campaign_status_counts_witness :
  Scenario.one_reply = Scenario.one_reply ∧
  ∃ o campaign,
    ObjectId Scenario.first_id = Ok (VOid o) ∧
    find_one (by_id (VOid o)) (campaigns (st_store Scenario.one_reply))
      = Some campaign ∧
    Scenario.answer_of (get_campaign_status Scenario.first_id Scenario.one_reply).1
      !! "status" = campaign !! "status" ∧
    Scenario.answer_of (get_campaign_status Scenario.first_id Scenario.one_reply).1
      !! "pending_posts"
      = Some (VInt (count_documents (pending_posts_of (VOid o))
                      (matched_posts (st_store Scenario.one_reply)))) ∧
    Scenario.answer_of (get_campaign_status Scenario.first_id Scenario.one_reply).1
      !! "posted_replies"
      = Some (VInt (count_documents (posted_replies_of (VOid o))
                      (campaign_replies (st_store Scenario.one_reply)))) ∧
    (count_documents (pending_posts_of (VOid o))
       (matched_posts (st_store Scenario.one_reply)) = 0 ↔
     find_one (pending_posts_of (VOid o))
              (matched_posts (st_store Scenario.one_reply)) = None) ∧
    (∀ r : doc, matches (posted_replies_of (VOid o)) r = true ↔
          r !! "campaign_id" = Some (VOid o) ∧
          (r !! "status" = Some (VStr "posted")
           ∨ ∃ l, r !! "status" = Some (VStrs l) ∧ "posted" ∈ l)) ∧
    (∀ (r : doc) now,
       r !! "campaign_id" = Some (VOid o) →
       r !! "status" = Some (VStr "posted") →
       r !! "dry_run" = Some (VBool true) →
       count_documents (posted_replies_of (VOid o))
         (campaign_replies (st_store Scenario.one_reply) ++ [r])
       = count_documents (posted_replies_of (VOid o))
           (campaign_replies (st_store Scenario.one_reply)) + 1 ∧
       count_documents (RateLimiter.posted_today (VOid o) now)
         (campaign_replies (st_store Scenario.one_reply) ++ [r])
       = count_documents (RateLimiter.posted_today (VOid o) now)
           (campaign_replies (st_store Scenario.one_reply))) ∧
    (∀ now, count_documents (RateLimiter.posted_today (VOid o) now)
              (campaign_replies (st_store Scenario.one_reply))
            <= count_documents (posted_replies_of (VOid o))
                 (campaign_replies (st_store Scenario.one_reply))).
Proof.
  apply (campaign_status_counts Scenario.first_id Scenario.one_reply
           Scenario.one_reply
           (Scenario.answer_of
              (get_campaign_status Scenario.first_id Scenario.one_reply).1)).
  - compute_done.
  - compute_done.
Defined.

End StatusViewFacts.

(** ** Task scheduler: the look-up by a string *)

Module SchedulerFacts.
Import Mongo CampaignManager TaskScheduler StatusFacts ReplyFacts StoreFacts.
Local Open Scope Z_scope.

Section WithServices.
Context {W : Type} (twitter : TwitterApi W) (ai : AiServices W).
Context (str_of_datetime : Z → string) (str_of_list : list string → string).

Lemma process_campaign_no_campaign campaign_id now (st : state W) :
  oid_keyed (campaigns (st_store st)) →
  process_campaign twitter ai campaign_id now st = (Ok (), st).
Proof.
  intros Hk. unfold process_campaign, try_except, bind, Db.find_one.
  cbn [Db.documents]. by rewrite find_by_string.
Qed.

Lemma campaigns_loop_no_campaign active clock i (st : state W) :
  oid_keyed (campaigns (st_store st)) →
  ∃ r, campaigns_loop twitter ai str_of_datetime str_of_list active clock i st
       = (r, st).
Proof.
  intros Hk. revert i. induction active as [|c active IH]; intros i.
  - by eexists.
  - cbn [campaigns_loop]. unfold bind at 1. unfold lift at 1.
    destruct (getitem c "_id") as [id|e]; [|by eexists].
    unfold bind at 1. rewrite process_campaign_no_campaign by done. apply IH.
Qed.

(** X20: the scheduler's job posts nothing for campaigns that the manager
    stored.  [process_campaign] looks the campaign up under the string
    [campaign_id], not under an [ObjectId]; when every stored campaign
    carries an [ObjectId] as its [_id], as [insert_one] assigns them, the
    look-up finds nothing and the method returns before the rate limiter
    and the reply step are reached.  [process_campaign], for every
    identifier, and [process_all_campaigns] therefore return without an
    exception and leave the store and the world unchanged. *)
Theorem scheduler_finds_no_campaign clock (st : state W) :
  oid_keyed (campaigns (st_store st)) →
  (∀ campaign_id now,
     process_campaign twitter ai campaign_id now st = (Ok (), st)) ∧
  process_all_campaigns twitter ai str_of_datetime str_of_list clock st
    = (Ok (), st).
Proof.
  intros Hk. split; [intros; by apply process_campaign_no_campaign|].
  unfold process_all_campaigns, try_except. unfold bind at 1. unfold Db.find at 1.
  destruct (List.filter _ _) as [|c active]; [done|].
  destruct (campaigns_loop_no_campaign (c :: active) clock 0%nat st Hk) as [r ->].
  by destruct r as [[]|].
Qed.

Lemma create_campaign_campaigns campaign_data now (st : state W) :
  campaigns (st_store (create_campaign campaign_data now st).2)
  = campaigns (st_store st)
  ∨ ∃ (campaign : doc) o,
      campaign !! "_id" = Some (VOid o) ∧
      campaigns (st_store (create_campaign campaign_data now st).2)
      = campaigns (st_store st) ++ [campaign].
Proof.
  unfold create_campaign, try_except.
  repeat (unfold bind at 1; unfold lift at 1;
          match goal with
          | |- context [getitem campaign_data ?k] =>
              destruct (getitem campaign_data k); [|by left]
          end).
  unfold bind at 1. unfold Db.insert_one at 1. cbn [Db.documents].
  unfold with_id.
  match goal with |- context [dict ?l] => set (c := dict l) end.
  assert (c !! "_id" = None) as -> by reflexivity.
  right. eexists _, _. split; [|reflexivity]. by rewrite lookup_insert_eq.
Qed.

Lemma process_pending_reply_campaigns campaign_id now (st : state W) :
  let st' := (process_pending_reply twitter ai campaign_id now st).2 in
  campaigns (st_store st') = campaigns (st_store st)
  ∨ ∃ oid l,
      Mongo.update_one (by_id oid) (UInc "total_replies" 1) (campaigns (st_store st))
        = Ok l ∧
      campaigns (st_store st') = l.
Proof.
  intros st'.
  assert (st' = (process_pending_reply twitter ai campaign_id now st).2) as Hst'
    by reflexivity.
  clearbody st'. revert Hst'.
  unfold process_pending_reply, try_except, process_pending_reply_body.
  unfold bind at 1. unfold lift at 1.
  destruct (ObjectId campaign_id) as [oid|e]; [|ledger_unchanged].
  unfold bind at 1. unfold Db.find_one at 1. cbn [Db.documents].
  destruct (find_one (by_id oid) (campaigns (st_store st))) as [campaign|];
    [|ledger_unchanged].
  destruct (decide (campaign = ∅)) as [|_]; [ledger_unchanged|].
  unfold bind at 1. unfold lift at 1.
  destruct (getitem campaign "status") as [status|e]; [|ledger_unchanged].
  destruct (negb (bool_decide (status = VStr "active"))); [ledger_unchanged|].
  unfold bind at 1. unfold Db.find_one at 1. cbn [Db.documents].
  destruct (find_one _ (matched_posts (st_store st))) as [pending_post|];
    [|ledger_unchanged].
  destruct (decide (pending_post = ∅)) as [|_]; [ledger_unchanged|].
  unfold bind at 1. unfold lift at 1.
  destruct (getitem pending_post "tweet_id") as [tweet_id|e]; [|ledger_unchanged].
  unfold bind at 1. unfold Db.find_one at 1. cbn [Db.documents].
  destruct (match find_one _ (campaign_replies (st_store st)) with
            | Some r => negb (bool_decide (r = ∅))
            | None => false
            end).
  - unfold bind at 1. unfold lift at 1.
    destruct (getitem pending_post "_id") as [post_id|e]; [|ledger_unchanged].
    unfold bind at 1. unfold Db.update_one at 1. cbn [Db.documents].
    unfold mark. rewrite update_one_set. ledger_unchanged.
  - unfold bind at 1. unfold lift at 1.
    destruct (getitem pending_post "username") as [uname|e]; [|ledger_unchanged].
    unfold bind at 1. unfold Db.on_world at 1.
    destruct (AutoReplier.post_reply twitter ai pending_post campaign _ (st_world st))
      as [[result|e] w1]; [|ledger_unchanged].
    unfold bind at 1. unfold lift at 1.
    destruct (reply_doc _ _ _ _ _) as [reply|e]; [|ledger_unchanged].
    unfold bind at 1. unfold Db.insert_one at 1.
    cbn [st_store st_world st_tasks Db.documents].
    destruct (with_id _ reply) as [reply' rid].
    unfold bind at 1. unfold lift at 1.
    destruct (getitem pending_post "_id") as [post_id|e]; [|ledger_unchanged].
    unfold bind at 1. unfold lift at 1.
    destruct (getitem result "success") as [success|e]; [|ledger_unchanged].
    unfold bind at 1. unfold Db.update_one at 1.
    unfold mark. rewrite update_one_set.
    unfold bind at 1. unfold lift at 1.
    destruct (truthy success && negb (truthy (get result "dry_run")));
      [|ledger_unchanged].
    unfold bind at 1. unfold Db.update_one at 1.
    cbn [st_store st_world st_tasks Db.documents Db.with_documents campaigns].
    destruct (Mongo.update_one (by_id oid) (UInc "total_replies" 1)
                (campaigns (st_store st))) as [l|e] eqn:Hl; [|ledger_unchanged].
    intros ->. right. by exists oid, l.
Qed.

(** X21: the campaigns stay keyed by [ObjectId].  Each of the four writes
    of the campaign manager that are modelled ([create_campaign],
    [start_campaign], [stop_campaign], [process_pending_reply]), in every
    outcome, leaves a store in which every campaign carries an [ObjectId]
    as its [_id] when this was so before.  The condition under which the
    scheduler finds no campaign is thus kept by the manager, from the empty
    store on. *)
Theorem manager_keeps_campaigns_keyed (st st' : state W) :
  manager_step twitter ai st st' →
  oid_keyed (campaigns (st_store st)) →
  oid_keyed (campaigns (st_store st')).
Proof.
  intros Hstep Hk. destruct Hstep as [data now st|cid now st|cid now st|cid now st].
  - destruct (create_campaign_campaigns data now st) as [->|(c & o & Hc & ->)];
      [done|].
    apply Forall_app. split; [done|]. constructor; [by exists o | constructor].
  - rewrite start_campaign_state.
    destruct (api_is_authenticated twitter (st_world st)); [|done].
    destruct (ObjectId cid); [|done]. cbn [st_store Db.with_documents campaigns].
    apply update_first_keyed; [apply with_status_id | done].
  - rewrite stop_campaign_state.
    destruct (ObjectId cid); [|done]. cbn [st_store Db.with_documents campaigns].
    apply update_first_keyed; [apply with_status_id | done].
  - destruct (process_pending_reply_campaigns cid now st)
      as [Heq|(oid & l & Hl & Heq)];
      cbv zeta in Heq; rewrite Heq; [done|].
    eapply update_one_inc_keyed; [|exact Hl|exact Hk]. done.
Qed.

End WithServices.

Lemma scheduler_finds_no_campaign_witness :
  (∀ campaign_id now,
     process_campaign (Scenario.twitter Scenario.replying)
                      (Scenario.ai Scenario.replying) campaign_id now
                      (Scenario.started 50 false)
     = (Ok (), Scenario.started 50 false)) ∧
  process_all_campaigns (Scenario.twitter Scenario.replying)
                        (Scenario.ai Scenario.replying)
                        (λ _, "2025-01-11 12:00:00") (λ _, "[]")
                        (λ _, Scenario.noon) (Scenario.started 50 false)
    = (Ok (), Scenario.started 50 false).
Proof.
  apply (scheduler_finds_no_campaign
           (Scenario.twitter Scenario.replying) (Scenario.ai Scenario.replying)
           (λ _, "2025-01-11 12:00:00") (λ _, "[]") (λ _, Scenario.noon)
           (Scenario.started 50 false)).
  apply oid_keyed_checked. vm_compute. reflexivity.
Defined.

Lemma manager_keeps_campaigns_keyed_witness :
  oid_keyed (campaigns (st_store Scenario.paused)).
Proof.
  apply (manager_keeps_campaigns_keyed
           (Scenario.twitter Scenario.replying) (Scenario.ai Scenario.replying)
           (Scenario.started 50 false) Scenario.paused).
  - exact (step_stop (Scenario.twitter Scenario.replying)
                     (Scenario.ai Scenario.replying)
                     Scenario.first_id (10 * Scenario.day)
                     (Scenario.started 50 false)).
  - apply oid_keyed_checked. vm_compute. reflexivity.
Defined.

End SchedulerFacts.

(** ** The provider of a stored campaign *)

Module ProviderFacts.
Import Mongo AutoReplier CampaignManager.

Lemma generate_reply_provider {W} (twitter : TwitterApi W) (ai : AiServices W)
    tweet_data (campaign : doc) model (w : W) :
  campaign !! "reply_model" = Some model →
  generate_reply twitter ai tweet_data
                 (<["ai_provider" := VStr "anthropic"]> campaign) w
  = generate_reply twitter ai tweet_data
                   (<["ai_provider" := VStr "openai"]> campaign) w.
Proof.
  intros Hmodel. unfold generate_reply, get_default, getitem.
  rewrite !lookup_insert_eq, !lookup_insert_ne by done.
  unfold bind at 1 3. unfold lift at 1 3.
  destruct (campaign !! "reply_template") as [template|]; [|done].
  unfold bind at 1 2. unfold lift at 1 2.
  destruct (campaign !! "short_url") as [short_url|]; [|done].
  rewrite (decide_False (P := VStr "anthropic" = VStr "grok")) by done.
  rewrite (decide_False (P := VStr "anthropic" = VStr "openai")) by done.
  rewrite (decide_True (P := VStr "anthropic" = VStr "anthropic")) by done.
  rewrite (decide_False (P := VStr "openai" = VStr "grok")) by done.
  rewrite (decide_True (P := VStr "openai" = VStr "openai")) by done.
  unfold _generate_with_llm, get_default.
  rewrite !lookup_insert_ne by done. by rewrite Hmodel.
Qed.

(** X22: for a campaign that [create_campaign] stored, the choice between
    the providers [openai] and [anthropic] changes nothing.  The stored
    campaign always has a [reply_model], the one of the request or
    [gpt-4]; [_generate_with_llm] takes the provider into account only
    to choose a model when the campaign has none, and hands no provider to
    the language-model service.  So [generate_reply] gives the same
    result, with the same calls of the service, whether the stored
    [ai_provider] is [anthropic] or [openai]: an Anthropic campaign without a
    model of its own is generated with the model [gpt-4]. *)
Theorem created_campaign_ignores_the_llm_provider {W} campaign_data now
    (st st' : state W) result :
  create_campaign campaign_data now st = (Ok result, st') →
  result !! "success" = Some (VBool true) →
  ∃ campaign,
    campaigns (st_store st') = campaigns (st_store st) ++ [campaign] ∧
    campaign !! "reply_model"
      = Some (get_default campaign_data "reply_model" (VStr "gpt-4")) ∧
    ∀ (twitter : TwitterApi W) (ai : AiServices W) tweet_data w,
      generate_reply twitter ai tweet_data
                     (<["ai_provider" := VStr "anthropic"]> campaign) w
      = generate_reply twitter ai tweet_data
                       (<["ai_provider" := VStr "openai"]> campaign) w.
Proof.
  unfold create_campaign, try_except.
  repeat (unfold bind at 1; unfold lift at 1;
          match goal with
          | |- context [getitem campaign_data ?k] =>
              destruct (getitem campaign_data k) eqn:?; [|by intros [= <- _]]
          end).
  unfold bind at 1. unfold Db.insert_one at 1. cbn [Db.documents].
  unfold with_id.
  match goal with |- context [dict ?l] => set (c := dict l) end.
  assert (c !! "_id" = None) as -> by reflexivity.
  unfold ret. intros [= <- <-] _.
  exists (<["_id" := VOid (fresh_id (next_id (st_store st)))]> c).
  cbn [st_store Db.with_documents campaigns].
  assert ((<["_id" := VOid (fresh_id (next_id (st_store st)))]> c) !! "reply_model"
          = Some (get_default campaign_data "reply_model" (VStr "gpt-4"))) as Hmodel.
  { by rewrite lookup_insert_ne. }
  split_and!; [done | done |].
  intros twitter ai tweet_data w. by eapply generate_reply_provider.
Qed.

Lemma created_campaign_ignores_the_llm_provider_witness :
  ∃ campaign,
    campaigns (st_store (Scenario.drafted 50 false))
      = campaigns (st_store (Scenario.fresh Scenario.logged_in)) ++ [campaign] ∧
    campaign !! "reply_model"
      = Some (get_default (Scenario.campaign_data 50 false) "reply_model"
                          (VStr "gpt-4")) ∧
    ∀ (twitter : TwitterApi Scenario.platform) (ai : AiServices Scenario.platform)
      tweet_data w,
      generate_reply twitter ai tweet_data
                     (<["ai_provider" := VStr "anthropic"]> campaign) w
      = generate_reply twitter ai tweet_data
                       (<["ai_provider" := VStr "openai"]> campaign) w.
Proof.
  apply (created_campaign_ignores_the_llm_provider
           (Scenario.campaign_data 50 false) (10 * Scenario.day)%Z
           (Scenario.fresh Scenario.logged_in) (Scenario.drafted 50 false)
           {[ "success" := VBool true; "campaign_id" := VStr Scenario.first_id ]}).
  - compute_done.
  - compute_done.
Defined.

End ProviderFacts.

(** ** Campaign logger: history and delivery *)

Module LoggerFacts.
Import CampaignLogger.

Lemma run_snoc calls c self : run (calls ++ [c]) self = perform c (run calls self).
Proof. unfold run. by rewrite fold_left_app. Qed.

Lemma logged_snoc campaign_id calls c :
  logged campaign_id (calls ++ [c])
  = logged campaign_id calls ++ option_list (entry_of campaign_id c).
Proof.
  unfold logged. rewrite omap_app. reflexivity.
Qed.

Lemma last_n_short {A} n (l : list A) : (length l <= n)%nat → last_n n l = l.
Proof. intros Hl. unfold last_n. by replace (length l - n)%nat with 0%nat by lia. Qed.

Lemma last_n_length {A} n (l : list A) : (length (last_n n l) <= n)%nat.
Proof. unfold last_n. rewrite length_drop. lia. Qed.

Lemma last_n_snoc {A} n (l : list A) e :
  (1 <= n)%nat → last_n n (last_n n l ++ [e]) = last_n n (l ++ [e]).
Proof.
  intros Hn. unfold last_n. rewrite !length_app, length_drop. cbn [length].
  destruct (decide (length l <= n)%nat) as [Hl|Hl].
  - replace (length l - n)%nat with 0%nat by lia. by rewrite drop_0, Nat.sub_0_r.
  - assert (length l - (length l - n) + 1 - n = 1)%nat as -> by lia.
    assert (length l + 1 - n = S (length l - n))%nat as -> by lia.
    rewrite (drop_app_le l [e] (S (length l - n))) by lia.
    rewrite (drop_app_le (drop (length l - n) l) [e] 1)
      by (rewrite length_drop; lia).
    f_equal. rewrite drop_drop. f_equal. lia.
Qed.

(** The history after a call of [log] for the campaign. *)
Lemma log_history campaign_id level message data now self :
  history_of (log campaign_id level message data now self) campaign_id
  = last_n _max_history
      (history_of self campaign_id
       ++ [{| timestamp := now; level := level; message := message;
              data := default ∅ data |}]).
Proof.
  unfold history_of at 1, log. cbn [_log_history]. rewrite lookup_insert_eq.
  cbn [from_option id].
  match goal with |- context [(_max_history <? ?n)%nat] =>
    destruct (Nat.ltb_spec _max_history n) as [Hlt|Hle] end.
  - done.
  - by rewrite last_n_short.
Qed.

Lemma perform_history campaign_id c self :
  history_of (perform c self) campaign_id
  = match entry_of campaign_id c with
    | Some entry => last_n _max_history (history_of self campaign_id ++ [entry])
    | None => history_of self campaign_id
    end.
Proof.
  destruct c as [c' level message data now|c'|c' q]; cbn [perform entry_of].
  - destruct (decide (c' = campaign_id)) as [->|Hne]; [apply log_history|].
    unfold history_of, log. cbn [_log_history]. by rewrite lookup_insert_ne.
  - unfold history_of, subscribe. cbn [snd _log_history].
    destruct (decide (c' = campaign_id)) as [->|Hne].
    + rewrite lookup_insert_eq. done.
    + by rewrite lookup_insert_ne.
  - unfold unsubscribe. by destruct (_subscribers self !! c').
Qed.

(** X23: the history of a campaign is the last hundred entries logged for
    it.  After any calls of [log], [subscribe] and [unsubscribe] on a new
    logger, the history kept for a campaign is made of the entries that
    were logged for that campaign, in the order of the calls, cut to the
    last 100: entries of other campaigns do not enter it and do not push
    its entries out. *)
Theorem history_is_the_last_hundred calls campaign_id :
  history_of (run calls __init__) campaign_id
  = last_n _max_history (logged campaign_id calls)
  ∧ (length (history_of (run calls __init__) campaign_id) <= 100)%nat.
Proof.
  assert (history_of (run calls __init__) campaign_id
          = last_n _max_history (logged campaign_id calls)) as Heq.
  { induction calls as [|c calls IH] using rev_ind; [done|].
    rewrite run_snoc, logged_snoc, perform_history, IH.
    destruct (entry_of campaign_id c) as [entry|]; cbn.
    - apply last_n_snoc. unfold _max_history. lia.
    - by rewrite app_nil_r. }
  split; [done|]. rewrite Heq. apply last_n_length.
Qed.

(** What a queue holds after an entry was put into each queue of a set. *)
Lemma queued_put entry qs q q' :
  default [] (put entry qs q' !! q)
  = default [] (qs !! q) ++ (if decide (q = q') then [entry] else []).
Proof.
  unfold put. destruct (decide (q = q')) as [->|Hne].
  - by rewrite lookup_insert_eq.
  - rewrite lookup_insert_ne by done. by rewrite app_nil_r.
Qed.

Lemma queued_foldr_put entry qs (l : list nat) q :
  NoDup l →
  default [] (foldr (λ queue qs, put entry qs queue) qs l !! q)
  = default [] (qs !! q) ++ (if decide (q ∈ l) then [entry] else []).
Proof.
  induction 1 as [|q' l Hq' Hl IH]; cbn [foldr].
  - rewrite decide_False by apply not_elem_of_nil. by rewrite app_nil_r.
  - rewrite queued_put, IH. destruct (decide (q = q')) as [->|Hne].
    + rewrite (decide_False (P := q' ∈ l)) by done.
      rewrite (decide_True (P := q' ∈ q' :: l)) by apply list_elem_of_here.
      by rewrite app_nil_r.
    + rewrite app_nil_r. destruct (decide (q ∈ l)) as [Hin|Hnin].
      * rewrite decide_True; [done|]. by apply list_elem_of_further.
      * rewrite decide_False; [done|]. intros [?|?]%elem_of_cons; done.
Qed.

Lemma queued_broadcast entry qs (X : gset nat) q :
  default [] (set_fold (λ queue qs, put entry qs queue) qs X !! q)
  = default [] (qs !! q) ++ (if decide (q ∈ X) then [entry] else []).
Proof.
  unfold set_fold. cbn. rewrite queued_foldr_put by apply NoDup_elements.
  destruct (decide (q ∈ X)) as [Hin|Hnin].
  - rewrite decide_True; [done|]. by apply elem_of_elements.
  - rewrite decide_False; [done|]. by rewrite elem_of_elements.
Qed.

Lemma queued_fold_put qs q' (l : list log_entry) q :
  default [] (fold_left (λ qs entry, put entry qs q') l qs !! q)
  = default [] (qs !! q) ++ (if decide (q = q') then l else []).
Proof.
  revert qs. induction l as [|e l IH]; intros qs; cbn [fold_left].
  - destruct (decide (q = q')); by rewrite app_nil_r.
  - rewrite IH, queued_put. destruct (decide (q = q')); [|by rewrite !app_nil_r].
    by rewrite <- app_assoc.
Qed.

(** What a queue holds after a call. *)
Lemma perform_queued c self q :
  (q < next_queue self)%nat →
  queued (perform c self) q
  = queued self q
    ++ match c with
       | Log campaign_id level message data now =>
           if decide (q ∈ subscribers_of self campaign_id)
           then [{| timestamp := now; level := level; message := message;
                    data := default ∅ data |}]
           else []
       | _ => []
       end.
Proof.
  intros Hq. destruct c as [c' level message data now|c'|c' q']; cbn [perform].
  - unfold queued, log, subscribers_of. cbn [queues].
    destruct (_subscribers self !! c') as [X|]; cbn [from_option id].
    + apply queued_broadcast.
    + rewrite decide_False by apply not_elem_of_empty. by rewrite app_nil_r.
  - unfold queued, subscribe. cbn [snd queues].
    rewrite queued_fold_put, decide_False by lia.
    rewrite lookup_insert_ne by lia. done.
  - rewrite app_nil_r. unfold unsubscribe.
    by destruct (_subscribers self !! c').
Qed.

Lemma perform_next_queue c self : (next_queue self <= next_queue (perform c self))%nat.
Proof.
  destruct c as [c' level message data now|c'|c' q']; cbn [perform].
  - done.
  - cbn. lia.
  - unfold unsubscribe. by destruct (_subscribers self !! c').
Qed.

(** The subscribers of a campaign after a call. *)
Lemma perform_subscribers c self campaign_id q :
  q ∈ subscribers_of (perform c self) campaign_id ↔
  match c with
  | Log _ _ _ _ _ => q ∈ subscribers_of self campaign_id
  | Subscribe c' =>
      q ∈ subscribers_of self campaign_id
      ∨ (c' = campaign_id ∧ q = next_queue self)
  | Unsubscribe c' q' =>
      q ∈ subscribers_of self campaign_id ∧ ¬ (c' = campaign_id ∧ q' = q)
  end.
Proof.
  destruct c as [c' level message data now|c'|c' q']; cbn [perform].
  - done.
  - unfold subscribers_of at 1, subscribe. cbn [snd _subscribers].
    destruct (decide (c' = campaign_id)) as [->|Hne].
    + rewrite lookup_insert_eq. cbn [from_option id].
      rewrite elem_of_union, elem_of_singleton.
      split.
      * intros [Hq| ->]; [by left | by right].
      * intros [Hq|[_ ->]]; [by left | by right].
    + rewrite lookup_insert_ne by done. fold (subscribers_of self campaign_id).
      split; [by left|]. by intros [Hq|[Hq _]].
  - unfold unsubscribe, subscribers_of.
    destruct (_subscribers self !! c') as [X|] eqn:HX.
    + cbn [_subscribers]. destruct (decide (c' = campaign_id)) as [->|Hne].
      * rewrite lookup_insert_eq, HX. cbn [from_option id].
        rewrite elem_of_difference, elem_of_singleton.
        split; intros [Hq Hn]; (split; [done|]).
        -- by intros [_ ->].
        -- intros ->. by apply Hn.
      * rewrite lookup_insert_ne by done.
        split; [|by intros [? _]]. intros Hq. split; [done|]. by intros [? _].
    + split; [|by intros [? _]]. intros Hq. split; [done|]. intros [-> ->].
      rewrite HX in Hq. by apply not_elem_of_empty in Hq.
Qed.

Lemma perform_well_formed c self : well_formed self → well_formed (perform c self).
Proof.
  intros [Hlt Hone]. split.
  - intros campaign_id q Hq. pose proof (perform_next_queue c self) as Hn.
    apply perform_subscribers in Hq.
    destruct c as [c' level message data now|c'|c' q'].
    + by apply (Hlt campaign_id).
    + destruct Hq as [Hq|[-> ->]]; [apply Hlt in Hq; lia|]. cbn. lia.
    + destruct Hq as [Hq _]. apply Hlt in Hq. lia.
  - intros c1 c2 q H1 H2.
    apply perform_subscribers in H1. apply perform_subscribers in H2.
    destruct c as [c' level message data now|c'|c' q'].
    + by apply (Hone c1 c2 q).
    + destruct H1 as [H1|[-> ->]], H2 as [H2|[-> Heq]].
      * by apply (Hone c1 c2 q).
      * subst q. apply Hlt in H1. lia.
      * apply Hlt in H2. lia.
      * done.
    + destruct H1 as [H1 _], H2 as [H2 _]. by apply (Hone c1 c2 q).
Qed.

Lemma run_well_formed calls self : well_formed self → well_formed (run calls self).
Proof.
  intros Hwf. induction calls as [|c calls IH] using rev_ind; [done|].
  rewrite run_snoc. by apply perform_well_formed.
Qed.

Lemma init_well_formed : well_formed __init__.
Proof.
  split; intros *; unfold subscribers_of, __init__; cbn;
    rewrite lookup_empty; cbn; by intros ?%not_elem_of_empty.
Qed.

(** X24: what a subscriber receives.  A queue that [subscribe] returns
    for a campaign holds the history of that campaign at that moment, and
    after any later calls that do not unsubscribe it, the history followed
    by every entry logged for the campaign since, each once and in the order
    of the calls; entries of other campaigns are not put into it.  The first
    state is any state that calls on a new logger lead to. *)
Theorem subscriber_receives_history_then_every_entry calls campaign_id later :
  Unsubscribe campaign_id (subscribe campaign_id (run calls __init__)).1 ∉ later →
  queued (run later (subscribe campaign_id (run calls __init__)).2)
         (subscribe campaign_id (run calls __init__)).1
  = history_of (run calls __init__) campaign_id ++ logged campaign_id later.
Proof.
  set (s1 := run calls __init__).
  set (q := (subscribe campaign_id s1).1).
  set (s2 := (subscribe campaign_id s1).2).
  assert (well_formed s1) as Hwf1 by apply run_well_formed, init_well_formed.
  assert (s2 = perform (Subscribe campaign_id) s1) as Hs2 by done.
  assert (q = next_queue s1) as Hq by done.
  intros Hlater.
  enough (well_formed (run later s2)
          ∧ (q < next_queue (run later s2))%nat
          ∧ q ∈ subscribers_of (run later s2) campaign_id
          ∧ queued (run later s2) q
            = history_of s1 campaign_id ++ logged campaign_id later)
    as (_ & _ & _ & H) by done.
  induction later as [|c later IH] using rev_ind.
  - split_and!.
    + rewrite Hs2. by apply perform_well_formed.
    + cbn. lia.
    + cbn [run fold_left]. rewrite Hs2. apply perform_subscribers. by right.
    + cbn [run fold_left logged omap]. rewrite app_nil_r.
      unfold queued, s2, subscribe. cbn [snd queues].
      rewrite queued_fold_put, decide_True by done.
      by rewrite lookup_insert_eq.
  - destruct IH as (Hwf & Hlt & Hin & Hqueued).
    { intros Hc. apply Hlater, elem_of_app. by left. }
    rewrite run_snoc. split_and!.
    + by apply perform_well_formed.
    + pose proof (perform_next_queue c (run later s2)). lia.
    + apply perform_subscribers.
      destruct c as [c' level message data now|c'|c' q']; [done | by left |].
      split; [done|]. intros [-> ->]. apply Hlater, elem_of_app. right.
      by apply list_elem_of_singleton.
    + rewrite perform_queued by done. rewrite Hqueued, logged_snoc, <- app_assoc.
      f_equal. destruct c as [c' level message data now|c'|c' q'];
        cbn [entry_of option_list]; try done.
      destruct (decide (c' = campaign_id)) as [->|Hne].
      * by rewrite decide_True.
      * rewrite decide_False; [done|]. intros Hq'.
        destruct Hwf as [_ Hone]. by apply Hne, (Hone c' campaign_id q).
Qed.

Lemma subscriber_receives_history_then_every_entry_witness :
  queued (run [Log "c1" "info" "step 1" None 2; Log "c2" "info" "other" None 3;
               Subscribe "c1"; Log "c1" "success" "done" None 4]
              (subscribe "c1" (run [Log "c1" "info" "start" None 1] __init__)).2)
         (subscribe "c1" (run [Log "c1" "info" "start" None 1] __init__)).1
  = history_of (run [Log "c1" "info" "start" None 1] __init__) "c1"
    ++ logged "c1" [Log "c1" "info" "step 1" None 2; Log "c2" "info" "other" None 3;
                    Subscribe "c1"; Log "c1" "success" "done" None 4].
Proof.
  apply (subscriber_receives_history_then_every_entry
           [Log "c1" "info" "start" None 1] "c1"
           [Log "c1" "info" "step 1" None 2; Log "c2" "info" "other" None 3;
            Subscribe "c1"; Log "c1" "success" "done" None 4]).
  intros H. repeat (apply elem_of_cons in H as [H|H]; [discriminate H|]).
  by apply elem_of_nil in H.
Defined.

(** X25: a queue that was unsubscribed receives nothing more.  After
    [unsubscribe] of a queue from the campaign it was subscribed to, no
    later call puts anything into it, whatever is logged and whoever
    subscribes. *)
Theorem unsubscribed_queue_receives_nothing_more calls campaign_id queue later :
  queue ∈ subscribers_of (run calls __init__) campaign_id →
  queued (run later (unsubscribe campaign_id queue (run calls __init__))) queue
  = queued (run calls __init__) queue.
Proof.
  set (s1 := run calls __init__). intros Hin.
  assert (well_formed s1) as Hwf1 by apply run_well_formed, init_well_formed.
  set (s2 := unsubscribe campaign_id queue s1).
  assert (s2 = perform (Unsubscribe campaign_id queue) s1) as Hs2 by done.
  clearbody s2.
  enough ((queue < next_queue (run later s2))%nat
          ∧ (∀ c, queue ∉ subscribers_of (run later s2) c)
          ∧ queued (run later s2) queue = queued s1 queue)
    as (_ & _ & H) by done.
  induction later as [|c later (Hlt & Hout & Hqueued)] using rev_ind.
  - cbn [run fold_left]. destruct Hwf1 as [Hlt Hone]. split_and!.
    + pose proof (perform_next_queue (Unsubscribe campaign_id queue) s1) as Hn.
      rewrite <- Hs2 in Hn. apply Hlt in Hin. lia.
    + intros c Hc. rewrite Hs2 in Hc. apply perform_subscribers in Hc as [Hc Hne].
      apply Hne. split; [|done]. by apply (Hone campaign_id c queue).
    + rewrite Hs2, perform_queued by (by apply (Hlt campaign_id)).
      by rewrite app_nil_r.
  - rewrite run_snoc. split_and!.
    + pose proof (perform_next_queue c (run later s2)). lia.
    + intros c0 Hc. apply perform_subscribers in Hc.
      destruct c as [c' level message data now|c'|c' q'].
      * by apply (Hout c0).
      * destruct Hc as [Hc|[_ ->]]; [by apply (Hout c0) | lia].
      * destruct Hc as [Hc _]. by apply (Hout c0).
    + rewrite perform_queued by done. rewrite Hqueued.
      destruct c as [c' level message data now|c'|c' q']; try by rewrite app_nil_r.
      rewrite decide_False by apply Hout. by rewrite app_nil_r.
Qed.

Lemma unsubscribed_queue_receives_nothing_more_witness :
  queued (run [Log "c1" "info" "late" None 3; Subscribe "c1"]
              (unsubscribe "c1" 0
                 (run [Subscribe "c1"; Log "c1" "info" "start" None 1] __init__)))
         0
  = queued (run [Subscribe "c1"; Log "c1" "info" "start" None 1] __init__) 0.
Proof.
  apply (unsubscribed_queue_receives_nothing_more
           [Subscribe "c1"; Log "c1" "info" "start" None 1] "c1" 0
           [Log "c1" "info" "late" None 3; Subscribe "c1"]).
  compute_done.
Defined.

End LoggerFacts.

(** ** Click tracking: links, clicks and what they are counted for *)

Module TrackingFacts.
Import Mongo LinkShortener AnalyticsCollector TrackingApi.
Import TextFacts StoreFacts.
Local Open Scope Z_scope.

Lemma split_nonempty sep s : Str.split sep s ≠ [].
Proof.
  destruct s as [|c s]; [done|]. cbn [Str.split].
  destruct (Ascii.eqb c sep); [done|]. by destruct (Str.split sep s).
Qed.

Lemma split_absent sep s : Str.absent sep s = true → Str.split sep s = [s].
Proof.
  unfold Str.absent. induction s as [|c s IH]; [done|].
  cbn [list_ascii_of_string forallb Str.split].
  intros [Hc Hs]%andb_true_iff. apply negb_true_iff in Hc. rewrite Hc.
  by rewrite (IH Hs).
Qed.

Lemma last_cons_nonempty {A} (x : A) l d :
  l ≠ [] → List.last (x :: l) d = List.last l d.
Proof. by destruct l. Qed.

(** The last piece lies behind the last separator. *)
Lemma last_split_after sep a b :
  List.last (Str.split sep (a +:+ String sep b)) EmptyString
  = List.last (Str.split sep b) EmptyString.
Proof.
  induction a as [|c a IH].
  - change ("" +:+ String sep b) with (String sep b). cbn [Str.split].
    rewrite Ascii.eqb_refl. apply last_cons_nonempty, split_nonempty.
  - rewrite PostFilterFacts.append_cons. cbn [Str.split].
    destruct (Ascii.eqb c sep).
    + rewrite last_cons_nonempty by apply split_nonempty. apply IH.
    + destruct (Str.split sep (a +:+ String sep b)) as [|piece pieces] eqn:Hs.
      { by apply split_nonempty in Hs. }
      destruct pieces as [|piece' pieces].
      * exfalso. clear IH. revert piece Hs. induction a as [|c' a IH]; intros piece.
        -- change ("" +:+ String sep b) with (String sep b). cbn [Str.split].
           rewrite Ascii.eqb_refl. intros [= _ Hb]. by apply split_nonempty in Hb.
        -- rewrite PostFilterFacts.append_cons. cbn [Str.split].
           destruct (Ascii.eqb c' sep).
           ++ intros [= _ Hb]. by apply split_nonempty in Hb.
           ++ destruct (Str.split sep (a +:+ String sep b)) as [|p ps] eqn:Hs';
                [by apply split_nonempty in Hs'|].
              intros [= _ ->]. by eapply IH.
      * rewrite <- IH. done.
Qed.

Lemma last_segment base short_code :
  Str.absent "/" short_code = true →
  List.last (Str.split "/" (base +:+ "/r/" +:+ short_code)) EmptyString
  = short_code.
Proof.
  intros Hc.
  change (base +:+ "/r/" +:+ short_code)
    with (base +:+ String "/" ("r" +:+ String "/" short_code)).
  rewrite last_split_after.
  rewrite (last_split_after "/" "r" short_code).
  by rewrite split_absent.
Qed.

Lemma alnum_no_slash s :
  forallb is_alnum (list_ascii_of_string s) = true → Str.absent "/" s = true.
Proof.
  unfold Str.absent. induction s as [|c s IH]; [done|].
  cbn [list_ascii_of_string forallb]. intros [Hc Hs]%andb_true_iff.
  rewrite (IH Hs), andb_true_r.
  destruct (Ascii.eqb_spec c "/") as [->|_]; done.
Qed.

Lemma chars_alnum i :
  is_alnum (default "a"%char (list_ascii_of_string chars !! i)) = true.
Proof.
  destruct (list_ascii_of_string chars !! i) as [c|] eqn:Hc; [|done].
  apply list_elem_of_lookup_2, list_elem_of_In in Hc. cbn [default from_option id].
  revert c Hc. apply forallb_forall. reflexivity.
Qed.

Section WithOutside.
Context {W : Type} (outside : Outside W).

Lemma generate_short_code_spec length (w : W) :
  String.length (_generate_short_code outside length w).1 = length ∧
  forallb is_alnum
    (list_ascii_of_string (_generate_short_code outside length w).1) = true.
Proof.
  revert w. induction length as [|n IH]; intros w; [done|].
  cbn [_generate_short_code].
  destruct (randbelow outside (String.length chars) w) as [i w1].
  specialize (IH w1).
  destruct (_generate_short_code outside n w1) as [rest w2].
  cbn [fst] in *. destruct IH as [Hlen Halnum]. split.
  - cbn [String.length]. by rewrite Hlen.
  - cbn [list_ascii_of_string forallb]. by rewrite chars_alnum, Halnum.
Qed.

(** The state after [_shorten_internal] with a database. *)
Lemma shorten_internal_run self long_url campaign_id now (s : site W) :
  db self = true →
  _shorten_internal outside self long_url campaign_id now s
  = let '(short_code, w) :=
      _generate_short_code outside 6 (st_world (site_state s)) in
    (Ok (VStr (base_url self +:+ "/r/" +:+ short_code)),
     Site (State (Store (campaigns (st_store (site_state s)))
                        (matched_posts (st_store (site_state s)))
                        (campaign_replies (st_store (site_state s)))
                        (N.succ (next_id (st_store (site_state s)))))
                 w (st_tasks (site_state s)))
          (short_links s
           ++ [<["_id" := VOid (fresh_id (next_id (st_store (site_state s))))]>
                 (link_doc short_code long_url campaign_id now)])
          (click_events s)).
Proof.
  intros Hdb. unfold _shorten_internal. rewrite Hdb.
  unfold bind at 1. unfold Site.on_outside, Site.on_state, Db.on_world.
  destruct (_generate_short_code outside 6 (st_world (site_state s)))
    as [short_code w].
  cbn [site_state short_links click_events st_store st_world st_tasks].
  unfold bind, ret, Site.insert_short_link, with_id, Site.with_next_id.
  cbn [site_state short_links click_events st_store st_world st_tasks].
  assert (link_doc short_code long_url campaign_id now !! "_id" = None) as ->
    by reflexivity.
  reflexivity.
Qed.

Lemma get_internal_stats_run self short_code (s : site W) :
  db self = true →
  Str.absent "/" short_code = true →
  _get_internal_stats self (base_url self +:+ "/r/" +:+ short_code) s
  = (Ok (internal_stats
           match find_one (by_code short_code) (short_links s) with
           | Some link => get_default link "clicks" (VInt 0)
           | None => VInt 0
           end), s).
Proof.
  intros Hdb Hc. unfold _get_internal_stats. rewrite Hdb. cbn [negb].
  rewrite (last_segment _ _ Hc).
  unfold bind, Site.find_short_link, ret.
  destruct (find_one (by_code short_code) (short_links s)) as [link|]; [|done].
  destruct (decide (link = ∅)) as [->|_]; [|done].
  unfold get_default. by rewrite lookup_empty.
Qed.

Lemma matches_by_code short_code (d : doc) :
  d !! "short_code" = Some (VStr short_code) →
  matches (by_code short_code) d = true.
Proof.
  intros Hd. unfold matches, by_code. cbn [forallb]. rewrite Hd. cbn [holds].
  by rewrite bool_decide_true.
Qed.

(** X26: a link made by [_shorten_internal] is found again through its
    address.  With a database, the method draws a code of six letters and
    digits, stores one link document for it (the long address, the campaign
    given, zero clicks) and returns [base_url/r/code].
    [_get_internal_stats] on that address reads the code back as the piece
    behind the last slash; it reports zero clicks when the code was not in
    use.  Nothing keeps a code from being drawn twice: when an older link has
    the same code, the statistics of the new address are those of the older
    link. *)
Theorem internal_link_is_found_by_its_address self long_url campaign_id now
    (s : site W) :
  db self = true →
  ∃ short_code,
    String.length short_code = 6%nat ∧
    forallb is_alnum (list_ascii_of_string short_code) = true ∧
    let short_url := base_url self +:+ "/r/" +:+ short_code in
    let s' := (_shorten_internal outside self long_url campaign_id now s).2 in
    (_shorten_internal outside self long_url campaign_id now s).1
      = Ok (VStr short_url) ∧
    short_links s'
      = short_links s
        ++ [<["_id" := VOid (fresh_id (next_id (st_store (site_state s))))]>
              (link_doc short_code long_url campaign_id now)] ∧
    click_events s' = click_events s ∧
    (find_one (by_code short_code) (short_links s) = None →
     _get_internal_stats self short_url s'
     = (Ok (internal_stats (VInt 0)), s')) ∧
    (∀ older,
       find_one (by_code short_code) (short_links s) = Some older →
       _get_internal_stats self short_url s'
       = (Ok (internal_stats (get_default older "clicks" (VInt 0))), s')).
Proof.
  intros Hdb. rewrite (shorten_internal_run _ _ _ _ _ Hdb).
  pose proof (generate_short_code_spec 6 (st_world (site_state s)))
    as [Hlen Halnum].
  destruct (_generate_short_code outside 6 (st_world (site_state s)))
    as [short_code w].
  cbn [fst snd] in *. exists short_code. do 2 (split; [done|]). cbv zeta.
  split_and!; [done..| |].
  - intros Hnone. rewrite get_internal_stats_run by (by try apply alnum_no_slash).
    cbn [short_links]. rewrite find_one_app_new.
    + unfold get_default. rewrite lookup_insert_ne by done. reflexivity.
    + intros x Hx. unfold find_one in Hnone.
      apply (find_none _ _ Hnone x), list_elem_of_In, Hx.
    + apply matches_by_code. rewrite lookup_insert_ne by done. reflexivity.
  - intros older Holder.
    rewrite get_internal_stats_run by (by try apply alnum_no_slash).
    cbn [short_links]. by rewrite (find_one_app_old _ _ _ _ Holder).
Qed.

End WithOutside.

Lemma internal_link_is_found_by_its_address_witness :
  ∃ short_code,
    String.length short_code = 6%nat ∧
    forallb is_alnum (list_ascii_of_string short_code) = true ∧
    (_shorten_internal TrackingScenario.offline TrackingScenario.shortener
       "https://example.org/rust" None (10 * Scenario.day)
       TrackingScenario.empty_site).1
      = Ok (VStr (base_url TrackingScenario.shortener +:+ "/r/" +:+ short_code)) ∧
    short_links TrackingScenario.linked
      = short_links TrackingScenario.empty_site
        ++ [<["_id" := VOid (fresh_id 0)]>
              (link_doc short_code "https://example.org/rust" None
                        (10 * Scenario.day))] ∧
    click_events TrackingScenario.linked
      = click_events TrackingScenario.empty_site ∧
    (find_one (by_code short_code) (short_links TrackingScenario.empty_site)
       = None →
     _get_internal_stats TrackingScenario.shortener
       (base_url TrackingScenario.shortener +:+ "/r/" +:+ short_code)
       TrackingScenario.linked
     = (Ok (internal_stats (VInt 0)), TrackingScenario.linked)) ∧
    (∀ older,
       find_one (by_code short_code) (short_links TrackingScenario.empty_site)
         = Some older →
       _get_internal_stats TrackingScenario.shortener
         (base_url TrackingScenario.shortener +:+ "/r/" +:+ short_code)
         TrackingScenario.linked
       = (Ok (internal_stats (get_default older "clicks" (VInt 0))),
          TrackingScenario.linked)).
Proof.
  exact (internal_link_is_found_by_its_address
           TrackingScenario.offline TrackingScenario.shortener
           "https://example.org/rust" None (10 * Scenario.day)
           TrackingScenario.empty_site eq_refl).
Defined.


Section Clicks.
Context {W : Type}.

Lemma click_doc_campaign_id campaign_id short_code ip_address user_agent referrer
    now :
  click_doc campaign_id short_code ip_address user_agent referrer now
    !! "campaign_id" = Some campaign_id
  ∧ click_doc campaign_id short_code ip_address user_agent referrer now
      !! "short_code" = Some (VStr short_code)
  ∧ click_doc campaign_id short_code ip_address user_agent referrer now
      !! "clicked_at" = Some (VTime now)
  ∧ click_doc campaign_id short_code ip_address user_agent referrer now
      !! "_id" = None.
Proof. by split_and!. Qed.

(** A click on a link that names no campaign. *)
Lemma record_click_event_unattributed campaign_id short_code ip_address
    user_agent referrer now (s : site W) :
  truthy campaign_id = false →
  ∃ r links,
    record_click_event campaign_id short_code ip_address user_agent referrer
                       now s
    = (Ok r,
       Site (Site.with_next_id s) links
            (click_events s
             ++ [<["_id" := VOid (fresh_id (next_id (st_store (site_state s))))]>
                   (click_doc VNone short_code ip_address user_agent referrer
                              now)]))
    ∧ match Mongo.update_one (by_code short_code) (UInc "clicks" 1)
                             (short_links s) with
      | Ok l => links = l ∧ r = true
      | Raise _ => links = short_links s ∧ r = false
      end.
Proof.
  intros Hfalse. unfold record_click_event, try_except, click_campaign_id.
  rewrite Hfalse. unfold bind at 1. unfold lift at 1.
  unfold bind at 1. unfold Site.insert_click_event at 1, with_id.
  destruct (click_doc_campaign_id VNone short_code ip_address user_agent
              referrer now) as (_ & _ & _ & ->).
  unfold bind at 1. unfold Site.update_short_link at 1.
  cbn [short_links click_events site_state].
  destruct (Mongo.update_one (by_code short_code) (UInc "clicks" 1) (short_links s))
    as [l|e].
  - eexists true, l. split; [reflexivity | done].
  - eexists false, (short_links s). split; [reflexivity | done].
Qed.

(** X27: what following a short link does.  For a code that no link
    has, [redirect_and_track] answers 404 and changes nothing.  For a code
    whose first link names no campaign and holds an address and a number of
    clicks, it answers with a redirect (302) to that address, appends one
    click event with the code, the time and no campaign, adds one to the
    clicks of that link and leaves the campaigns, the matched posts and the
    replies as they were; [_get_internal_stats] then reports the new number
    for the address of the code. *)
Theorem redirect_records_one_click short_code req now (s : site W) :
  (find_one (by_code short_code) (short_links s) = None →
   redirect_and_track short_code req now s
   = (HTTPException 404 (VStr "Short link not found"), s)) ∧
  (∀ link url clicks,
     find_one (by_code short_code) (short_links s) = Some link →
     link !! "long_url" = Some url →
     link !! "clicks" = Some (VInt clicks) →
     link !! "campaign_id" = Some VNone →
     let s' := (redirect_and_track short_code req now s).2 in
     (redirect_and_track short_code req now s).1 = RedirectResponse url 302 ∧
     find_one (by_code short_code) (short_links s')
       = Some (<["clicks" := VInt (clicks + 1)]> link) ∧
     length (short_links s') = length (short_links s) ∧
     (∃ event,
        click_events s' = click_events s ++ [event] ∧
        event !! "short_code" = Some (VStr short_code) ∧
        event !! "clicked_at" = Some (VTime now) ∧
        event !! "campaign_id" = Some VNone) ∧
     campaigns (st_store (site_state s')) = campaigns (st_store (site_state s)) ∧
     matched_posts (st_store (site_state s'))
       = matched_posts (st_store (site_state s)) ∧
     campaign_replies (st_store (site_state s'))
       = campaign_replies (st_store (site_state s)) ∧
     ∀ self, db self = true → Str.absent "/" short_code = true →
       _get_internal_stats self (base_url self +:+ "/r/" +:+ short_code) s'
       = (Ok (internal_stats (VInt (clicks + 1))), s')).
Proof.
  split.
  - intros Hnone. unfold redirect_and_track. by rewrite Hnone.
  - intros link url clicks Hfind Hurl Hclicks Hcampaign s'. subst s'.
    unfold redirect_and_track. rewrite Hfind.
    destruct (decide (link = ∅)) as [->|_]; [by rewrite lookup_empty in Hurl|].
    unfold get, get_default. rewrite Hcampaign, Hurl.
    destruct (record_click_event_unattributed VNone short_code
                (default "unknown" (client_host req))
                (default "unknown" (user_agent req))
                (default "" (referer req)) now s eq_refl)
      as (r & links & -> & Hlinks).
    rewrite (update_one_inc _ _ clicks 1 _ link Hfind Hclicks) in Hlinks.
    destruct Hlinks as [-> ->].
    cbn [fst snd short_links click_events site_state Site.with_next_id st_store
         campaigns matched_posts campaign_replies].
    assert (find_one (by_code short_code)
              (update_first (by_code short_code)
                 (λ d, <["clicks" := VInt (clicks + 1)]> d) (short_links s))
            = Some (<["clicks" := VInt (clicks + 1)]> link)) as Hfound.
    { apply (ReplyFacts.update_first_find _ _ _ link Hfind).
      pose proof (ReplyFacts.find_one_matches _ _ _ Hfind) as Hm.
      unfold matches, by_code in *. cbn [forallb] in *.
      by rewrite lookup_insert_ne. }
    split_and!; try done.
    + clear. induction (short_links s) as [|d l IH]; [done|].
      cbn [update_first]. destruct (matches (by_code short_code) d); [done|].
      cbn [length]. by rewrite IH.
    + eexists. split; [reflexivity|].
      by rewrite !lookup_insert_ne by done.
    + intros self Hdb Hc. rewrite get_internal_stats_run by done.
      cbn [short_links]. rewrite Hfound. unfold get_default.
      by rewrite lookup_insert_eq.
Qed.

End Clicks.

Lemma find_one_elem q l (d : doc) : find_one q l = Some d → d ∈ l.
Proof.
  unfold find_one. intros H. apply find_some in H as [H _].
  by apply list_elem_of_In.
Qed.

Lemma update_first_Forall (P : doc → Prop) q f l :
  (∀ d, P d → P (f d)) → Forall P l → Forall P (update_first q f l).
Proof.
  intros Hf. induction 1 as [|d l Hd Hl IH]; [constructor|].
  cbn [update_first]. destruct (matches q d); constructor; auto.
Qed.

Lemma update_one_inc_lookup q k n l l' k' (v : value) :
  k ≠ k' →
  Mongo.update_one q (UInc k n) l = Ok l' →
  Forall (λ d : doc, d !! k' = Some v) l →
  Forall (λ d : doc, d !! k' = Some v) l'.
Proof.
  intros Hk Hu Hl. revert l' Hu.
  induction Hl as [|d l Hd Hl IH]; intros l'; cbn [Mongo.update_one].
  - intros [= <-]. constructor.
  - destruct (matches q d).
    + cbn [apply_update]. destruct (d !! k) as [[]|]; try done;
        intros [= <-]; (constructor; [|done]); by rewrite lookup_insert_ne.
    + destruct (Mongo.update_one q (UInc k n) l) as [l''|]; [|done].
      intros [= <-]. constructor; [done | by apply IH].
Qed.

Lemma with_status_total_clicks status now (d : doc) :
  CampaignManager.with_status status now d !! "total_clicks" = d !! "total_clicks".
Proof.
  unfold CampaignManager.with_status, set_fields. cbn [fold_left].
  by rewrite !lookup_insert_ne.
Qed.

Section Attribution.
Context {W : Type} (outside : Outside W).
Context (twitter : TwitterApi W) (ai : AiServices W).
Context (str_of_http_exception : Z → value → string).

(** What [_shorten_internal] does without a database: the world moves
    on, nothing is stored. *)
Lemma shorten_internal_without_db self long_url campaign_id now (s : site W) :
  db self = false →
  ∃ short_code w,
    _shorten_internal outside self long_url campaign_id now s
    = (Ok (VStr (base_url self +:+ "/r/" +:+ short_code)),
       Site (State (st_store (site_state s)) w (st_tasks (site_state s)))
            (short_links s) (click_events s)).
Proof.
  intros Hdb. unfold _shorten_internal. rewrite Hdb.
  unfold bind at 1. unfold Site.on_outside, Site.on_state, Db.on_world.
  destruct (_generate_short_code outside 6 (st_world (site_state s)))
    as [short_code w].
  by exists short_code, w.
Qed.

(** [shorten] returns, and what it leaves behind: at most one new link,
    for the campaign given. *)
Lemma shorten_run self long_url campaign_id now (s : site W) :
  ∃ short_url s',
    shorten outside self long_url campaign_id now s = (Ok short_url, s') ∧
    campaigns (st_store (site_state s')) = campaigns (st_store (site_state s)) ∧
    click_events s' = click_events s ∧
    (short_links s' = short_links s
     ∨ ∃ link short_code,
         short_links s' = short_links s ++ [link] ∧
         link !! "campaign_id" = Some (optional campaign_id) ∧
         link !! "long_url" = Some (VStr long_url) ∧
         link !! "short_code" = Some (VStr short_code) ∧
         link !! "clicks" = Some (VInt 0) ∧
         short_url = VStr (base_url self +:+ "/r/" +:+ short_code)).
Proof.
  assert (∀ s1 : site W,
            campaigns (st_store (site_state s1))
              = campaigns (st_store (site_state s)) →
            click_events s1 = click_events s →
            short_links s1 = short_links s →
            ∃ short_url s',
              _shorten_internal outside self long_url campaign_id now s1
                = (Ok short_url, s') ∧
              campaigns (st_store (site_state s'))
                = campaigns (st_store (site_state s)) ∧
              click_events s' = click_events s ∧
              (short_links s' = short_links s
               ∨ ∃ link short_code,
                   short_links s' = short_links s ++ [link] ∧
                   link !! "campaign_id" = Some (optional campaign_id) ∧
                   link !! "long_url" = Some (VStr long_url) ∧
                   link !! "short_code" = Some (VStr short_code) ∧
                   link !! "clicks" = Some (VInt 0) ∧
                   short_url = VStr (base_url self +:+ "/r/" +:+ short_code)))
    as Hinternal.
  { intros s1 Hc He Hl. destruct (db self) eqn:Hdb.
    - rewrite (shorten_internal_run _ _ _ _ _ _ Hdb).
      destruct (_generate_short_code outside 6 (st_world (site_state s1)))
        as [short_code w].
      eexists _, _. split; [reflexivity|].
      cbn [site_state st_store campaigns click_events short_links].
      split_and!; [done | done |]. right.
      eexists _, short_code. rewrite Hl. split; [reflexivity|].
      rewrite !lookup_insert_ne by done. by split_and!.
    - destruct (shorten_internal_without_db self long_url campaign_id now s1 Hdb)
        as (short_code & w & ->).
      eexists _, _. split; [reflexivity|].
      cbn [site_state st_store click_events short_links]. split_and!; try done.
      by left. }
  unfold shorten. destruct (has_token self); [|by apply Hinternal].
  unfold try_except, _shorten_with_bitly. unfold bind at 1.
  unfold Site.on_outside, Site.on_state, Db.on_world.
  destruct (bitly_post outside long_url (st_world (site_state s)))
    as [[response|e] w];
    cbn [site_state short_links click_events st_store st_world st_tasks].
  - destruct ((status_code response =? 200) || (status_code response =? 201)).
    + unfold lift. destruct (link response) as [short_url|e].
      * eexists _, _. split; [reflexivity|]. split_and!; try done. by left.
      * by apply Hinternal.
    + unfold raise. by apply Hinternal.
  - by apply Hinternal.
Qed.

(** [create_campaign] of the manager on a request that has the six
    compulsory entries. *)
Lemma create_campaign_complete (campaign_data : doc) now (st : state W)
    name seed_users keywords reply_template target_url short_url :
  campaign_data !! "name" = Some name →
  campaign_data !! "seed_users" = Some seed_users →
  campaign_data !! "keywords" = Some keywords →
  campaign_data !! "reply_template" = Some reply_template →
  campaign_data !! "target_url" = Some target_url →
  campaign_data !! "short_url" = Some short_url →
  ∃ campaign,
    CampaignManager.create_campaign campaign_data now st
    = (Ok {[ "success" := VBool true;
             "campaign_id" := VStr (fresh_id (next_id (st_store st))) ]},
       State (Store (campaigns (st_store st) ++ [campaign])
                    (matched_posts (st_store st))
                    (campaign_replies (st_store st))
                    (N.succ (next_id (st_store st))))
             (st_world st) (st_tasks st)) ∧
    campaign !! "_id" = Some (VOid (fresh_id (next_id (st_store st)))) ∧
    campaign !! "status" = Some (VStr "draft") ∧
    campaign !! "short_url" = Some short_url ∧
    campaign !! "total_clicks" = Some (VInt 0) ∧
    campaign !! "reply_model"
      = Some (get_default campaign_data "reply_model" (VStr "gpt-4")) ∧
    campaign !! "daily_reply_limit"
      = Some (get_default campaign_data "daily_reply_limit" (VInt 50)) ∧
    campaign !! "max_replies_per_day" = None.
Proof.
  intros Hname Hseeds Hkeywords Htemplate Htarget Hshort.
  unfold CampaignManager.create_campaign, try_except.
  unfold getitem. rewrite Hname, Hseeds, Hkeywords, Htemplate, Htarget, Hshort.
  unfold bind, lift, ret, Db.insert_one. cbn [Db.documents].
  unfold with_id.
  match goal with |- context [dict ?l] => set (c := dict l) end.
  assert (c !! "_id" = None) as -> by reflexivity.
  exists (<["_id" := VOid (fresh_id (next_id (st_store st)))]> c).
  split; [reflexivity|].
  split_and!; first [by rewrite lookup_insert_eq | by rewrite lookup_insert_ne].
Qed.

Lemma create_campaign_total_clicks campaign_data now (st : state W) :
  campaigns (st_store (CampaignManager.create_campaign campaign_data now st).2)
  = campaigns (st_store st)
  ∨ ∃ campaign : doc,
      campaign !! "total_clicks" = Some (VInt 0) ∧
      campaigns (st_store (CampaignManager.create_campaign campaign_data now st).2)
      = campaigns (st_store st) ++ [campaign].
Proof.
  unfold CampaignManager.create_campaign, try_except.
  repeat (unfold bind at 1; unfold lift at 1;
          match goal with
          | |- context [getitem campaign_data ?k] =>
              destruct (getitem campaign_data k); [|by left]
          end).
  unfold bind at 1. unfold Db.insert_one at 1. cbn [Db.documents].
  unfold with_id.
  match goal with |- context [dict ?l] => set (c := dict l) end.
  assert (c !! "_id" = None) as -> by reflexivity.
  right. eexists. split; [|reflexivity]. by rewrite lookup_insert_ne.
Qed.

(** The entries of the data that the endpoint hands to the manager. *)
Lemma request_data request (short_url : value) :
  let campaign_data :=
    <["short_url" := short_url]> (CampaignsApi.request_dict request) in
  campaign_data !! "name" = Some (VStr (CampaignsApi.name request)) ∧
  campaign_data !! "seed_users" = Some (VStrs (CampaignsApi.seed_users request)) ∧
  campaign_data !! "keywords" = Some (VStrs (CampaignsApi.keywords request)) ∧
  campaign_data !! "reply_template"
    = Some (VStr (CampaignsApi.reply_template request)) ∧
  campaign_data !! "target_url" = Some (VStr (CampaignsApi.target_url request)) ∧
  campaign_data !! "short_url" = Some short_url ∧
  campaign_data !! "reply_model"
    = Some (optional (CampaignsApi.reply_model request)) ∧
  campaign_data !! "daily_reply_limit"
    = Some (VInt (CampaignsApi.daily_reply_limit request)).
Proof.
  cbv zeta. rewrite lookup_insert_eq, !lookup_insert_ne by done. by split_and!.
Qed.

(** The run of the endpoint: the link first, then the campaign. *)
Lemma api_create_run link_shortener request now (s : site W) :
  ∃ short_url s1 campaign,
    shorten outside link_shortener (CampaignsApi.target_url request) None now s
      = (Ok short_url, s1) ∧
    CampaignsApi.create_campaign outside str_of_http_exception
                                 link_shortener request now s
    = (Json (CampaignsApi.created
               (VStr (fresh_id (next_id (st_store (site_state s1))))) short_url),
       Site (State (Store (campaigns (st_store (site_state s1)) ++ [campaign])
                          (matched_posts (st_store (site_state s1)))
                          (campaign_replies (st_store (site_state s1)))
                          (N.succ (next_id (st_store (site_state s1)))))
                   (st_world (site_state s1)) (st_tasks (site_state s1)))
            (short_links s1) (click_events s1)) ∧
    campaign !! "_id"
      = Some (VOid (fresh_id (next_id (st_store (site_state s1))))) ∧
    campaign !! "status" = Some (VStr "draft") ∧
    campaign !! "short_url" = Some short_url ∧
    campaign !! "total_clicks" = Some (VInt 0) ∧
    campaign !! "reply_model"
      = Some (optional (CampaignsApi.reply_model request)) ∧
    campaign !! "daily_reply_limit"
      = Some (VInt (CampaignsApi.daily_reply_limit request)) ∧
    campaign !! "max_replies_per_day" = None.
Proof.
  destruct (shorten_run link_shortener (CampaignsApi.target_url request) None
              now s) as (short_url & s1 & Hshorten & _).
  destruct (request_data request short_url)
    as (Hname & Hseeds & Hkeywords & Htemplate & Htarget & Hshort & Hmodel
        & Hlimit).
  destruct (create_campaign_complete _ now (site_state s1) _ _ _ _ _ _
              Hname Hseeds Hkeywords Htemplate Htarget Hshort)
    as (campaign & Hcreate & Hid & Hstatus & Hurl & Hclicks & Hrm & Hdl & Hmax).
  exists short_url, s1, campaign. split; [done|].
  unfold get_default in Hrm, Hdl. rewrite Hmodel in Hrm. rewrite Hlimit in Hdl.
  split_and!; try done.
  unfold CampaignsApi.create_campaign.
  unfold bind at 1. rewrite Hshorten.
  unfold bind at 1. unfold Site.on_state at 1. rewrite Hcreate.
  unfold bind, lift, ret, getitem.
  rewrite lookup_insert_eq. cbn [truthy negb].
  rewrite lookup_insert_ne by done. rewrite lookup_singleton_eq.
  reflexivity.
Qed.

(** X28: what the endpoint that creates a campaign stores.  Over the
    store in memory the endpoint answers with the new [campaign_id] and the
    short address, and it has stored the campaign as the last one: a draft
    whose [short_url] is the address returned, whose [reply_model] is the
    one of the request and [None] when the request has none (the default
    [gpt-4] of the manager is not used, since the request always has the
    entry), and whose limit is stored as [daily_reply_limit], with no
    [max_replies_per_day].  The short link is made before the campaign
    exists: when one is stored, it is for the target address, has zero
    clicks and names no campaign. *)
Theorem created_through_the_endpoint link_shortener request now (s : site W) :
  ∃ campaign_id short_url campaign,
    let s' := (CampaignsApi.create_campaign outside str_of_http_exception
                 link_shortener request now s).2 in
    (CampaignsApi.create_campaign outside str_of_http_exception
       link_shortener request now s).1
      = Json (CampaignsApi.created (VStr campaign_id) short_url) ∧
    campaigns (st_store (site_state s'))
      = campaigns (st_store (site_state s)) ++ [campaign] ∧
    campaign !! "_id" = Some (VOid campaign_id) ∧
    campaign !! "status" = Some (VStr "draft") ∧
    campaign !! "short_url" = Some short_url ∧
    campaign !! "total_clicks" = Some (VInt 0) ∧
    campaign !! "reply_model"
      = Some (optional (CampaignsApi.reply_model request)) ∧
    campaign !! "daily_reply_limit"
      = Some (VInt (CampaignsApi.daily_reply_limit request)) ∧
    campaign !! "max_replies_per_day" = None ∧
    click_events s' = click_events s ∧
    (short_links s' = short_links s
     ∨ ∃ link short_code,
         short_links s' = short_links s ++ [link] ∧
         link !! "campaign_id" = Some VNone ∧
         link !! "long_url" = Some (VStr (CampaignsApi.target_url request)) ∧
         link !! "short_code" = Some (VStr short_code) ∧
         link !! "clicks" = Some (VInt 0) ∧
         short_url = VStr (base_url link_shortener +:+ "/r/" +:+ short_code)).
Proof.
  destruct (api_create_run link_shortener request now s)
    as (short_url & s1 & campaign & Hshorten & -> & Hcampaign).
  destruct (shorten_run link_shortener (CampaignsApi.target_url request) None
              now s) as (short_url' & s1' & Hshorten' & Hc1 & He1 & Hl1).
  rewrite Hshorten in Hshorten'. injection Hshorten' as <- <-.
  exists (fresh_id (next_id (st_store (site_state s1)))), short_url, campaign.
  cbv zeta. cbn [fst snd site_state st_store campaigns short_links click_events].
  rewrite Hc1. destruct Hcampaign as (? & ? & ? & ? & ? & ? & ?).
  split_and!; done.
Qed.

(** The three steps keep the clicks apart from the campaigns. *)
Lemma api_create_unattributed link_shortener request now (s : site W) :
  unattributed s →
  unattributed (CampaignsApi.create_campaign outside str_of_http_exception
                  link_shortener request now s).2.
Proof.
  intros (Hc & Hl & He).
  destruct (api_create_run link_shortener request now s)
    as (short_url & s1 & campaign & Hshorten & -> & _ & _ & _ & Hclicks & _).
  destruct (shorten_run link_shortener (CampaignsApi.target_url request) None
              now s) as (short_url' & s1' & Hshorten' & Hc1 & He1 & Hl1).
  rewrite Hshorten in Hshorten'. injection Hshorten' as <- <-.
  unfold unattributed.
  cbn [snd site_state st_store campaigns short_links click_events].
  rewrite Hc1, He1. split_and!.
  - apply Forall_app. split; [done|]. by constructor.
  - destruct Hl1 as [->|(link & short_code & -> & Hlink & _)]; [done|].
    apply Forall_app. split; [done|]. by constructor.
  - done.
Qed.

Lemma redirect_unattributed short_code req now (s : site W) :
  unattributed s →
  unattributed (redirect_and_track short_code req now s).2.
Proof.
  intros (Hc & Hl & He). unfold redirect_and_track.
  destruct (find_one (by_code short_code) (short_links s)) as [link|] eqn:Hfind;
    [|done].
  destruct (decide (link = ∅)) as [|_]; [done|].
  assert (link !! "campaign_id" = Some VNone) as Hlink.
  { apply find_one_elem in Hfind. rewrite Forall_forall in Hl. by apply Hl. }
  unfold get, get_default. rewrite Hlink.
  destruct (record_click_event_unattributed VNone short_code
              (default "unknown" (client_host req))
              (default "unknown" (user_agent req))
              (default "" (referer req)) now s eq_refl)
    as (r & links & -> & Hlinks).
  assert (Forall (λ l : doc, l !! "campaign_id" = Some VNone) links) as Hl'.
  { destruct (Mongo.update_one (by_code short_code) (UInc "clicks" 1)
                (short_links s)) as [l|e] eqn:Hu.
    - destruct Hlinks as [-> _]. by eapply update_one_inc_lookup; [|exact Hu|].
    - by destruct Hlinks as [-> _]. }
  assert (∀ r : response,
            unattributed
              (r, Site (Site.with_next_id s) links
                    (click_events s
                     ++ [<["_id" := VOid (fresh_id
                                            (next_id (st_store (site_state s))))]>
                           (click_doc VNone short_code
                              (default "unknown" (client_host req))
                              (default "unknown" (user_agent req))
                              (default "" (referer req)) now)])).2) as Hs'.
  { intros r0. unfold unattributed.
    cbn [snd site_state short_links click_events Site.with_next_id st_store
         campaigns].
    split_and!; [done | done |].
    apply Forall_app. split; [done|]. constructor; [|constructor].
    by rewrite lookup_insert_ne. }
  destruct (link !! "long_url"); apply Hs'.
Qed.

Lemma manager_step_total_clicks (st st' : state W) :
  manager_step twitter ai st st' →
  Forall (λ c : doc, c !! "total_clicks" = Some (VInt 0)) (campaigns (st_store st)) →
  Forall (λ c : doc, c !! "total_clicks" = Some (VInt 0)) (campaigns (st_store st')).
Proof.
  intros Hstep Hc. destruct Hstep as [data now st|cid now st|cid now st|cid now st].
  - destruct (create_campaign_total_clicks data now st) as [->|(c & Hc0 & ->)];
      [done|].
    apply Forall_app. split; [done|]. by constructor.
  - rewrite StatusFacts.start_campaign_state.
    destruct (api_is_authenticated twitter (st_world st)); [|done].
    destruct (ObjectId cid); [|done]. cbn [st_store Db.with_documents campaigns].
    apply update_first_Forall; [|done].
    intros d Hd. by rewrite with_status_total_clicks.
  - rewrite StatusFacts.stop_campaign_state.
    destruct (ObjectId cid); [|done]. cbn [st_store Db.with_documents campaigns].
    apply update_first_Forall; [|done].
    intros d Hd. by rewrite with_status_total_clicks.
  - destruct (SchedulerFacts.process_pending_reply_campaigns twitter ai cid now st)
      as [Heq|(oid & l & Hl & Heq)];
      cbv zeta in Heq; rewrite Heq; [done|].
    by eapply update_one_inc_lookup; [|exact Hl|].
Qed.

Lemma site_step_unattributed (s s' : site W) :
  site_step outside twitter ai str_of_http_exception s s' →
  unattributed s → unattributed s'.
Proof.
  intros Hstep Hs.
  destruct Hstep as [link_shortener request now s|short_code req now s|s st' Hm].
  - by apply api_create_unattributed.
  - by apply redirect_unattributed.
  - destruct Hs as (Hc & Hl & He). split_and!; [|done|done].
    by apply (manager_step_total_clicks (site_state s)).
Qed.

(** X29: no click is ever counted for a campaign.  The endpoint that
    creates a campaign asks for the short link without a campaign, so the
    link names none; [redirect_and_track] hands the campaign of the link to
    [record_click_event], which then stores the click event without a
    campaign and does not touch the campaign.  From a site in which no
    link and no click event names a campaign and every campaign has zero
    [total_clicks], in particular from the empty one, every sequence of
    campaign creations through the endpoint, of redirects and of writes of
    the campaign manager leads to such a site again: [total_clicks] stays
    zero however often the links are followed. *)
Theorem clicks_are_never_counted_for_a_campaign (s s' : site W) :
  rtc (site_step outside twitter ai str_of_http_exception) s s' →
  unattributed s → unattributed s'.
Proof.
  induction 1 as [s|s s1 s' Hstep _ IH]; [done|].
  intros Hs. by apply IH, (site_step_unattributed s).
Qed.

End Attribution.

Lemma created_through_the_endpoint_witness :
  ∃ campaign_id short_url campaign,
    (CampaignsApi.create_campaign TrackingScenario.offline
       TrackingScenario.status_and_detail TrackingScenario.shortener
       TrackingScenario.rust_request (10 * Scenario.day)
       TrackingScenario.empty_site).1
      = Json (CampaignsApi.created (VStr campaign_id) short_url) ∧
    campaigns (st_store (site_state TrackingScenario.created))
      = campaigns (st_store (site_state TrackingScenario.empty_site))
        ++ [campaign] ∧
    campaign !! "_id" = Some (VOid campaign_id) ∧
    campaign !! "status" = Some (VStr "draft") ∧
    campaign !! "short_url" = Some short_url ∧
    campaign !! "total_clicks" = Some (VInt 0) ∧
    campaign !! "reply_model"
      = Some (optional (CampaignsApi.reply_model TrackingScenario.rust_request)) ∧
    campaign !! "daily_reply_limit"
      = Some (VInt (CampaignsApi.daily_reply_limit TrackingScenario.rust_request)) ∧
    campaign !! "max_replies_per_day" = None ∧
    click_events TrackingScenario.created
      = click_events TrackingScenario.empty_site ∧
    (short_links TrackingScenario.created
       = short_links TrackingScenario.empty_site
     ∨ ∃ link short_code,
         short_links TrackingScenario.created
           = short_links TrackingScenario.empty_site ++ [link] ∧
         link !! "campaign_id" = Some VNone ∧
         link !! "long_url"
           = Some (VStr (CampaignsApi.target_url TrackingScenario.rust_request)) ∧
         link !! "short_code" = Some (VStr short_code) ∧
         link !! "clicks" = Some (VInt 0) ∧
         short_url
           = VStr (base_url TrackingScenario.shortener +:+ "/r/" +:+ short_code)).
Proof.
  exact (created_through_the_endpoint
           TrackingScenario.offline TrackingScenario.status_and_detail
           TrackingScenario.shortener TrackingScenario.rust_request
           (10 * Scenario.day) TrackingScenario.empty_site).
Defined.

Lemma clicks_are_never_counted_for_a_campaign_witness :
  unattributed TrackingScenario.clicked.
Proof.
  apply (clicks_are_never_counted_for_a_campaign
           TrackingScenario.offline
           (Scenario.twitter Scenario.replying) (Scenario.ai Scenario.replying)
           TrackingScenario.status_and_detail
           TrackingScenario.empty_site TrackingScenario.clicked).
  - apply (rtc_l _ _ TrackingScenario.created).
    + exact (site_create TrackingScenario.offline
               (Scenario.twitter Scenario.replying) (Scenario.ai Scenario.replying)
               TrackingScenario.status_and_detail TrackingScenario.shortener
               TrackingScenario.rust_request (10 * Scenario.day)
               TrackingScenario.empty_site).
    + apply rtc_once.
      exact (site_redirect TrackingScenario.offline
               (Scenario.twitter Scenario.replying) (Scenario.ai Scenario.replying)
               TrackingScenario.status_and_detail "hhhhhh"
               TrackingScenario.visitor Scenario.noon TrackingScenario.created).
  - by split_and!; constructor.
Defined.

End TrackingFacts.

(** ** Campaign analysis: what is stored *)
Module AnalysisFacts.
Import Mongo PostFilter Analysis CampaignManager ReplyFacts StoreFacts.
Local Open Scope Z_scope.

(** *** Objects and their contents *)

Lemma imap_snd {A B} (g : nat → A → B) (l : list A) :
  (imap (λ i x, (g i x, x)) l).*2 = l.
Proof.
  revert g. induction l as [|x l IH]; intros g; [done|].
  cbn. f_equal. apply (IH (g ∘ S)).
Qed.

Lemma fresh_refs_contents (posts : list post) :
  (PostObjects.fresh_refs posts).*2 = posts.
Proof. apply (imap_snd (λ i _, i)). Qed.

Lemma imap_fst_seq {A} (l : list A) (k : nat) :
  (imap (λ i x, ((k + i)%nat, x)) l).*1 = seq k (length l).
Proof.
  revert k. induction l as [|x l IH]; intros k; [done|].
  cbn. f_equal; [lia|]. rewrite <- (IH (S k)). f_equal.
  apply imap_ext. intros i y _. cbn. f_equal. lia.
Qed.

Lemma fresh_refs_positions (posts : list post) :
  (PostObjects.fresh_refs posts).*1 = seq 0 (length posts).
Proof. apply (imap_fst_seq posts 0). Qed.

Lemma parse_contents analysis_text (posts : list post) :
  (PostObjects._parse_grok_analysis analysis_text posts).*2
  = _parse_grok_analysis analysis_text posts.
Proof.
  unfold PostObjects._parse_grok_analysis, _parse_grok_analysis.
  destruct (parse_loop _ _ _) as [ps suitable].
  induction suitable as [|i suitable IH]; [done|].
  cbn. destruct (ps !! i); cbn; [by f_equal|done].
Qed.

Lemma distinct_prefix_all seen (posts : list (nat * post)) :
  NoDup (posts.*1) →
  (∀ r, r ∈ posts.*1 → r ∉ seen) →
  PostObjects.distinct_prefix seen posts = posts.
Proof.
  revert seen. induction posts as [|[r p] posts IH]; intros seen Hnd Hseen; [done|].
  cbn. cbn in Hnd. apply NoDup_cons in Hnd as [Hr Hnd].
  rewrite bool_decide_false by (apply Hseen; cbn; left).
  f_equal. apply IH; [done|].
  intros r' Hr' [->|Hin]%elem_of_cons; [done|].
  by apply (Hseen r'); [cbn; right|].
Qed.

Lemma distinct_prefix_fresh (posts : list post) :
  PostObjects.distinct_prefix [] (PostObjects.fresh_refs posts)
  = PostObjects.fresh_refs posts.
Proof.
  apply distinct_prefix_all.
  - rewrite fresh_refs_positions. apply NoDup_seq.
  - intros r _. apply not_elem_of_nil.
Qed.

Section WithServices.
Context {W : Type} (twitter : TwitterApi W).

(** The filter of the claims returns the contents of these objects. *)
Lemma find_matching_posts_contents usernames keywords lookback_days
    max_posts_per_user use_grok_filter campaign_context (w : W) :
  find_matching_posts twitter usernames keywords lookback_days
                      max_posts_per_user use_grok_filter campaign_context w
  = match PostObjects.find_matching_posts
            twitter usernames keywords lookback_days max_posts_per_user
            use_grok_filter campaign_context w with
    | (Ok posts, w') => (Ok posts.*2, w')
    | (Raise e, w') => (Raise e, w')
    end.
Proof.
  unfold find_matching_posts, PostObjects.find_matching_posts, bind.
  destruct (keyword_matched_posts _ _ _ _ _ w) as [[matching|e] w1]; [|done].
  destruct (gate_enabled _ _ _) as [ctx|].
  - unfold _filter_with_grok, PostObjects._filter_with_grok.
    destruct matching as [|p matching]; [done|].
    unfold bind, lift. destruct (build_prompt ctx) as [prompt|e]; [|done].
    unfold try_except, bind.
    destruct (analyze_tweets_with_grok _ _ _ _ w1) as [[[text|e]|e] w2];
      unfold ret.
    + by rewrite parse_contents.
    + by rewrite fresh_refs_contents.
    + by rewrite fresh_refs_contents.
  - unfold ret. by rewrite fresh_refs_contents.
Qed.

(** Without the gate every post is a new object. *)
Lemma find_matching_posts_fresh usernames keywords lookback_days
    max_posts_per_user campaign_context (w w' : W) posts :
  PostObjects.find_matching_posts
    twitter usernames keywords lookback_days max_posts_per_user false
    campaign_context w = (Ok posts, w') →
  PostObjects.distinct_prefix [] posts = posts.
Proof.
  unfold PostObjects.find_matching_posts, bind.
  destruct (keyword_matched_posts _ _ _ _ _ w) as [[matching|e] w1]; [|done].
  cbn [gate_enabled]. unfold ret. intros [= <- <-].
  apply distinct_prefix_fresh.
Qed.

(** *** The two loops *)

Lemma stored_post_new oid now p :
  stored_post oid now None p !! "_id" = None.
Proof.
  unfold stored_post, set_fields, post_dict, dict. cbn [fold_left].
  destruct (grok_approved p), (grok_reason p);
    rewrite !lookup_insert_ne by done; apply lookup_empty.
Qed.

Lemma stored_post_old oid now id p :
  stored_post oid now (Some id) p !! "_id" = Some id.
Proof.
  unfold stored_post, set_fields. cbn [fold_left].
  rewrite !lookup_insert_ne by done. apply lookup_insert_eq.
Qed.

Lemma save_interaction_map_run oid top_users now seed_users (s : t W) :
  save_interaction_map oid seed_users top_users now s
  = (Ok (),
     Database
       (State (Store (campaigns (st_store (campaign_state s)))
                     (matched_posts (st_store (campaign_state s)))
                     (campaign_replies (st_store (campaign_state s)))
                     (next_id (st_store (campaign_state s))
                      + N.of_nat (length seed_users)))
              (st_world (campaign_state s)) (st_tasks (campaign_state s)))
       (interaction_map s
        ++ stored_interactions oid now (next_id (st_store (campaign_state s)))
                               top_users seed_users)).
Proof.
  revert s. induction seed_users as [|seed seed_users IH]; intros s.
  - destruct s as [[[cs ms rs n] w tasks] im]. cbn.
    unfold ret. by rewrite N.add_0_r, app_nil_r.
  - cbn [save_interaction_map]. unfold bind at 1.
    unfold insert_interaction_map at 1. rewrite IH.
    cbn [campaign_state interaction_map st_store st_world st_tasks campaigns
         matched_posts campaign_replies next_id length].
    f_equal. f_equal.
    + f_equal. f_equal. lia.
    + rewrite <- app_assoc. f_equal. unfold stored_interactions. cbn [imap app].
      f_equal; [by rewrite N.add_0_r|].
      apply imap_ext. intros i seed_user _. unfold compose. cbv beta.
      do 3 f_equal. lia.
Qed.

Lemma save_posts_run oid now posts : ∀ ids seen (st : state W),
  ids_stored ids seen (matched_posts (st_store st)) →
  let saved := PostObjects.distinct_prefix seen posts in
  save_posts oid now ids posts st
  = (if bool_decide (length saved = length posts)
     then Ok () else Raise duplicate_key_error,
     State (Store (campaigns (st_store st))
                  (matched_posts (st_store st)
                   ++ stored_posts oid now (next_id (st_store st)) saved)
                  (campaign_replies (st_store st))
                  (next_id (st_store st) + N.of_nat (length saved)))
           (st_world st) (st_tasks st)).
Proof.
  induction posts as [|[r p] posts IH]; intros ids seen st Hinv saved.
  - destruct st as [[cs ms rs n] w tasks]. subst saved. cbn.
    unfold ret. by rewrite N.add_0_r, app_nil_r.
  - subst saved. cbn [save_posts PostObjects.distinct_prefix].
    unfold bind at 1. unfold insert_one at 1.
    destruct (Hinv r) as [Hseen Hstored].
    destruct (ids !! r) as [id|] eqn:Hid.
    + rewrite stored_post_old. cbn [Db.documents].
      rewrite (Hstored id eq_refl).
      rewrite (bool_decide_true (r ∈ seen)) by (apply Hseen; by eexists).
      destruct st as [[cs ms rs n] w tasks]. cbn.
      rewrite bool_decide_false by done.
      by rewrite N.add_0_r, app_nil_r.
    + rewrite stored_post_new.
      rewrite (bool_decide_false (r ∈ seen))
        by (intros Hin; apply Hseen in Hin; by destruct Hin).
      unfold Db.insert_one at 1. unfold with_id. rewrite stored_post_new.
      cbn [st_store st_world st_tasks Db.documents Db.with_documents campaigns
           matched_posts campaign_replies next_id].
      rewrite (IH _ (r :: seen)).
      * cbn [st_store st_world st_tasks campaigns matched_posts
             campaign_replies next_id length].
        f_equal.
        -- destruct (decide (length (PostObjects.distinct_prefix (r :: seen) posts)
                             = length posts)) as [Heq|Hne].
           ++ rewrite !bool_decide_true; [done|by rewrite Heq|done].
           ++ rewrite !bool_decide_false; [done|lia|done].
        -- f_equal. f_equal.
           ++ rewrite <- app_assoc. f_equal. unfold stored_posts. cbn [imap app].
              f_equal; [by rewrite N.add_0_r|].
              apply imap_ext. intros i rp _. unfold compose. cbv beta.
              do 3 f_equal. lia.
           ++ lia.
      * cbn [st_store matched_posts]. intros r'. split.
        -- destruct (decide (r' = r)) as [->|Hne].
           ++ rewrite lookup_insert_eq. split; [by eexists|left].
           ++ rewrite lookup_insert_ne by done.
              destruct (Hinv r') as [Hs _]. rewrite <- Hs.
              rewrite elem_of_cons. split; [by intros [?|?]|by right].
        -- intros id'. rewrite existsb_app.
           destruct (decide (r' = r)) as [->|Hne].
           ++ rewrite lookup_insert_eq. intros [= <-].
              cbn. unfold has_id. rewrite lookup_insert_eq.
              rewrite bool_decide_true by done. apply orb_true_r.
           ++ rewrite lookup_insert_ne by done. intros Hr'.
              destruct (Hinv r') as [_ Hst]. by rewrite (Hst id' Hr').
Qed.

Lemma ids_stored_empty (stored : list doc) : ids_stored ∅ [] stored.
Proof.
  intros r. split.
  - rewrite lookup_empty. split; [by intros ?%elem_of_nil|by intros [? ?]].
  - intros id. by rewrite lookup_empty.
Qed.


Lemma stored_post_pending o now id p :
  matches (pending_posts_of (VOid o))
          (<["_id" := id]> (stored_post (VOid o) now None p)) = true.
Proof.
  unfold matches, pending_posts_of, stored_post, set_fields.
  cbn [forallb fold_left].
  rewrite (lookup_insert_ne _ "_id" "campaign_id") by done.
  rewrite (lookup_insert_ne _ "_id" "reply_status") by done.
  rewrite (lookup_insert_ne _ "found_at" "campaign_id") by done.
  rewrite (lookup_insert_ne _ "found_at" "reply_status") by done.
  rewrite (lookup_insert_ne _ "reply_status" "campaign_id") by done.
  rewrite !lookup_insert_eq. cbn [holds].
  by rewrite !bool_decide_true.
Qed.

Lemma count_documents_stored o now first l posts :
  count_documents (pending_posts_of (VOid o))
                  (l ++ stored_posts (VOid o) now first posts)
  = count_documents (pending_posts_of (VOid o)) l + Z.of_nat (length posts).
Proof.
  unfold count_documents. rewrite List.filter_app, length_app.
  rewrite Nat2Z.inj_add. f_equal. f_equal.
  unfold stored_posts. revert first.
  induction posts as [|rp posts IH]; intros first; [done|].
  cbn [imap List.filter]. rewrite stored_post_pending. cbn [length]. f_equal.
  rewrite <- (IH (N.succ first)). f_equal. f_equal.
  apply imap_ext. intros i x _. unfold compose. cbv beta. do 3 f_equal. lia.
Qed.

(** The run of the analysis on a campaign that is found and configured. *)
Lemma analysis_run campaign_id now oid campaign c name reply_template
    target_url top_users w1 matching_posts w2 (s : t W) :
  ObjectId campaign_id = Ok oid →
  find_one (by_id oid) (campaigns (st_store (campaign_state s)))
    = Some campaign →
  configuration_of campaign = Some c →
  campaign !! "name" = Some name →
  campaign !! "reply_template" = Some reply_template →
  campaign !! "target_url" = Some target_url →
  InteractionMapper.find_top_interacted_users
    twitter (cfg_seed_users c) (cfg_top_n_users c) (cfg_lookback_days c) now
    (st_world (campaign_state s)) = (top_users, w1) →
  PostObjects.find_matching_posts
    twitter (se_username <$> top_users) (cfg_keywords c) (cfg_lookback_days c)
    5 (truthy (get_default campaign "use_grok_filter" (VBool false)))
    (Some (context name (cfg_keywords c) reply_template target_url)) w1
    = (Ok matching_posts, w2) →
  let σ := st_store (campaign_state s) in
  let saved := PostObjects.distinct_prefix [] matching_posts in
  let complete := bool_decide (length saved = length matching_posts) in
  let first := (next_id σ + N.of_nat (length (cfg_seed_users c)))%N in
  analyze_campaign twitter campaign_id now s
  = Some (Ok (if complete
              then analysed (length top_users) (length matching_posts)
              else failure duplicate_key_error),
          Database
            (State
               (Store (if complete
                       then update_first (by_id oid)
                              (set_fields
                                 [ ("analysis_completed", VBool true);
                                   ("total_matched_posts",
                                      VInt (Z.of_nat (length matching_posts)));
                                   ("updated_at", VTime now) ])
                              (campaigns σ)
                       else campaigns σ)
                      (matched_posts σ ++ stored_posts oid now first saved)
                      (campaign_replies σ)
                      (first + N.of_nat (length saved)))
               w2 (st_tasks (campaign_state s)))
            (interaction_map s
             ++ stored_interactions oid now (next_id σ) top_users
                                    (cfg_seed_users c))).
Proof.
  intros Hoid Hcampaign Hc Hname Htemplate Hurl Htop Hposts. cbv zeta.
  unfold analyze_campaign. rewrite Hoid. rewrite Hcampaign.
  destruct (decide (campaign = ∅)) as [->|_];
    [by rewrite lookup_empty in Hname|].
  rewrite Hc. f_equal.
  unfold try_except, analysis.
  unfold bind at 1. unfold lift at 1. unfold getitem at 1. rewrite Hname.
  unfold bind at 1. unfold on_state at 1. unfold Db.on_world at 1.
  rewrite Htop.
  unfold bind at 1. rewrite save_interaction_map_run.
  cbn [campaign_state interaction_map st_store st_world st_tasks campaigns
       matched_posts campaign_replies next_id].
  unfold bind at 1. unfold lift at 1. unfold getitem at 1. rewrite Htemplate.
  unfold bind at 1. unfold lift at 1. unfold getitem at 1. rewrite Hurl.
  unfold bind at 1. unfold on_state at 1. unfold Db.on_world at 1.
  cbn [campaign_state interaction_map st_store st_world st_tasks campaigns
       matched_posts campaign_replies next_id].
  rewrite Hposts.
  unfold bind at 1. unfold on_state at 1.
  cbn [campaign_state interaction_map].
  rewrite (save_posts_run _ _ _ ∅ []) by apply ids_stored_empty.
  cbn [st_store st_world st_tasks campaigns matched_posts campaign_replies
       next_id].
  destruct (bool_decide _).
  - unfold bind at 1. unfold on_state at 1. unfold Db.update_one at 1.
    unfold analysis_completed. rewrite update_one_set.
    cbn [campaign_state interaction_map st_store st_world st_tasks campaigns
         matched_posts campaign_replies next_id Db.documents
         Db.with_documents].
    reflexivity.
  - reflexivity.
Qed.

(** X30: what the analysis of a campaign stores.  For a campaign that is
    found, whose seed users and keywords are lists of strings and whose two
    numbers are integers, [analyze_campaign] asks the mapper for the top
    users and the filter for their matching posts, and writes: one
    [interaction_map] document per seed user; then the matching posts in
    their order, each as a pending post of the campaign, up to the first
    post object that the filter returned for the second time.  When no
    object comes twice, it sets [analysis_completed] and
    [total_matched_posts] on the campaign and reports the two counts.  When
    one does (the answer of Grok approved a tweet on two lines), the second
    insertion of the object is refused for its [_id]: the call reports the
    error, the posts before it stay stored as pending posts, and the
    campaign is left as it was, without [analysis_completed].  Without the
    Grok filter no object comes twice. *)
Theorem analysis_stores_posts_up_to_a_repeated_object campaign_id now o
    campaign c name reply_template target_url top_users w1 matching_posts w2
    (s : t W) :
  ObjectId campaign_id = Ok (VOid o) →
  find_one (by_id (VOid o)) (campaigns (st_store (campaign_state s)))
    = Some campaign →
  configuration_of campaign = Some c →
  campaign !! "name" = Some name →
  campaign !! "reply_template" = Some reply_template →
  campaign !! "target_url" = Some target_url →
  InteractionMapper.find_top_interacted_users
    twitter (cfg_seed_users c) (cfg_top_n_users c) (cfg_lookback_days c) now
    (st_world (campaign_state s)) = (top_users, w1) →
  PostObjects.find_matching_posts
    twitter (se_username <$> top_users) (cfg_keywords c) (cfg_lookback_days c)
    5 (truthy (get_default campaign "use_grok_filter" (VBool false)))
    (Some (context name (cfg_keywords c) reply_template target_url)) w1
    = (Ok matching_posts, w2) →
  let σ := st_store (campaign_state s) in
  let saved := PostObjects.distinct_prefix [] matching_posts in
  let complete := bool_decide (length saved = length matching_posts) in
  ∃ s',
    analyze_campaign twitter campaign_id now s
    = Some (Ok (if complete
                then analysed (length top_users) (length matching_posts)
                else failure duplicate_key_error), s') ∧
    st_world (campaign_state s') = w2 ∧
    interaction_map s'
    = interaction_map s
      ++ stored_interactions (VOid o) now (next_id σ) top_users
                             (cfg_seed_users c) ∧
    matched_posts (st_store (campaign_state s'))
    = matched_posts σ
      ++ stored_posts (VOid o) now
           (next_id σ + N.of_nat (length (cfg_seed_users c))) saved ∧
    count_documents (pending_posts_of (VOid o))
                    (matched_posts (st_store (campaign_state s')))
    = count_documents (pending_posts_of (VOid o)) (matched_posts σ)
      + Z.of_nat (length saved) ∧
    find_one (by_id (VOid o)) (campaigns (st_store (campaign_state s')))
    = Some (if complete
            then set_fields
                   [ ("analysis_completed", VBool true);
                     ("total_matched_posts",
                        VInt (Z.of_nat (length matching_posts)));
                     ("updated_at", VTime now) ] campaign
            else campaign) ∧
    (truthy (get_default campaign "use_grok_filter" (VBool false)) = false →
     complete = true).
Proof.
  intros Hoid Hcampaign Hc Hname Htemplate Hurl Htop Hposts σ saved complete.
  eexists. split; [by apply (analysis_run campaign_id now (VOid o) campaign c
                               name reply_template target_url top_users w1
                               matching_posts w2 s)|].
  cbn [campaign_state interaction_map st_store st_world st_tasks campaigns
       matched_posts campaign_replies next_id].
  fold σ. fold saved. fold complete.
  split_and!; try done.
  - apply count_documents_stored.
  - destruct complete; [|done].
    apply (update_first_find _ _ _ campaign Hcampaign).
    rewrite matches_set_fields_id; [by apply find_one_matches in Hcampaign|].
    cbn. rewrite !elem_of_cons. intros [?|[?|[?|?%elem_of_nil]]]; done.
  - intros Hgate. subst complete saved. rewrite Hgate in Hposts.
    rewrite (find_matching_posts_fresh _ _ _ _ _ _ _ _ Hposts).
    by apply bool_decide_true.
Qed.

End WithServices.

Lemma analysis_stores_posts_up_to_a_repeated_object_witness :
  ∃ s',
    analyze_campaign (Scenario.twitter AnalysisScenario.approving_twice)
                     Scenario.first_id Scenario.noon AnalysisScenario.gated
    = Some (Ok (failure duplicate_key_error), s') ∧
    st_world (campaign_state s') = Scenario.logged_in ∧
    interaction_map s'
    = interaction_map AnalysisScenario.gated
      ++ stored_interactions (VOid Scenario.first_id) Scenario.noon 1
           [ScoreEntry "alice" 1 Scenario.noon] ["@a"] ∧
    matched_posts (st_store (campaign_state s'))
    = matched_posts (st_store (campaign_state AnalysisScenario.gated))
      ++ stored_posts (VOid Scenario.first_id) Scenario.noon 2
           [(0%nat, AnalysisScenario.first_approved);
            (1%nat, AnalysisScenario.second_approved)] ∧
    count_documents (pending_posts_of (VOid Scenario.first_id))
                    (matched_posts (st_store (campaign_state s')))
    = count_documents (pending_posts_of (VOid Scenario.first_id))
        (matched_posts (st_store (campaign_state AnalysisScenario.gated)))
      + 2 ∧
    find_one (by_id (VOid Scenario.first_id))
             (campaigns (st_store (campaign_state s')))
    = Some (Scenario.the_campaign (campaign_state AnalysisScenario.gated)) ∧
    (truthy (get_default
               (Scenario.the_campaign (campaign_state AnalysisScenario.gated))
               "use_grok_filter" (VBool false)) = false →
     false = true).
Proof.
  exact (analysis_stores_posts_up_to_a_repeated_object
           (Scenario.twitter AnalysisScenario.approving_twice)
           Scenario.first_id Scenario.noon Scenario.first_id
           (Scenario.the_campaign (campaign_state AnalysisScenario.gated))
           AnalysisScenario.rust_configuration
           (VStr "Rust book") (VStr "Hi {author}, see {url}")
           (VStr "https://example.org/rust")
           [ScoreEntry "alice" 1 Scenario.noon] Scenario.logged_in
           [(0%nat, AnalysisScenario.first_approved);
            (1%nat, AnalysisScenario.second_approved);
            (0%nat, AnalysisScenario.first_approved)]
           Scenario.logged_in AnalysisScenario.gated
           ltac:(apply ObjectId_fresh_id) ltac:(compute_done)
           ltac:(compute_done) ltac:(compute_done) ltac:(compute_done)
           ltac:(compute_done) ltac:(compute_done) ltac:(compute_done)).
Defined.

End AnalysisFacts.
